(** * Lambda Deployer: the upsert workflow against the cloud provider's APIs

    The deployer ([lambda_deployer]) is a sequential program whose only
    effects are calls into the provider's SDK clients (IAM, STS, Lambda, S3,
    EC2).  The development embeds each manager as a program in a small
    state / exception / call-log monad, run against an arbitrary
    collaborator, and proves the properties of the deployment workflow for
    every collaborator. *)

From Stdlib Require Import Ascii String List Bool ZArith Lia.
From stdpp Require Import base option list gmap strings.
Import ListNotations.

Local Open Scope string_scope.
Local Open Scope list_scope.

(** ** Exceptions *)

(** An interpolated value of an f-string: a string, or a list of strings. *)
Inductive FmtArg : Type :=
| FStr (s : string)
| FList (l : list string).

(** The exceptions the deployer raises or lets through.  A [ValueError]
    keeps the f-string of the source and the values interpolated into it, in
    order. *)
Inductive Exn : Type :=
| ClientError (code : string)
    (* botocore ClientError, [e.response['Error']['Code']] *)
| ValueError (fmt : string) (args : list FmtArg)
| KeyError (key : string)
| SdkError (name : string).
    (* any other exception of the SDK (WaiterError, connection errors) *)

(** ** Requests and responses of the provider's clients *)

(** Only the fields the deployer reads are kept; a field read with [.get]
    is optional. *)
Record Vpc := { Vpc_State : option string }.

Record Subnet := {
  Subnet_SubnetId : option string;
  Subnet_VpcId : option string;
  Subnet_State : option string }.

Record SecurityGroup := {
  SecurityGroup_GroupId : option string;
  SecurityGroup_VpcId : option string }.

(** One page of a paginated IAM listing. *)
Record Page (A : Type) := {
  Items : option (list A);
  IsTruncated : option bool;
  Marker : option string }.
Arguments Items {A} _.
Arguments IsTruncated {A} _.
Arguments Marker {A} _.

(** A policy document (the dict handed to [json.dumps]). *)
Record Statement := {
  Effect : string;
  Principal_Service : option string;
  Action : list string;
  Resource : list string }.

Record PolicyDocument := {
  Version : string;
  Statements : list Statement }.

(** The network-attachment descriptor ([vpc_config]). *)
Record VpcConfig := {
  SubnetIds : list string;
  SecurityGroupIds : option (list string) }.

(** Keyword arguments of [create_function]. *)
Record CreateFunctionParams := {
  cf_FunctionName : string;
  cf_Role : string;
  cf_PackageType : string;
  cf_ImageUri : string;
  cf_MemorySize : Z;
  cf_Timeout : Z;
  cf_VpcConfig : option VpcConfig }.

(** Keyword arguments of [update_function_configuration]; a key that is not
    passed is [None]. *)
Record ConfigurationParams := {
  uc_FunctionName : string;
  uc_Role : option string;
  uc_MemorySize : option Z;
  uc_Timeout : option Z;
  uc_VpcConfig : option VpcConfig;
  uc_Environment : option (gmap string string) }.

(** Response of [get_function_configuration]: the ['Environment'] key may be
    missing, and so may its ['Variables'] key. *)
Record FunctionConfiguration := {
  Environment : option (option (gmap string string)) }.

(** The operations of the SDK clients the deployer uses, indexed by the type
    of their response. *)
Inductive Api : Type -> Type :=
(* ec2 *)
| describe_vpcs (VpcIds : list string) : Api (option (list Vpc))
| describe_subnets (SubnetIds : list string) : Api (option (list Subnet))
| describe_security_groups (GroupIds : list string)
    : Api (option (list SecurityGroup))
(* iam *)
| get_role (RoleName : string) : Api string
| create_role (RoleName : string) (AssumeRolePolicyDocument : PolicyDocument)
    (Description : string) : Api string
| delete_role (RoleName : string) : Api unit
| get_policy (PolicyArn : string) : Api string
| create_policy (PolicyName : string) (Document : PolicyDocument)
    (Description : string) : Api string
| delete_policy (PolicyArn : string) : Api unit
| attach_role_policy (RoleName PolicyArn : string) : Api unit
| detach_role_policy (RoleName PolicyArn : string) : Api unit
| list_entities_for_policy (PolicyArn EntityFilter : string)
    (marker : option string) : Api (Page string)
| list_attached_role_policies (RoleName : string) (marker : option string)
    : Api (Page string)
| list_role_policies (RoleName : string) (marker : option string)
    : Api (Page string)
| delete_role_policy (RoleName PolicyName : string) : Api unit
(* sts *)
| get_caller_identity : Api string
(* lambda *)
| get_function (FunctionName : string) : Api unit
| create_function (params : CreateFunctionParams) : Api string
| update_function_code (FunctionName ImageUri : string) : Api string
| update_function_configuration (params : ConfigurationParams) : Api string
| get_function_configuration (FunctionName : string)
    : Api FunctionConfiguration
| waiter_wait (waiter FunctionName : string) : Api unit
(* s3 *)
| head_bucket (Bucket : string) : Api unit.

(** What a client call comes back with: a response, or an exception. *)
Inductive Reply (R : Type) : Type :=
| Ok (r : R)
| Fault (e : Exn).
Arguments Ok {R} _.
Arguments Fault {R} _.

(** One entry of the call log: the operation and what it was answered. *)
Inductive Event : Type :=
| Called {R : Type} (op : Api R) (reply : Reply R).

(** The collaborator: the provider behind the SDK clients, as a transition
    function on its own state. *)
Definition Collaborator (W : Type) : Type :=
  forall R : Type, Api R -> W -> Reply R * W.

(** ** The program monad *)

Inductive Outcome (A : Type) : Type :=
| Return (a : A)
| Raise (e : Exn)
| OutOfFuel.
Arguments Return {A} _.
Arguments Raise {A} _.
Arguments OutOfFuel {A}.

Record Run (W A : Type) := MkRun {
  outcome : Outcome A;
  world : W;
  calls : list Event }.
Arguments MkRun {W A} _ _ _.
Arguments outcome {W A} _.
Arguments world {W A} _.
Arguments calls {W A} _.

Definition M (W A : Type) : Type := W -> Run W A.

Section Monad.
Context {W : Type}.

Definition ret {A} (a : A) : M W A := fun w => MkRun (Return a) w [].

Definition raise {A} (e : Exn) : M W A := fun w => MkRun (Raise e) w [].

Definition out_of_fuel {A} : M W A := fun w => MkRun OutOfFuel w [].

Definition bind {A B} (m : M W A) (f : A -> M W B) : M W B :=
  fun w =>
    let r := m w in
    match outcome r with
    | Return a =>
        let r' := f a (world r) in
        MkRun (outcome r') (world r') (calls r ++ calls r')
    | Raise e => MkRun (Raise e) (world r) (calls r)
    | OutOfFuel => MkRun OutOfFuel (world r) (calls r)
    end.

(** [try: m except e: h e] *)
Definition try_except {A} (m : M W A) (h : Exn -> M W A) : M W A :=
  fun w =>
    let r := m w in
    match outcome r with
    | Raise e =>
        let r' := h e (world r) in
        MkRun (outcome r') (world r') (calls r ++ calls r')
    | _ => r
    end.

(** A client call: ask the collaborator, log the call and its reply. *)
Definition call (aws : Collaborator W) {R} (op : Api R) : M W R :=
  fun w =>
    let '(reply, w') := aws R op w in
    MkRun (match reply with Ok r => Return r | Fault e => Raise e end)
          w' [Called op reply].

(** [d[key]] on a key that may be missing. *)
Definition subscript {A} (key : string) (v : option A) : M W A :=
  match v with
  | Some a => ret a
  | None => raise (KeyError key)
  end.
End Monad.

Notation "x <- c1 ;; c2" := (bind c1 (fun x => c2))
  (at level 100, c1 at next level, right associativity).
Notation "c1 ;; c2" := (bind c1 (fun _ => c2))
  (at level 100, right associativity).

(** Python truthiness of the argument types in use. *)
Definition truthy_str (s : string) : bool :=
  match s with "" => false | _ => true end.

Definition truthy_opt_str (s : option string) : bool :=
  match s with Some s => truthy_str s | None => false end.

Definition truthy_list {A} (l : list A) : bool :=
  match l with [] => false | _ => true end.

Definition truthy_opt_list {A} (l : option (list A)) : bool :=
  match l with Some l => truthy_list l | None => false end.

(** ** s3/access_manager.py *)

Module S3AccessManager.
Section S3AccessManager.
Context {W : Type} (aws : Collaborator W).

Definition _bucket_exists (bucket_name : string) : M W bool :=
  try_except
    (call aws (head_bucket bucket_name) ;;
     ret true)
    (fun e =>
       match e with
       | ClientError error_code =>
           if String.eqb error_code "404" then ret false
           else if String.eqb error_code "403" then ret false
           else raise e
       | _ => raise e
       end).

(** [response.get('Environment', {}).get('Variables', {})] *)
Definition current_env (response : FunctionConfiguration)
  : gmap string string :=
  match Environment response with
  | Some (Some vars) => vars
  | _ => ∅
  end.

Definition _update_lambda_environment (function_name s3_bucket : string)
  : M W unit :=
  response <- call aws (get_function_configuration function_name) ;;
  let updated_env := <["S3_BUCKET" := s3_bucket]> (current_env response) in
  call aws (update_function_configuration
              {| uc_FunctionName := function_name;
                 uc_Role := None;
                 uc_MemorySize := None;
                 uc_Timeout := None;
                 uc_VpcConfig := None;
                 uc_Environment := Some updated_env |}) ;;
  call aws (waiter_wait "function_updated" function_name) ;;
  ret tt.

Definition configure_s3_access (function_name s3_bucket : string)
  : M W bool :=
  exists_ <- _bucket_exists s3_bucket ;;
  if negb exists_ then
    raise (ValueError
             "S3 bucket {s3_bucket} does not exist or is not accessible"
             [FStr s3_bucket])
  else
    _update_lambda_environment function_name s3_bucket ;;
    ret true.
End S3AccessManager.
End S3AccessManager.

(** ** lambda_func/function_deployer.py *)

Module LambdaFunctionDeployer.
Section LambdaFunctionDeployer.
Context {W : Type} (aws : Collaborator W).

Definition _function_exists (function_name : string) : M W bool :=
  try_except
    (call aws (get_function function_name) ;;
     ret true)
    (fun e =>
       match e with
       | ClientError code =>
           if String.eqb code "ResourceNotFoundException" then ret false
           else raise e
       | _ => raise e
       end).

Definition _create_function (function_name ecr_image_uri role_arn : string)
    (memory_size timeout : Z) (vpc_config : option VpcConfig) : M W string :=
  function_arn <-
    call aws (create_function
                {| cf_FunctionName := function_name;
                   cf_Role := role_arn;
                   cf_PackageType := "Image";
                   cf_ImageUri := ecr_image_uri;
                   cf_MemorySize := memory_size;
                   cf_Timeout := timeout;
                   cf_VpcConfig := vpc_config |}) ;;
  call aws (waiter_wait "function_active" function_name) ;;
  ret function_arn.

Definition _update_function_code (function_name ecr_image_uri : string)
  : M W string :=
  function_arn <-
    call aws (update_function_code function_name ecr_image_uri) ;;
  call aws (waiter_wait "function_updated" function_name) ;;
  ret function_arn.

Definition _update_function_configuration (function_name role_arn : string)
    (memory_size timeout : Z) (vpc_config : option VpcConfig) : M W string :=
  function_arn <-
    call aws (update_function_configuration
                {| uc_FunctionName := function_name;
                   uc_Role := Some role_arn;
                   uc_MemorySize := Some memory_size;
                   uc_Timeout := Some timeout;
                   uc_VpcConfig := vpc_config;
                   uc_Environment := None |}) ;;
  call aws (waiter_wait "function_updated" function_name) ;;
  ret function_arn.

Definition deploy_function (function_name ecr_image_uri role_arn : string)
    (memory_size timeout : Z) (vpc_config : option VpcConfig) : M W string :=
  function_exists <- _function_exists function_name ;;
  if function_exists : bool then
    _update_function_code function_name ecr_image_uri ;;
    _update_function_configuration
      function_name role_arn memory_size timeout vpc_config
  else
    _create_function
      function_name ecr_image_uri role_arn memory_size timeout vpc_config.
End LambdaFunctionDeployer.
End LambdaFunctionDeployer.

(** ** vpc/configurator.py *)

(** [o == s] for a value read with [.get]. *)
Definition opt_is (o : option string) (s : string) : bool :=
  match o with
  | Some v => String.eqb v s
  | None => false
  end.

(** The list behind an optional list argument. *)
Definition the_list {A} (o : option (list A)) : list A :=
  match o with
  | Some l => l
  | None => []
  end.

Module VPCConfigurator.
Section VPCConfigurator.
Context {W : Type} (aws : Collaborator W).

(** [except ClientError as e]: [False] on the given code, re-raise
    otherwise. *)
Definition not_found_is_false (code : string) (e : Exn) : M W bool :=
  match e with
  | ClientError c => if String.eqb c code then ret false else raise e
  | _ => raise e
  end.

Definition _validate_vpc (vpc_id : string) : M W bool :=
  try_except
    (response <- call aws (describe_vpcs [vpc_id]) ;;
     match response with
     | Some (vpc :: _) =>
         if negb (opt_is (Vpc_State vpc) "available") then ret false
         else ret true
     | _ => ret false
     end)
    (not_found_is_false "InvalidVpcID.NotFound").

(** The [for subnet in response['Subnets']] loop, [false] standing for its
    early [return False]. *)
Fixpoint subnets_belong (vpc_id : string) (subnets : list Subnet) : bool :=
  match subnets with
  | [] => true
  | subnet :: rest =>
      if negb (opt_is (Subnet_VpcId subnet) vpc_id) then false
      else if negb (opt_is (Subnet_State subnet) "available") then false
      else subnets_belong vpc_id rest
  end.

Definition _validate_subnets (subnet_ids : list string) (vpc_id : string)
  : M W bool :=
  try_except
    (response <- call aws (describe_subnets subnet_ids) ;;
     if negb (length (the_list response) =? length subnet_ids)%nat
     then ret false
     else
       subnets <- subscript "Subnets" response ;;
       ret (subnets_belong vpc_id subnets))
    (not_found_is_false "InvalidSubnetID.NotFound").

Fixpoint security_groups_belong (vpc_id : string)
    (groups : list SecurityGroup) : bool :=
  match groups with
  | [] => true
  | sg :: rest =>
      if negb (opt_is (SecurityGroup_VpcId sg) vpc_id) then false
      else security_groups_belong vpc_id rest
  end.

Definition _validate_security_groups (security_group_ids : list string)
    (vpc_id : string) : M W bool :=
  try_except
    (response <- call aws (describe_security_groups security_group_ids) ;;
     if negb (length (the_list response) =? length security_group_ids)%nat
     then ret false
     else
       groups <- subscript "SecurityGroups" response ;;
       ret (security_groups_belong vpc_id groups))
    (not_found_is_false "InvalidGroup.NotFound").

Definition create_vpc_config (vpc_id : string) (subnet_ids : list string)
    (security_group_ids : option (list string)) : M W VpcConfig :=
  vpc_ok <- _validate_vpc vpc_id ;;
  if negb vpc_ok then
    raise (ValueError "Invalid VPC: {vpc_id}" [FStr vpc_id])
  else
    subnets_ok <- _validate_subnets subnet_ids vpc_id ;;
    if negb subnets_ok then
      raise (ValueError "Invalid subnets: {subnet_ids}" [FList subnet_ids])
    else
      groups_bad <-
        (if truthy_opt_list security_group_ids then
           groups_ok <-
             _validate_security_groups (the_list security_group_ids) vpc_id ;;
           ret (negb groups_ok)
         else ret false) ;;
      if groups_bad : bool then
        raise (ValueError "Invalid security groups: {security_group_ids}"
                 [FList (the_list security_group_ids)])
      else
        ret {| SubnetIds := subnet_ids;
               SecurityGroupIds :=
                 if truthy_opt_list security_group_ids
                 then security_group_ids else None |}.
End VPCConfigurator.
End VPCConfigurator.

(** ** iam/role_manager.py *)

Module IAMRoleManager.
Section IAMRoleManager.
Context {W : Type} (aws : Collaborator W).

Definition lambda_execution_trust_policy : PolicyDocument :=
  {| Version := "2012-10-17";
     Statements :=
       [ {| Effect := "Allow";
            Principal_Service := Some "lambda.amazonaws.com";
            Action := ["sts:AssumeRole"];
            Resource := [] |} ] |}.

(** The [policy_document] of [_create_s3_access_policy]. *)
Definition s3_access_policy_document (s3_bucket : string) : PolicyDocument :=
  {| Version := "2012-10-17";
     Statements :=
       [ {| Effect := "Allow";
            Principal_Service := None;
            Action := ["s3:GetObject"; "s3:PutObject"; "s3:ListBucket";
                       "s3:DeleteObject"];
            Resource := ["arn:aws:s3:::" +:+ s3_bucket;
                         "arn:aws:s3:::" +:+ s3_bucket +:+ "/*"] |} ] |}.

Definition basic_execution_policy_document : PolicyDocument :=
  {| Version := "2012-10-17";
     Statements :=
       [ {| Effect := "Allow";
            Principal_Service := None;
            Action := ["logs:CreateLogGroup"; "logs:CreateLogStream";
                       "logs:PutLogEvents"];
            Resource := ["arn:aws:logs:*:*:*"] |} ] |}.

Definition s3_access_policy_name (role_name : string) : string :=
  role_name +:+ "-s3-access".

Definition policy_arn_of (account policy_name : string) : string :=
  "arn:aws:iam::" +:+ account +:+ ":policy/" +:+ policy_name.

Definition _get_account_id : M W string :=
  call aws get_caller_identity.

(** [for x in items: body(x)] *)
Fixpoint for_each {A} (body : A -> M W unit) (items : list A) : M W unit :=
  match items with
  | [] => ret tt
  | x :: rest => body x ;; for_each body rest
  end.

(** [while response.get('IsTruncated', False)]: fetch the next page with
    the marker of the last one and run the body on its items.  [fuel]
    bounds the number of iterations. *)
Fixpoint while_truncated {A} (fuel : nat)
    (next_page : option string -> Api (Page A)) (body : A -> M W unit)
    (response : Page A) : M W unit :=
  if default false (IsTruncated response) then
    match fuel with
    | O => out_of_fuel
    | S fuel' =>
        marker <- subscript "Marker" (Marker response) ;;
        response' <- call aws (next_page (Some marker)) ;;
        for_each body (the_list (Items response')) ;;
        while_truncated fuel' next_page body response'
    end
  else ret tt.

(** The first page, then the remaining ones. *)
Definition for_each_page {A} (fuel : nat)
    (next_page : option string -> Api (Page A)) (body : A -> M W unit)
  : M W unit :=
  response <- call aws (next_page None) ;;
  for_each body (the_list (Items response)) ;;
  while_truncated fuel next_page body response.

Definition _detach_policy_from_all_entities (fuel : nat)
    (policy_arn : string) : M W unit :=
  for_each_page fuel (list_entities_for_policy policy_arn "Role")
    (fun role => call aws (detach_role_policy role policy_arn)).

Definition _delete_policy (fuel : nat) (policy_arn : string) : M W unit :=
  _detach_policy_from_all_entities fuel policy_arn ;;
  call aws (delete_policy policy_arn).

Definition _create_s3_access_policy (fuel : nat)
    (role_name s3_bucket : string) : M W string :=
  let policy_name := s3_access_policy_name role_name in
  try_except
    (account <- _get_account_id ;;
     arn <- call aws (get_policy (policy_arn_of account policy_name)) ;;
     _delete_policy fuel arn)
    (fun e =>
       match e with
       | ClientError code =>
           if negb (String.eqb code "NoSuchEntity") then raise e
           else ret tt
       | _ => raise e
       end) ;;
  call aws (create_policy policy_name (s3_access_policy_document s3_bucket)
              ("S3 access policy for Lambda function role " +:+ role_name)).

Definition _detach_all_policies_from_role (fuel : nat) (role_name : string)
  : M W unit :=
  for_each_page fuel (list_attached_role_policies role_name)
    (fun policy => call aws (detach_role_policy role_name policy)) ;;
  for_each_page fuel (list_role_policies role_name)
    (fun policy_name => call aws (delete_role_policy role_name policy_name)).

Definition _delete_role (fuel : nat) (role_name : string) : M W unit :=
  _detach_all_policies_from_role fuel role_name ;;
  call aws (delete_role role_name).

Definition _role_exists (role_name : string) : M W bool :=
  try_except
    (call aws (get_role role_name) ;;
     ret true)
    (fun e =>
       match e with
       | ClientError code =>
           if String.eqb code "NoSuchEntity" then ret false else raise e
       | _ => raise e
       end).

(** [time.sleep(seconds)] has no effect on the provider. *)
Definition time_sleep (seconds : nat) : M W unit := ret tt.

Definition _create_role (role_name : string) : M W string :=
  role_arn <-
    call aws (create_role role_name lambda_execution_trust_policy
                "Role for Lambda function execution with S3 access") ;;
  let basic_execution_policy_name := role_name +:+ "-basic-execution" in
  try_except
    (basic_policy_arn <-
       call aws (create_policy basic_execution_policy_name
                   basic_execution_policy_document
                   ("Basic execution policy for Lambda function role "
                      +:+ role_name)) ;;
     call aws (attach_role_policy role_name basic_policy_arn))
    (fun e =>
       match e with
       | ClientError code =>
           if String.eqb code "EntityAlreadyExists" then
             account_id <- _get_account_id ;;
             call aws (attach_role_policy role_name
                         (policy_arn_of account_id
                            basic_execution_policy_name))
           else raise e
       | _ => raise e
       end) ;;
  time_sleep 5 ;;
  ret role_arn.

Definition create_or_update_role (fuel : nat) (role_name s3_bucket : string)
    (force_recreate : bool) : M W string :=
  role_exists <- _role_exists role_name ;;
  role_exists <-
    (if role_exists && force_recreate then
       _delete_role fuel role_name ;;
       ret false
     else ret role_exists) ;;
  role_arn <-
    (if negb role_exists then _create_role role_name
     else call aws (get_role role_name)) ;;
  s3_policy_arn <- _create_s3_access_policy fuel role_name s3_bucket ;;
  call aws (attach_role_policy role_name s3_policy_arn) ;;
  ret role_arn.
End IAMRoleManager.
End IAMRoleManager.

(** ** main.py *)

Record DeploymentResult := {
  function_arn : string;
  role_arn : string }.

Module LambdaDeployer.
Section LambdaDeployer.
Context {W : Type} (aws : Collaborator W).

Definition deploy (fuel : nat)
    (ecr_image_uri function_name s3_bucket : string)
    (role_name : option string) (memory_size timeout : Z)
    (vpc_id : option string) (subnet_ids security_group_ids : option (list string))
    (force_recreate_role : bool) : M W DeploymentResult :=
  if negb (truthy_str ecr_image_uri) then
    raise (ValueError "ECR image URI is required" [])
  else if negb (truthy_str function_name) then
    raise (ValueError "Function name is required" [])
  else if negb (truthy_str s3_bucket) then
    raise (ValueError "S3 bucket name is required" [])
  else
    let role_name :=
      if negb (truthy_opt_str role_name)
      then "lambda-" +:+ function_name +:+ "-role"
      else default "" role_name in
    vpc_config <-
      (if truthy_opt_str vpc_id then
         if negb (truthy_opt_list subnet_ids) then
           raise (ValueError
                    "Subnet IDs must be provided when using VPC configuration"
                    [])
         else
           vpc_config <-
             VPCConfigurator.create_vpc_config aws (default "" vpc_id)
               (the_list subnet_ids) security_group_ids ;;
           ret (Some vpc_config)
       else ret None) ;;
    role_arn <-
      IAMRoleManager.create_or_update_role aws fuel role_name s3_bucket
        force_recreate_role ;;
    function_arn <-
      LambdaFunctionDeployer.deploy_function aws function_name ecr_image_uri
        role_arn memory_size timeout vpc_config ;;
    S3AccessManager.configure_s3_access aws function_name s3_bucket ;;
    ret {| function_arn := function_arn; role_arn := role_arn |}.
End LambdaDeployer.
End LambdaDeployer.

(** ** An in-memory provider

    A small stand-in for the provider, in the manner of the [moto] fixtures
    of [tests/conftest.py]: roles, policies, functions, buckets and networks
    are kept in maps and the client operations act on them.  It is only used
    to run the deployer on concrete inputs; every theorem below is stated
    for an arbitrary collaborator. *)

Module Sim.
Record RoleState := {
  rs_arn : string;
  rs_attached : list string;     (* ARNs of the attached managed policies *)
  rs_inline : list string }.     (* names of the inline policies *)

Record FunctionState := {
  fs_image : string;
  fs_role : string;
  fs_memory : Z;
  fs_timeout : Z;
  fs_vpc : option VpcConfig;
  fs_env : gmap string string }.

Record Cloud := {
  account : string;
  page_size : nat;
  roles : gmap string RoleState;               (* by role name *)
  policies : gmap string PolicyDocument;        (* by policy ARN *)
  functions : gmap string FunctionState;        (* by function name *)
  buckets : gmap string bool;                   (* name -> accessible *)
  vpcs : gmap string string;                    (* id -> state *)
  subnets : gmap string (string * string);      (* id -> (vpc id, state) *)
  security_groups : gmap string string }.       (* id -> vpc id *)

Definition with_roles (c : Cloud) (r : gmap string RoleState) : Cloud :=
  {| account := account c; page_size := page_size c; roles := r;
     policies := policies c; functions := functions c;
     buckets := buckets c; vpcs := vpcs c; subnets := subnets c;
     security_groups := security_groups c |}.

Definition with_policies (c : Cloud) (p : gmap string PolicyDocument)
  : Cloud :=
  {| account := account c; page_size := page_size c; roles := roles c;
     policies := p; functions := functions c;
     buckets := buckets c; vpcs := vpcs c; subnets := subnets c;
     security_groups := security_groups c |}.

Definition with_functions (c : Cloud) (f : gmap string FunctionState)
  : Cloud :=
  {| account := account c; page_size := page_size c; roles := roles c;
     policies := policies c; functions := f;
     buckets := buckets c; vpcs := vpcs c; subnets := subnets c;
     security_groups := security_groups c |}.

Definition role_arn_of (account name : string) : string :=
  "arn:aws:iam::" +:+ account +:+ ":role/" +:+ name.

Definition function_arn_of (account name : string) : string :=
  "arn:aws:lambda:us-east-1:" +:+ account +:+ ":function:" +:+ name.

Definition no_such_entity {R} : Reply R := Fault (ClientError "NoSuchEntity").

Definition mem (x : string) (l : list string) : bool :=
  existsb (String.eqb x) l.

Definition remove (x : string) (l : list string) : list string :=
  List.filter (fun y => negb (String.eqb x y)) l.

Fixpoint drop_until (marker : string) (l : list string) : list string :=
  match l with
  | [] => []
  | x :: rest => if String.eqb x marker then l else drop_until marker rest
  end.

(** A page of [n] items, starting at the marker. *)
Definition page_of (n : nat) (marker : option string) (l : list string)
  : Page string :=
  let rest :=
    match marker with Some m => drop_until m l | None => l end in
  match drop n rest with
  | [] => {| Items := Some (take n rest); IsTruncated := Some false;
             Marker := None |}
  | next :: _ => {| Items := Some (take n rest); IsTruncated := Some true;
                    Marker := Some next |}
  end.

(** The names of the roles a policy is attached to. *)
Definition roles_with (c : Cloud) (policy_arn : string) : list string :=
  omap (fun kv : string * RoleState =>
          if mem policy_arn (rs_attached kv.2) then Some kv.1 else None)
       (map_to_list (roles c)).

(** [describe_*] by IDs: every ID must exist. *)
Definition describe {A B} (not_found : string) (m : gmap string A)
    (f : string -> A -> B) (ids : list string) : Reply (option (list B)) :=
  match mapM (fun id => f id <$> m !! id) ids with
  | Some l => Ok (Some l)
  | None => Fault (ClientError not_found)
  end.

Definition update_configuration (p : ConfigurationParams)
    (f : FunctionState) : FunctionState :=
  {| fs_image := fs_image f;
     fs_role := default (fs_role f) (uc_Role p);
     fs_memory := default (fs_memory f) (uc_MemorySize p);
     fs_timeout := default (fs_timeout f) (uc_Timeout p);
     fs_vpc := match uc_VpcConfig p with
               | Some v => Some v
               | None => fs_vpc f
               end;
     fs_env := default (fs_env f) (uc_Environment p) |}.

Definition provider : Collaborator Cloud :=
  fun R op c =>
    match op in Api R return Reply R * Cloud with
    | describe_vpcs ids =>
        (describe "InvalidVpcID.NotFound" (vpcs c)
           (fun _ st => {| Vpc_State := Some st |}) ids, c)
    | describe_subnets ids =>
        (describe "InvalidSubnetID.NotFound" (subnets c)
           (fun id s => {| Subnet_SubnetId := Some id;
                           Subnet_VpcId := Some s.1;
                           Subnet_State := Some s.2 |}) ids, c)
    | describe_security_groups ids =>
        (describe "InvalidGroup.NotFound" (security_groups c)
           (fun id v => {| SecurityGroup_GroupId := Some id;
                           SecurityGroup_VpcId := Some v |}) ids, c)
    | get_role name =>
        (match roles c !! name with
         | Some r => Ok (rs_arn r)
         | None => no_such_entity
         end, c)
    | create_role name _ _ =>
        match roles c !! name with
        | Some _ => (Fault (ClientError "EntityAlreadyExists"), c)
        | None =>
            let arn := role_arn_of (account c) name in
            (Ok arn,
             with_roles c
               (<[name := {| rs_arn := arn; rs_attached := [];
                             rs_inline := [] |}]> (roles c)))
        end
    | delete_role name =>
        match roles c !! name with
        | Some {| rs_attached := []; rs_inline := [] |} =>
            (Ok tt, with_roles c (delete name (roles c)))
        | Some _ => (Fault (ClientError "DeleteConflict"), c)
        | None => (no_such_entity, c)
        end
    | get_policy arn =>
        (match policies c !! arn with
         | Some _ => Ok arn
         | None => no_such_entity
         end, c)
    | create_policy name document _ =>
        let arn := IAMRoleManager.policy_arn_of (account c) name in
        match policies c !! arn with
        | Some _ => (Fault (ClientError "EntityAlreadyExists"), c)
        | None => (Ok arn, with_policies c (<[arn := document]> (policies c)))
        end
    | delete_policy arn =>
        match policies c !! arn, roles_with c arn with
        | Some _, [] => (Ok tt, with_policies c (delete arn (policies c)))
        | Some _, _ => (Fault (ClientError "DeleteConflict"), c)
        | None, _ => (no_such_entity, c)
        end
    | attach_role_policy name arn =>
        match roles c !! name, policies c !! arn with
        | Some r, Some _ =>
            (Ok tt,
             with_roles c
               (<[name := {| rs_arn := rs_arn r;
                             rs_attached :=
                               if mem arn (rs_attached r)
                               then rs_attached r
                               else rs_attached r ++ [arn];
                             rs_inline := rs_inline r |}]> (roles c)))
        | _, _ => (no_such_entity, c)
        end
    | detach_role_policy name arn =>
        match roles c !! name with
        | Some r =>
            if mem arn (rs_attached r) then
              (Ok tt,
               with_roles c
                 (<[name := {| rs_arn := rs_arn r;
                               rs_attached := remove arn (rs_attached r);
                               rs_inline := rs_inline r |}]> (roles c)))
            else (no_such_entity, c)
        | None => (no_such_entity, c)
        end
    | list_entities_for_policy arn _ marker =>
        (match policies c !! arn with
         | Some _ => Ok (page_of (page_size c) marker (roles_with c arn))
         | None => no_such_entity
         end, c)
    | list_attached_role_policies name marker =>
        (match roles c !! name with
         | Some r => Ok (page_of (page_size c) marker (rs_attached r))
         | None => no_such_entity
         end, c)
    | list_role_policies name marker =>
        (match roles c !! name with
         | Some r => Ok (page_of (page_size c) marker (rs_inline r))
         | None => no_such_entity
         end, c)
    | delete_role_policy name policy_name =>
        match roles c !! name with
        | Some r =>
            if mem policy_name (rs_inline r) then
              (Ok tt,
               with_roles c
                 (<[name := {| rs_arn := rs_arn r;
                               rs_attached := rs_attached r;
                               rs_inline := remove policy_name (rs_inline r)
                            |}]> (roles c)))
            else (no_such_entity, c)
        | None => (no_such_entity, c)
        end
    | get_caller_identity => (Ok (account c), c)
    | get_function name =>
        (match functions c !! name with
         | Some _ => Ok tt
         | None => Fault (ClientError "ResourceNotFoundException")
         end, c)
    | create_function p =>
        match functions c !! cf_FunctionName p with
        | Some _ => (Fault (ClientError "ResourceConflictException"), c)
        | None =>
            (Ok (function_arn_of (account c) (cf_FunctionName p)),
             with_functions c
               (<[cf_FunctionName p :=
                    {| fs_image := cf_ImageUri p; fs_role := cf_Role p;
                       fs_memory := cf_MemorySize p;
                       fs_timeout := cf_Timeout p;
                       fs_vpc := cf_VpcConfig p; fs_env := ∅ |}]>
                  (functions c)))
        end
    | update_function_code name image =>
        match functions c !! name with
        | Some f =>
            (Ok (function_arn_of (account c) name),
             with_functions c
               (<[name := {| fs_image := image; fs_role := fs_role f;
                             fs_memory := fs_memory f;
                             fs_timeout := fs_timeout f;
                             fs_vpc := fs_vpc f; fs_env := fs_env f |}]>
                  (functions c)))
        | None => (Fault (ClientError "ResourceNotFoundException"), c)
        end
    | update_function_configuration p =>
        match functions c !! uc_FunctionName p with
        | Some f =>
            (Ok (function_arn_of (account c) (uc_FunctionName p)),
             with_functions c
               (<[uc_FunctionName p := update_configuration p f]>
                  (functions c)))
        | None => (Fault (ClientError "ResourceNotFoundException"), c)
        end
    | get_function_configuration name =>
        (match functions c !! name with
         | Some f =>
             Ok {| Environment :=
                     if bool_decide (fs_env f = ∅) then None
                     else Some (Some (fs_env f)) |}
         | None => Fault (ClientError "ResourceNotFoundException")
         end, c)
    | waiter_wait _ name =>
        (match functions c !! name with
         | Some _ => Ok tt
         | None => Fault (SdkError "WaiterError")
         end, c)
    | head_bucket name =>
        (match buckets c !! name with
         | Some true => Ok tt
         | Some false => Fault (ClientError "403")
         | None => Fault (ClientError "404")
         end, c)
    end.

(** An account with one bucket and one network, nothing deployed yet. *)
Definition fresh : Cloud :=
  {| account := "123456789012";
     page_size := 1;
     roles := ∅;
     policies := ∅;
     functions := ∅;
     buckets := {[ "data" := true; "locked" := false ]};
     vpcs := {[ "vpc-1" := "available"; "vpc-2" := "pending" ]};
     subnets := {[ "subnet-a" := ("vpc-1", "available");
                   "subnet-b" := ("vpc-1", "available");
                   "subnet-x" := ("vpc-9", "available") ]};
     security_groups := {[ "sg-1" := "vpc-1"; "sg-9" := "vpc-9" ]} |}.
End Sim.

(** ** Observing the call log *)

(** The client a call goes to. *)
Inductive Service : Type := EC2 | IAM | STS | LAMBDA | S3.

Definition service_of {R} (op : Api R) : Service :=
  match op with
  | describe_vpcs _ | describe_subnets _ | describe_security_groups _ => EC2
  | get_caller_identity => STS
  | get_function _ | create_function _ | update_function_code _ _
  | update_function_configuration _ | get_function_configuration _
  | waiter_wait _ _ => LAMBDA
  | head_bucket _ => S3
  | _ => IAM
  end.

Definition service_of_event (ev : Event) : Service :=
  match ev with Called op _ => service_of op end.

Definition is_lambda (ev : Event) : bool :=
  match service_of_event ev with LAMBDA => true | _ => false end.

Definition is_create_function (ev : Event) : bool :=
  match ev with Called (create_function _) _ => true | _ => false end.

Definition is_update_function_code (ev : Event) : bool :=
  match ev with Called (update_function_code _ _) _ => true | _ => false end.

Definition is_update_function_configuration (ev : Event) : bool :=
  match ev with
  | Called (update_function_configuration _) _ => true
  | _ => false
  end.

Definition is_describe_security_groups (ev : Event) : bool :=
  match ev with Called (describe_security_groups _) _ => true | _ => false end.

(** The function-existence probe of [function_name] answered positively. *)
Definition is_function_found (function_name : string) (ev : Event) : bool :=
  match ev with
  | Called (get_function name) (Ok _) => String.eqb name function_name
  | _ => false
  end.

Definition is_create_role (ev : Event) : bool :=
  match ev with Called (create_role _ _ _) _ => true | _ => false end.

Definition is_delete_role (ev : Event) : bool :=
  match ev with Called (delete_role _) _ => true | _ => false end.

(** A [create_policy] call for the policy of the given name. *)
Definition is_create_policy_named (policy_name : string) (ev : Event) : bool :=
  match ev with
  | Called (create_policy name _ _) _ => String.eqb name policy_name
  | _ => false
  end.

(** The number of calls of a kind in a log. *)
Definition count (kind : Event -> bool) (log : list Event) : nat :=
  length (List.filter kind log).

(** ** Statements shared by the properties below *)

(** An existence check [check], probing with [probe], treats the fault codes
    [negative] as "does not exist" and re-raises every other fault code. *)
Definition reraises_all_but {W R} (aws : Collaborator W)
    (probe : string -> Api R) (check : string -> M W bool)
    (negative : list string) : Prop :=
  forall name w code w',
    aws R (probe name) w = (Fault (ClientError code), w') ->
    outcome (check name w) =
      if existsb (String.eqb code) negative
      then Return false else Raise (ClientError code).

(** The value [_update_lambda_environment] writes back. *)
Definition environment_update (function_name : string)
    (env : gmap string string) : ConfigurationParams :=
  {| uc_FunctionName := function_name; uc_Role := None;
     uc_MemorySize := None; uc_Timeout := None; uc_VpcConfig := None;
     uc_Environment := Some env |}.

Definition merged_env (response : FunctionConfiguration) (s3_bucket : string)
  : gmap string string :=
  <["S3_BUCKET" := s3_bucket]> (S3AccessManager.current_env response).

(** The verdict of [_validate_subnets] on a response to [describe_subnets]. *)
Definition subnets_verdict (vpc_id : string) (subnet_ids : list string)
    (response : option (list Subnet)) : Outcome bool :=
  if negb (length (the_list response) =? length subnet_ids)%nat
  then Return false
  else match response with
       | Some subnets => Return (VPCConfigurator.subnets_belong vpc_id subnets)
       | None => Raise (KeyError "Subnets")
       end.

(** The verdict of [_validate_security_groups] on a response to
    [describe_security_groups]. *)
Definition security_groups_verdict (vpc_id : string)
    (security_group_ids : list string)
    (response : option (list SecurityGroup)) : Outcome bool :=
  if negb (length (the_list response) =? length security_group_ids)%nat
  then Return false
  else match response with
       | Some groups =>
           Return (VPCConfigurator.security_groups_belong vpc_id groups)
       | None => Raise (KeyError "SecurityGroups")
       end.

(** The spec's [MissingParameter]: the [ValueError]s [deploy] raises on its
    own arguments. *)
Definition MissingParameter (e : Exn) : bool :=
  match e with
  | ValueError fmt [] =>
      existsb (String.eqb fmt)
        [ "ECR image URI is required";
          "Function name is required";
          "S3 bucket name is required";
          "Subnet IDs must be provided when using VPC configuration" ]
  | _ => false
  end.

(** The keyword arguments [_update_function_configuration] passes. *)
Definition configuration_update (function_name role_arn : string)
    (memory_size timeout : Z) (vpc_config : option VpcConfig)
  : ConfigurationParams :=
  {| uc_FunctionName := function_name; uc_Role := Some role_arn;
     uc_MemorySize := Some memory_size; uc_Timeout := Some timeout;
     uc_VpcConfig := vpc_config; uc_Environment := None |}.

(** The calls of the update path of [deploy_function]. *)
Definition update_path_calls (function_name ecr_image_uri role_arn : string)
    (memory_size timeout : Z) (vpc_config : option VpcConfig)
    (code_arn function_arn : string) : list Event :=
  [ Called (get_function function_name) (Ok tt);
    Called (update_function_code function_name ecr_image_uri) (Ok code_arn);
    Called (waiter_wait "function_updated" function_name) (Ok tt);
    Called (update_function_configuration
              (configuration_update function_name role_arn memory_size timeout
                 vpc_config)) (Ok function_arn);
    Called (waiter_wait "function_updated" function_name) (Ok tt) ].

(** The calls of a successful [configure_s3_access]. *)
Definition configure_calls (function_name s3_bucket : string)
    (response : FunctionConfiguration) (arn : string) : list Event :=
  [ Called (head_bucket s3_bucket) (Ok tt);
    Called (get_function_configuration function_name) (Ok response);
    Called (update_function_configuration
              (environment_update function_name
                 (merged_env response s3_bucket))) (Ok arn);
    Called (waiter_wait "function_updated" function_name) (Ok tt) ].

(** The roles a [list_entities_for_policy] call reported for a policy. *)
Definition listed_roles (policy_arn : string) (ev : Event) : list string :=
  match ev with
  | Called (list_entities_for_policy arn _ _) (Ok page) =>
      if String.eqb arn policy_arn then the_list (Items page) else []
  | _ => []
  end.

(** A successful [detach_role_policy] of the policy from the role. *)
Definition is_detached (role_name policy_arn : string) (ev : Event) : bool :=
  match ev with
  | Called (detach_role_policy name arn) (Ok _) =>
      String.eqb name role_name && String.eqb arn policy_arn
  | _ => false
  end.

(** The policies a [get_policy] probe found. *)
Definition found_policies (ev : Event) : list string :=
  match ev with
  | Called (get_policy _) (Ok arn) => [arn]
  | _ => []
  end.

(** The existence probes [get_role] and [get_policy]. *)
Definition is_existence_probe (ev : Event) : bool :=
  match ev with
  | Called (get_role _) _ | Called (get_policy _) _ => true
  | _ => false
  end.

(** A call other than the existence probes [get_role] and [get_policy]
    answered with a [NoSuchEntity] fault. *)
Definition is_unexpected_missing (ev : Event) : bool :=
  match ev with
  | Called (get_role _) _ | Called (get_policy _) _ => false
  | Called _ (Fault (ClientError code)) => String.eqb code "NoSuchEntity"
  | _ => false
  end.

(** The call that creates the bucket-scoped access policy of a role. *)
Definition create_s3_access_policy_call (role_name s3_bucket : string)
  : Api string :=
  create_policy (IAMRoleManager.s3_access_policy_name role_name)
    (IAMRoleManager.s3_access_policy_document s3_bucket)
    ("S3 access policy for Lambda function role " +:+ role_name).

(** Every role that a listing in the log reported for the policy has a
    successful detach call in the log. *)
Definition all_listed_detached (policy_arn : string) (l : list Event) : Prop :=
  forall role, In role (flat_map (listed_roles policy_arn) l) ->
               existsb (is_detached role policy_arn) l = true.

(** The ARN of the policy [{role_name}-s3-access] in the account. *)
Definition access_policy_arn (account role_name : string) : string :=
  "arn:aws:iam::" +:+ account +:+ ":policy/" +:+ role_name +:+ "-s3-access".

(** The calls before [create_policy] when no policy of the derived name was
    found. *)
Definition policy_was_absent (role_name : string) (l : list Event) : Prop :=
  exists account,
    l = [ Called get_caller_identity (Ok account);
          Called (get_policy (access_policy_arn account role_name))
                 (Fault (ClientError "NoSuchEntity")) ].

(** The calls before [create_policy] when a policy of the derived name was
    found: it is detached from every role listed for it, then deleted. *)
Definition policy_was_replaced (role_name : string) (l : list Event) : Prop :=
  exists account old_arn detaching,
    l = [ Called get_caller_identity (Ok account);
          Called (get_policy (access_policy_arn account role_name))
                 (Ok old_arn) ]
        ++ detaching
        ++ [ Called (delete_policy old_arn) (Ok tt) ] /\
    all_listed_detached old_arn detaching.

(** The cleanup was cut short: its last call, which is not the [get_policy]
    probe, was answered [NoSuchEntity]. *)
Definition cleanup_cut_short (l : list Event) : Prop :=
  exists pre ev, l = pre ++ [ev] /\ is_unexpected_missing ev = true.

(** "Bucket-scoped": the document has statements, each of them allows S3
    actions, on the bucket and on the objects in it and on nothing else. *)
Definition bucket_scoped (s3_bucket : string) (document : PolicyDocument)
  : Prop :=
  Statements document <> [] /\
  Forall (fun st =>
            Effect st = "Allow" /\
            Action st <> [] /\
            Forall (fun action => String.prefix "s3:" action = true)
              (Action st) /\
            Resource st <> [] /\
            Forall (fun resource =>
                      resource = "arn:aws:s3:::" +:+ s3_bucket \/
                      resource = "arn:aws:s3:::" +:+ s3_bucket +:+ "/*")
              (Resource st))
    (Statements document).

(** A successful [delete_policy] of the policy. *)
Definition is_policy_deleted (policy_arn : string) (ev : Event) : bool :=
  match ev with
  | Called (delete_policy arn) (Ok _) => String.eqb arn policy_arn
  | _ => false
  end.

(** "Whenever a policy of that name already exists it is first detached from
    every role referencing it and deleted", for every run that returns: a
    policy that the probe found is detached from every role listed for it
    and deleted in that run. *)
Definition stale_policy_always_removed {W} (aws : Collaborator W) : Prop :=
  forall fuel role_name s3_bucket force_recreate w arn old_arn,
    let r := IAMRoleManager.create_or_update_role aws fuel role_name
               s3_bucket force_recreate w in
    outcome r = Return arn ->
    In old_arn (flat_map found_policies (calls r)) ->
    all_listed_detached old_arn (calls r) /\
    existsb (is_policy_deleted old_arn) (calls r) = true.

(** The last call of the log was answered with the fault [e]. *)
Definition faulted (e : Exn) (l : list Event) : Prop :=
  exists pre R (op : Api R), l = pre ++ [Called op (Fault e)].

(** A page of a listing that announces a further page. *)
Definition is_truncated_page (ev : Event) : bool :=
  match ev with
  | Called (list_entities_for_policy _ _ _) (Ok page)
  | Called (list_attached_role_policies _ _) (Ok page)
  | Called (list_role_policies _ _) (Ok page) =>
      default false (IsTruncated page)
  | _ => false
  end.

(** A page of a listing that announces a further page and carries no
    marker for it. *)
Definition is_page_without_marker (ev : Event) : bool :=
  match ev with
  | Called (list_entities_for_policy _ _ _) (Ok page)
  | Called (list_attached_role_policies _ _) (Ok page)
  | Called (list_role_policies _ _) (Ok page) =>
      default false (IsTruncated page)
      && match Marker page with None => true | Some _ => false end
  | _ => false
  end.

(** ** Properties of programs *)

(** Every call the program makes, from any state, satisfies [P]. *)
Definition calls_only {W} (P : Event -> Prop) {A} (m : M W A) : Prop :=
  forall w, Forall P (calls (m w)).

(** Whenever the program raises [e], a call of kind [Q] is in its log. *)
Definition raise_logged {W} (Q : Event -> bool) (e : Exn) {A} (m : M W A)
  : Prop :=
  forall w w' l, m w = MkRun (Raise e) w' l -> existsb Q l = true.

(** An exception out of the program is the fault of its last call, or the
    [KeyError] of a truncated page without marker. *)
Definition raises_faults {W A} (m : M W A) : Prop :=
  forall w e w' l,
    m w = MkRun (Raise e) w' l -> faulted e l \/ e = KeyError "Marker".

(** A [KeyError "Marker"] out of the program is the fault of its last call,
    or a truncated page without marker is in its log. *)
Definition marker_logged {W A} (m : M W A) : Prop :=
  forall w w' l,
    m w = MkRun (Raise (KeyError "Marker")) w' l ->
    faulted (KeyError "Marker") l \/
    existsb is_page_without_marker l = true.

(** A handler re-raises what it caught, or raises the fault of one of its
    own calls. *)
Definition handler_raises_faults {W A} (h : Exn -> M W A) : Prop :=
  forall caught w e w' l,
    h caught w = MkRun (Raise e) w' l ->
    (e = caught /\ l = []) \/ faulted e l \/ e = KeyError "Marker".

(** Running out of fuel takes more truncated pages than the fuel. *)
Definition starves_at {W} (fuel : nat) {A} (m : M W A) : Prop :=
  forall w w' l,
    m w = MkRun OutOfFuel w' l -> fuel < count is_truncated_page l.

(** The program never runs out of fuel. *)
Definition total {W A} (m : M W A) : Prop :=
  forall w, outcome (m w) <> OutOfFuel.

Definition not_lambda (ev : Event) : Prop := is_lambda ev = false.

(** Calls that neither create the access policy of [role_name] nor create
    or delete a role. *)
Definition housekeeping (role_name : string) (ev : Event) : Prop :=
  is_create_policy_named (IAMRoleManager.s3_access_policy_name role_name) ev
    = false /\
  is_create_role ev = false /\ is_delete_role ev = false.

(** Calls that do not create the access policy of [role_name]. *)
Definition other_policy (role_name : string) (ev : Event) : Prop :=
  is_create_policy_named (IAMRoleManager.s3_access_policy_name role_name) ev
    = false.

(** The first [try] block of [_create_s3_access_policy]: the existence
    check and the removal of a policy of the derived name. *)
Definition cleanup {W} (aws : Collaborator W) (fuel : nat)
    (role_name : string) : M W unit :=
  try_except
    (account <- IAMRoleManager._get_account_id aws ;;
     arn <- call aws
              (get_policy
                 (IAMRoleManager.policy_arn_of account
                    (IAMRoleManager.s3_access_policy_name role_name))) ;;
     IAMRoleManager._delete_policy aws fuel arn)
    (fun e =>
       match e with
       | ClientError code =>
           if negb (String.eqb code "NoSuchEntity") then raise e
           else ret tt
       | _ => raise e
       end).

(** A provider on which the role of a listing is gone when it is detached:
    the policy [{role_name}-s3-access] exists and [list_entities_for_policy]
    still lists role [other] for it, but [detach_role_policy] answers
    [NoSuchEntity]. *)
Module Stale.
Definition account : string := "123456789012".

Definition stub : Collaborator unit :=
  fun R op w =>
    (match op in Api R return Reply R with
     | get_role name => Ok ("arn:aws:iam::" +:+ account +:+ ":role/" +:+ name)
     | get_caller_identity => Ok account
     | get_policy arn => Ok arn
     | list_entities_for_policy _ _ _ =>
         Ok {| Items := Some ["other"]; IsTruncated := Some false;
               Marker := None |}
     | detach_role_policy _ _ => Fault (ClientError "NoSuchEntity")
     | create_policy name _ _ =>
         Ok ("arn:aws:iam::" +:+ account +:+ ":policy/" +:+ name)
     | attach_role_policy _ _ => Ok tt
     | _ => Fault (SdkError "EndpointConnectionError")
     end, w).
End Stale.

(** "Deploying an existing function again issues exactly one
    [update_function_code] call, exactly one [update_function_configuration]
    call and no [create_function] call", for every deploy. *)
Definition redeploy_updates_once {W} (aws : Collaborator W) : Prop :=
  forall fuel ecr_image_uri function_name s3_bucket role_name memory_size
         timeout vpc_id subnet_ids security_group_ids force_recreate_role w
         result,
    let r := LambdaDeployer.deploy aws fuel ecr_image_uri function_name
               s3_bucket role_name memory_size timeout vpc_id subnet_ids
               security_group_ids force_recreate_role w in
    outcome r = Return result ->
    existsb (is_function_found function_name) (calls r) = true ->
    count is_update_function_code (calls r) = 1 /\
    count is_update_function_configuration (calls r) = 1 /\
    count is_create_function (calls r) = 0.

(** ** Concrete runs on the in-memory provider *)

Module Scenario.
Definition role_arn : string := "arn:aws:iam::123456789012:role/lambda-f-role".

Definition policy_arn : string :=
  "arn:aws:iam::123456789012:policy/lambda-f-role-s3-access".

Definition function_arn : string :=
  "arn:aws:lambda:us-east-1:123456789012:function:f".

(** The first deployment of function [f], and the provider after it. *)
Definition first_deploy : Run Sim.Cloud DeploymentResult :=
  LambdaDeployer.deploy Sim.provider 5 "img:v1" "f" "data" None 128 30
    None None None false Sim.fresh.

Definition deployed : Sim.Cloud := world first_deploy.

(** The same function deployed again, with another image. *)
Abbreviation second_deploy :=
  (LambdaDeployer.deploy Sim.provider 5 "img:v2" "f" "data" None 128%Z 30%Z
     None None None false deployed).

(** The access policy of the role also attached to a second role. *)
Definition shared : Sim.Cloud :=
  world ((call Sim.provider
            (create_role "auditor"
               IAMRoleManager.lambda_execution_trust_policy "") ;;
          call Sim.provider (attach_role_policy "auditor" policy_arn))
           deployed).

(** The role manager run again for another bucket. *)
Abbreviation second_role_run :=
  (IAMRoleManager.create_or_update_role Sim.provider 5 "lambda-f-role"
     "archive" false shared).

(** The function with a variable of its own in its environment. *)
Definition tuned : Sim.Cloud :=
  world (call Sim.provider
           (update_function_configuration
              (environment_update "f" {[ "LOG_LEVEL" := "debug" ]}))
           deployed).
End Scenario.

(** ** Command-line entry points *)

(** [s.split(sep)] for a one-character separator. *)
Fixpoint split_on (sep : Ascii.ascii) (s : string) : list string :=
  match s with
  | EmptyString => [""]
  | String c rest =>
      if Ascii.eqb c sep then "" :: split_on sep rest
      else match split_on sep rest with
           | first :: others => String c first :: others
           | [] => [String c ""]
           end
  end.

(** [flag.split(",") if flag else None] *)
Definition parse_ids (flag : option string) : option (list string) :=
  if truthy_opt_str flag
  then Some (split_on ","%char (default "" flag))
  else None.

(** The parsed arguments of the [deploy] command the entry points read. *)
Record Namespace := {
  ns_ecr_image_uri : string;
  ns_function_name : string;
  ns_s3_bucket : string;
  ns_memory_size : Z;
  ns_timeout : Z;
  ns_vpc_id : option string;
  ns_subnet_ids : option string;
  ns_security_group_ids : option string;
  ns_role_name : option string;
  ns_force_recreate_role : bool }.

(** [main.py], [main] after [parse_args]: [aws] is the provider of the
    region the deployer is created for. *)
Module Main.
Section Main.
Context {W : Type} (aws : Collaborator W).

Definition main (fuel : nat) (args : Namespace) : M W Z :=
  try_except
    (let subnet_ids := parse_ids (ns_subnet_ids args) in
     let security_group_ids := parse_ids (ns_security_group_ids args) in
     LambdaDeployer.deploy aws fuel (ns_ecr_image_uri args)
       (ns_function_name args) (ns_s3_bucket args) (ns_role_name args)
       (ns_memory_size args) (ns_timeout args) (ns_vpc_id args)
       subnet_ids security_group_ids (ns_force_recreate_role args) ;;
     ret 0%Z)
    (fun e => ret 1%Z).
End Main.
End Main.

(** [boto3.client(service)]: creating a client sends nothing to the
    provider; the local configuration decides whether it succeeds (without
    a region, [NoRegionError]).  A session says for each service with which
    exception the creation of its client fails, if it does. *)
Definition Session : Type := Service -> option Exn.

Definition boto3_client {W} (session : Session) (service : Service)
  : M W unit :=
  match session service with
  | Some e => raise e
  | None => ret tt
  end.

(** [cli.py]: an early [return code] is [inl code].  The managers are
    created where the source creates them, outside the [try] blocks:
    [VPCConfigurator()] creates the EC2 client, [IAMRoleManager()] the IAM
    client, [LambdaFunctionDeployer()] the Lambda client and
    [S3AccessManager()] the S3 and Lambda clients. *)
Module Cli.
Section Cli.
Context {W : Type} (aws : Collaborator W) (session : Session).

(** [try: step except Exception: return 1] *)
Definition or_exit {A} (step : M W A) : M W (Z + A) :=
  try_except (a <- step ;; ret (inr a)) (fun e => ret (inl 1%Z)).

Definition deploy_command (fuel : nat) (args : Namespace) : M W Z :=
  vpc_step <-
    (if truthy_opt_str (ns_vpc_id args) then
       if negb (truthy_opt_str (ns_subnet_ids args)) then ret (inl 1%Z)
       else
         let subnet_ids :=
           split_on ","%char (default "" (ns_subnet_ids args)) in
         let security_group_ids :=
           if truthy_opt_str (ns_security_group_ids args)
           then split_on ","%char (default "" (ns_security_group_ids args))
           else [] in
         boto3_client session EC2 ;;
         vpc_config <-
           VPCConfigurator.create_vpc_config aws
             (default "" (ns_vpc_id args)) subnet_ids
             (Some security_group_ids) ;;
         ret (inr (Some vpc_config))
     else ret (inr None)) ;;
  match vpc_step with
  | inl code => ret code
  | inr vpc_config =>
      let role_name :=
        if truthy_opt_str (ns_role_name args)
        then default "" (ns_role_name args)
        else "lambda-" +:+ ns_function_name args +:+ "-role" in
      boto3_client session IAM ;;
      role_step <-
        or_exit (IAMRoleManager.create_or_update_role aws fuel role_name
                   (ns_s3_bucket args) (ns_force_recreate_role args)) ;;
      match role_step with
      | inl code => ret code
      | inr role_arn =>
          boto3_client session LAMBDA ;;
          function_step <-
            or_exit (LambdaFunctionDeployer.deploy_function aws
                       (ns_function_name args) (ns_ecr_image_uri args)
                       role_arn (ns_memory_size args) (ns_timeout args)
                       vpc_config) ;;
          match function_step with
          | inl code => ret code
          | inr _ =>
              boto3_client session S3 ;;
              boto3_client session LAMBDA ;;
              s3_step <-
                or_exit (S3AccessManager.configure_s3_access aws
                           (ns_function_name args) (ns_s3_bucket args)) ;;
              match s3_step with
              | inl code => ret code
              | inr _ => ret 0%Z
              end
          end
      end
  end.
End Cli.
End Cli.

(** ** More observations of the call log *)

Definition is_describe (ev : Event) : bool :=
  match ev with
  | Called (describe_vpcs _) _ | Called (describe_subnets _) _
  | Called (describe_security_groups _) _ => true
  | _ => false
  end.

Definition is_delete_policy (ev : Event) : bool :=
  match ev with Called (delete_policy _) _ => true | _ => false end.

Definition is_delete_role_policy (ev : Event) : bool :=
  match ev with Called (delete_role_policy _ _) _ => true | _ => false end.

Definition is_list_entities_for_policy (ev : Event) : bool :=
  match ev with
  | Called (list_entities_for_policy _ _ _) _ => true
  | _ => false
  end.

Definition service_eqb (a b : Service) : bool :=
  match a, b with
  | EC2, EC2 | IAM, IAM | STS, STS | LAMBDA, LAMBDA | S3, S3 => true
  | _, _ => false
  end.

(** The call goes to one of the given clients. *)
Definition talks_to (services : list Service) (ev : Event) : bool :=
  existsb (service_eqb (service_of_event ev)) services.

(** Every item that a listing in the log reported has been dealt with by a
    call in the log. *)
Definition all_listed_done {A} (listed : Event -> list A)
    (done : A -> Event -> bool) (l : list Event) : Prop :=
  forall x, In x (flat_map listed l) -> existsb (done x) l = true.

(** The name of the basic execution policy of a role. *)
Definition basic_execution_policy_name (role_name : string) : string :=
  role_name +:+ "-basic-execution".

(** The calls [_create_role] makes to create the role and its basic
    execution policy. *)
Definition create_role_call (role_name : string) : Api string :=
  create_role role_name IAMRoleManager.lambda_execution_trust_policy
    "Role for Lambda function execution with S3 access".

Definition create_basic_policy_call (role_name : string) : Api string :=
  create_policy (basic_execution_policy_name role_name)
    IAMRoleManager.basic_execution_policy_document
    ("Basic execution policy for Lambda function role " +:+ role_name).

(** The managed policies a [list_attached_role_policies] call reported for a
    role. *)
Definition listed_attached (role_name : string) (ev : Event) : list string :=
  match ev with
  | Called (list_attached_role_policies name _) (Ok page) =>
      if String.eqb name role_name then the_list (Items page) else []
  | _ => []
  end.

(** The inline policies a [list_role_policies] call reported for a role. *)
Definition listed_inline (role_name : string) (ev : Event) : list string :=
  match ev with
  | Called (list_role_policies name _) (Ok page) =>
      if String.eqb name role_name then the_list (Items page) else []
  | _ => []
  end.

(** A successful [delete_role_policy] of the inline policy of the role. *)
Definition is_inline_deleted (role_name policy_name : string) (ev : Event)
  : bool :=
  match ev with
  | Called (delete_role_policy name policy) (Ok _) =>
      String.eqb name role_name && String.eqb policy policy_name
  | _ => false
  end.

(** The keyword arguments [_create_function] passes. *)
Definition creation (function_name ecr_image_uri role_arn : string)
    (memory_size timeout : Z) (vpc_config : option VpcConfig)
  : CreateFunctionParams :=
  {| cf_FunctionName := function_name; cf_Role := role_arn;
     cf_PackageType := "Image"; cf_ImageUri := ecr_image_uri;
     cf_MemorySize := memory_size; cf_Timeout := timeout;
     cf_VpcConfig := vpc_config |}.

(** The calls of the create path of [deploy_function]. *)
Definition create_path_calls (function_name ecr_image_uri role_arn : string)
    (memory_size timeout : Z) (vpc_config : option VpcConfig)
    (function_arn : string) : list Event :=
  [ Called (get_function function_name)
      (Fault (ClientError "ResourceNotFoundException"));
    Called (create_function
              (creation function_name ecr_image_uri role_arn memory_size
                 timeout vpc_config)) (Ok function_arn);
    Called (waiter_wait "function_active" function_name) (Ok tt) ].

(** A subnet that passes the loop of [_validate_subnets]. *)
Definition subnet_ok (vpc_id : string) (subnet : Subnet) : Prop :=
  Subnet_VpcId subnet = Some vpc_id /\ Subnet_State subnet = Some "available".

(** A security group that passes the loop of [_validate_security_groups]. *)
Definition security_group_ok (vpc_id : string) (sg : SecurityGroup) : Prop :=
  SecurityGroup_VpcId sg = Some vpc_id.

(** A reply to [describe_vpcs] that [_validate_vpc] answers [False] to: no
    VPC in the response, a first VPC that is not available, or the fault
    [InvalidVpcID.NotFound]. *)
Definition vpc_rejected (reply : Reply (option (list Vpc))) : Prop :=
  match reply with
  | Ok (Some (vpc :: _)) => Vpc_State vpc <> Some "available"
  | Ok _ => True
  | Fault (ClientError code) => code = "InvalidVpcID.NotFound"
  | Fault _ => False
  end.

(** ** The steps of the teardown and of the entry points *)

(** The two loops of [_detach_all_policies_from_role]. *)
Definition detach_attached {W} (aws : Collaborator W) (fuel : nat)
    (role_name : string) : M W unit :=
  IAMRoleManager.for_each_page aws fuel
    (list_attached_role_policies role_name)
    (fun policy => call aws (detach_role_policy role_name policy)).

Definition delete_inline {W} (aws : Collaborator W) (fuel : nat)
    (role_name : string) : M W unit :=
  IAMRoleManager.for_each_page aws fuel (list_role_policies role_name)
    (fun policy_name => call aws (delete_role_policy role_name policy_name)).

(** The body of the loop of [_detach_policy_from_all_entities]. *)
Definition detach_from {W} (aws : Collaborator W) (policy_arn role : string)
  : M W unit :=
  call aws (detach_role_policy role policy_arn).

(** The separator occurs in the string. *)
Fixpoint has (sep : Ascii.ascii) (s : string) : bool :=
  match s with
  | EmptyString => false
  | String c rest => Ascii.eqb c sep || has sep rest
  end.

(** [s.count(sep)] *)
Fixpoint occurrences (sep : Ascii.ascii) (s : string) : nat :=
  match s with
  | EmptyString => 0
  | String c rest =>
      (if Ascii.eqb c sep then 1 else 0) + occurrences sep rest
  end.

(** The [deployer.deploy(...)] call of [main]. *)
Definition deploy_of {W} (aws : Collaborator W) (fuel : nat)
    (args : Namespace) : M W DeploymentResult :=
  LambdaDeployer.deploy aws fuel (ns_ecr_image_uri args)
    (ns_function_name args) (ns_s3_bucket args) (ns_role_name args)
    (ns_memory_size args) (ns_timeout args) (ns_vpc_id args)
    (parse_ids (ns_subnet_ids args))
    (parse_ids (ns_security_group_ids args))
    (ns_force_recreate_role args).

(** How the command can end: with exit code 0 or 1, or with the exception
    of creating the client of one of the given services. *)
Definition exit_code (session : Session) (clients : list Service)
    (o : Outcome Z) : Prop :=
  match o with
  | Return code => code = 0%Z \/ code = 1%Z
  | Raise e => exists service, In service clients /\ session service = Some e
  | OutOfFuel => True
  end.

(** The call was answered with a response, not with a fault. *)
Definition is_answered (ev : Event) : bool :=
  match ev with
  | Called _ (Ok _) => true
  | Called _ (Fault _) => false
  end.

(** A provider with odd answers: responses without their list key, and a
    truncated page without marker. *)
Module Stub.
Definition odd : Collaborator unit :=
  fun R op w =>
    (match op in Api R return Reply R with
     | describe_vpcs _ => Ok (Some [ {| Vpc_State := Some "available" |} ])
     | describe_subnets _ => Ok None
     | describe_security_groups _ => Ok None
     | list_entities_for_policy _ _ _ =>
         Ok {| Items := Some ["reader"]; IsTruncated := Some true;
               Marker := None |}
     | detach_role_policy _ _ => Ok tt
     | _ => Fault (SdkError "EndpointConnectionError")
     end, w).
End Stub.

(** Worlds and arguments for the runs of the further properties. *)
Module Cases.
(** The basic execution policy of role [r] is left over, the role is not. *)
Definition leftover_policy : Sim.Cloud :=
  world (call Sim.provider (create_basic_policy_call "r") Sim.fresh).

Definition role_created : Sim.Cloud :=
  world (call Sim.provider (create_role_call "r") leftover_policy).

Definition basic_policy_arn : string :=
  "arn:aws:iam::123456789012:policy/r-basic-execution".

Definition basic_attached : Sim.Cloud :=
  world (call Sim.provider (attach_role_policy "r" basic_policy_arn)
           role_created).

(** Function [f] created in the fresh account. *)
Definition created : Sim.Cloud :=
  world (call Sim.provider
           (create_function
              (creation "f" "img:v1" Scenario.role_arn 128 30 None))
           Sim.fresh).

(** Function [f] of the first deployment with new code, and then with a
    new configuration. *)
Definition recoded : Sim.Cloud :=
  world (call Sim.provider (update_function_code "f" "img:v2")
           Scenario.deployed).

Definition reconfigured : Sim.Cloud :=
  world (call Sim.provider
           (update_function_configuration
              (configuration_update "f" Scenario.role_arn 256 60 None))
           recoded).

(** Every client can be created. *)
Definition configured : Session := fun _ => None.

Definition args : Namespace :=
  {| ns_ecr_image_uri := "img:v1"; ns_function_name := "f";
     ns_s3_bucket := "data"; ns_memory_size := 128; ns_timeout := 30;
     ns_vpc_id := None; ns_subnet_ids := None;
     ns_security_group_ids := None; ns_role_name := None;
     ns_force_recreate_role := false |}.

(** [--vpc-id vpc-1] without [--subnet-ids]. *)
Definition args_without_subnets : Namespace :=
  {| ns_ecr_image_uri := "img:v1"; ns_function_name := "f";
     ns_s3_bucket := "data"; ns_memory_size := 128; ns_timeout := 30;
     ns_vpc_id := Some "vpc-1"; ns_subnet_ids := None;
     ns_security_group_ids := None; ns_role_name := None;
     ns_force_recreate_role := false |}.

(** [--vpc-id vpc-2 --subnet-ids subnet-a,subnet-b], a VPC that is not
    available. *)
Definition args_pending_vpc : Namespace :=
  {| ns_ecr_image_uri := "img:v1"; ns_function_name := "f";
     ns_s3_bucket := "data"; ns_memory_size := 128; ns_timeout := 30;
     ns_vpc_id := Some "vpc-2"; ns_subnet_ids := Some "subnet-a,subnet-b";
     ns_security_group_ids := None; ns_role_name := None;
     ns_force_recreate_role := false |}.
End Cases.

(** * Properties *)

(** ** Laws of the program monad *)

Section Laws.
Context {W : Type}.
Implicit Types w : W.

Lemma bind_returns {A B} (m : M W A) (f : A -> M W B) w b w' l :
  bind m f w = MkRun (Return b) w' l ->
  exists a w1 l1 l2,
    m w = MkRun (Return a) w1 l1 /\
    f a w1 = MkRun (Return b) w' l2 /\
    l = l1 ++ l2.
Proof.
  unfold bind. destruct (m w) as [[a|e|] w1 l1]; cbn; try discriminate.
  destruct (f a w1) as [o2 w2 l2] eqn:E2; cbn.
  intros H; inversion H; subst. exists a, w1, l1, l2. auto.
Qed.

Lemma bind_raises {A B} (m : M W A) (f : A -> M W B) w e w' l :
  bind m f w = MkRun (Raise e) w' l ->
  m w = MkRun (Raise e) w' l \/
  exists a w1 l1 l2,
    m w = MkRun (Return a) w1 l1 /\
    f a w1 = MkRun (Raise e) w' l2 /\
    l = l1 ++ l2.
Proof.
  unfold bind. destruct (m w) as [[a|e'|] w1 l1]; cbn; try discriminate.
  - destruct (f a w1) as [o2 w2 l2] eqn:E2; cbn.
    intros H; inversion H; subst. right. exists a, w1, l1, l2. auto.
  - intros H; inversion H; subst. left. reflexivity.
Qed.

Lemma bind_starves {A B} (m : M W A) (f : A -> M W B) w w' l :
  bind m f w = MkRun OutOfFuel w' l ->
  m w = MkRun OutOfFuel w' l \/
  exists a w1 l1 l2,
    m w = MkRun (Return a) w1 l1 /\
    f a w1 = MkRun OutOfFuel w' l2 /\
    l = l1 ++ l2.
Proof.
  unfold bind. destruct (m w) as [[a|e'|] w1 l1]; cbn; try discriminate.
  - destruct (f a w1) as [o2 w2 l2] eqn:E2; cbn.
    intros H; inversion H; subst. right. exists a, w1, l1, l2. auto.
  - intros H; inversion H; subst. left. reflexivity.
Qed.

Lemma bind_run_Return {A B} (m : M W A) (f : A -> M W B) w a w1 l1 :
  m w = MkRun (Return a) w1 l1 ->
  bind m f w =
    MkRun (outcome (f a w1)) (world (f a w1)) (l1 ++ calls (f a w1)).
Proof. unfold bind. intros ->. reflexivity. Qed.

Lemma bind_run_Raise {A B} (m : M W A) (f : A -> M W B) w e w1 l1 :
  m w = MkRun (Raise e) w1 l1 ->
  bind m f w = MkRun (Raise e) w1 l1.
Proof. unfold bind. intros ->. reflexivity. Qed.

Lemma try_except_returns {A} (m : M W A) (h : Exn -> M W A) w a w' l :
  try_except m h w = MkRun (Return a) w' l ->
  m w = MkRun (Return a) w' l \/
  exists e w1 l1 l2,
    m w = MkRun (Raise e) w1 l1 /\
    h e w1 = MkRun (Return a) w' l2 /\
    l = l1 ++ l2.
Proof.
  unfold try_except. destruct (m w) as [[a0|e|] w1 l1]; cbn;
    try discriminate; auto.
  destruct (h e w1) as [o2 w2 l2] eqn:E2; cbn.
  intros H; inversion H; subst. right. exists e, w1, l1, l2. auto.
Qed.

Lemma call_returns (aws : Collaborator W) {R} (op : Api R) w r w' l :
  call aws op w = MkRun (Return r) w' l ->
  aws R op w = (Ok r, w') /\ l = [Called op (Ok r)].
Proof.
  unfold call. destruct (aws R op w) as [[r0|e] w0]; intros H;
    inversion H; subst; auto.
Qed.

Lemma call_raises (aws : Collaborator W) {R} (op : Api R) w e w' l :
  call aws op w = MkRun (Raise e) w' l ->
  aws R op w = (Fault e, w') /\ l = [Called op (Fault e)].
Proof.
  unfold call. destruct (aws R op w) as [[r0|e'] w0]; intros H;
    inversion H; subst; auto.
Qed.

Lemma call_run (aws : Collaborator W) {R} (op : Api R) w reply w' :
  aws R op w = (reply, w') ->
  call aws op w =
    MkRun (match reply with Ok r => Return r | Fault e => Raise e end)
          w' [Called op reply].
Proof. unfold call. intros ->. reflexivity. Qed.

Lemma ret_returns {A} (a b : A) w w' l :
  ret a w = MkRun (Return b) w' l -> b = a /\ w' = w /\ l = [].
Proof. unfold ret. intros H; inversion H; auto. Qed.

Lemma count_app kind (l1 l2 : list Event) :
  count kind (l1 ++ l2) = count kind l1 + count kind l2.
Proof. unfold count. rewrite List.filter_app, length_app. reflexivity. Qed.

Lemma count_cons kind ev (l : list Event) :
  count kind (ev :: l) = (if kind ev then 1 else 0) + count kind l.
Proof. unfold count. cbn. destruct (kind ev); reflexivity. Qed.
End Laws.

(** Case analysis on the reply to the next client call in [H]. *)
Ltac ask_in H aws :=
  match type of H with
  | context [ aws ?R ?op ?w ] =>
      is_var w;
      let reply := fresh "reply" in
      let w' := fresh "w" in
      let E := fresh "E" in
      destruct (aws R op w) as [reply w'] eqn:E; destruct reply; cbn in H
  end.


(** ** The calls a program makes *)

Section CallsOnly.
Context {W : Type} (aws : Collaborator W) (P : Event -> Prop).

Lemma calls_only_ret {A} (a : A) : calls_only P (@ret W A a).
Proof. intros w. constructor. Qed.

Lemma calls_only_raise {A} e : calls_only P (@raise W A e).
Proof. intros w. constructor. Qed.

Lemma calls_only_out_of_fuel {A} : calls_only P (@out_of_fuel W A).
Proof. intros w. constructor. Qed.

Lemma calls_only_bind {A B} (m : M W A) (f : A -> M W B) :
  calls_only P m -> (forall a, calls_only P (f a)) -> calls_only P (bind m f).
Proof.
  intros Hm Hf w. unfold bind. specialize (Hm w).
  destruct (m w) as [[a|e|] w1 l1]; cbn in *; auto.
  apply Forall_app. split; [assumption|apply Hf].
Qed.

Lemma calls_only_try_except {A} (m : M W A) (h : Exn -> M W A) :
  calls_only P m -> (forall e, calls_only P (h e)) -> calls_only P (try_except m h).
Proof.
  intros Hm Hh w. unfold try_except. specialize (Hm w).
  destruct (m w) as [[a|e|] w1 l1]; cbn in *; auto.
  apply Forall_app. split; [assumption|apply Hh].
Qed.

Lemma calls_only_call {R} (op : Api R) :
  (forall reply, P (Called op reply)) -> calls_only P (call aws op).
Proof.
  intros H w. unfold call. destruct (aws R op w) as [reply w'].
  cbn. constructor; [apply H|constructor].
Qed.

Lemma calls_only_subscript {A} key (v : option A) :
  calls_only P (@subscript W A key v).
Proof. destruct v; [apply calls_only_ret|apply calls_only_raise]. Qed.

Lemma calls_only_for_each {A} (body : A -> M W unit) items :
  (forall x, calls_only P (body x)) ->
  calls_only P (IAMRoleManager.for_each body items).
Proof.
  intros H. induction items as [|x rest IH]; cbn.
  - apply calls_only_ret.
  - apply calls_only_bind; auto.
Qed.

Lemma calls_only_while_truncated {A} fuel
    (next_page : option string -> Api (Page A)) (body : A -> M W unit)
    response :
  (forall marker reply, P (Called (next_page marker) reply)) ->
  (forall x, calls_only P (body x)) ->
  calls_only P (IAMRoleManager.while_truncated aws fuel next_page body response).
Proof.
  intros Hnext Hbody. revert response.
  induction fuel as [|fuel IH]; intros response; cbn;
    destruct (default false (IsTruncated response)).
  - apply calls_only_out_of_fuel.
  - apply calls_only_ret.
  - apply calls_only_bind; [apply calls_only_subscript|intros marker].
    apply calls_only_bind; [apply calls_only_call; auto|intros response'].
    apply calls_only_bind; [apply calls_only_for_each; auto|intros _].
    apply IH.
  - apply calls_only_ret.
Qed.

Lemma calls_only_for_each_page {A} fuel
    (next_page : option string -> Api (Page A)) (body : A -> M W unit) :
  (forall marker reply, P (Called (next_page marker) reply)) ->
  (forall x, calls_only P (body x)) ->
  calls_only P (IAMRoleManager.for_each_page aws fuel next_page body).
Proof.
  intros Hnext Hbody. unfold IAMRoleManager.for_each_page.
  apply calls_only_bind; [apply calls_only_call; auto|intros response].
  apply calls_only_bind; [apply calls_only_for_each; auto|intros _].
  apply calls_only_while_truncated; auto.
Qed.
End CallsOnly.

(** Decompose a [calls_only] goal along the structure of the program. *)
Ltac calls_only_step :=
  first
    [ apply calls_only_ret
    | apply calls_only_raise
    | apply calls_only_out_of_fuel
    | apply calls_only_subscript
    | apply calls_only_call; intros; repeat split; reflexivity
    | apply calls_only_for_each_page; intros
    | apply calls_only_for_each; intros
    | apply calls_only_bind; [|intros]
    | apply calls_only_try_except; [|intros]
    | match goal with
      | |- calls_only _ (if ?b then _ else _) => destruct b
      | |- calls_only _ (match ?x with _ => _ end) => destruct x
      end
    | solve [repeat split; reflexivity] ].


(** ** The call behind an exception *)

Section RaiseLogged.
Context {W : Type} (aws : Collaborator W) (Q : Event -> bool) (e : Exn).

Lemma raise_logged_ret {A} (a : A) : raise_logged Q e (@ret W A a).
Proof. intros w w' l H. discriminate H. Qed.

Lemma raise_logged_raise {A} e' : e' <> e -> raise_logged Q e (@raise W A e').
Proof. intros Hne w w' l H. inversion H. congruence. Qed.

Lemma raise_logged_call {R} (op : Api R) :
  Q (Called op (Fault e)) = true -> raise_logged Q e (call aws op).
Proof.
  intros HQ w w' l H. unfold call in H.
  destruct (aws R op w) as [[r|e'] w1]; inversion H; subst.
  cbn. rewrite HQ. reflexivity.
Qed.

Lemma raise_logged_bind {A B} (m : M W A) (f : A -> M W B) :
  raise_logged Q e m -> (forall a, raise_logged Q e (f a)) -> raise_logged Q e (bind m f).
Proof.
  intros Hm Hf w w' l H. unfold bind in H.
  destruct (m w) as [[a|e'|] w1 l1] eqn:Em; cbn in H.
  - destruct (f a w1) as [o2 w2 l2] eqn:Ef; cbn in H.
    inversion H; subst. rewrite existsb_app.
    rewrite (Hf a _ _ _ Ef). apply orb_true_r.
  - inversion H; subst. exact (Hm _ _ _ Em).
  - discriminate H.
Qed.

Lemma raise_logged_subscript {A} key (v : option A) :
  KeyError key <> e -> raise_logged Q e (@subscript W A key v).
Proof.
  intros Hne. destruct v; [apply raise_logged_ret|].
  apply raise_logged_raise. exact Hne.
Qed.

Lemma raise_logged_for_each {A} (body : A -> M W unit) items :
  (forall x, raise_logged Q e (body x)) ->
  raise_logged Q e (IAMRoleManager.for_each body items).
Proof.
  intros H. induction items as [|x rest IH]; cbn.
  - apply raise_logged_ret.
  - apply raise_logged_bind; auto.
Qed.

Lemma raise_logged_while_truncated {A} fuel
    (next_page : option string -> Api (Page A)) (body : A -> M W unit)
    response :
  KeyError "Marker" <> e ->
  (forall marker, Q (Called (next_page marker) (Fault e)) = true) ->
  (forall x, raise_logged Q e (body x)) ->
  raise_logged Q e
    (IAMRoleManager.while_truncated aws fuel next_page body response).
Proof.
  intros Hkey Hnext Hbody. revert response.
  induction fuel as [|fuel IH]; intros response; cbn;
    destruct (default false (IsTruncated response));
    try apply raise_logged_ret.
  - intros w w' l H. discriminate H.
  - apply raise_logged_bind; [apply raise_logged_subscript; auto|].
    intros marker.
    apply raise_logged_bind; [apply raise_logged_call; auto|].
    intros response'.
    apply raise_logged_bind; [apply raise_logged_for_each; auto|].
    intros _. apply IH.
Qed.

Lemma raise_logged_for_each_page {A} fuel
    (next_page : option string -> Api (Page A)) (body : A -> M W unit) :
  KeyError "Marker" <> e ->
  (forall marker, Q (Called (next_page marker) (Fault e)) = true) ->
  (forall x, raise_logged Q e (body x)) ->
  raise_logged Q e (IAMRoleManager.for_each_page aws fuel next_page body).
Proof.
  intros Hkey Hnext Hbody. unfold IAMRoleManager.for_each_page.
  apply raise_logged_bind; [apply raise_logged_call; auto|].
  intros response.
  apply raise_logged_bind; [apply raise_logged_for_each; auto|].
  intros _. apply raise_logged_while_truncated; auto.
Qed.
End RaiseLogged.


(** ** How a run can fail *)

Section Failing.
Context {W : Type} (aws : Collaborator W).

Lemma faulted_app e l1 l2 : faulted e l2 -> faulted e (l1 ++ l2).
Proof.
  intros (pre & R & op & ->). exists (l1 ++ pre), R, op.
  rewrite app_assoc. reflexivity.
Qed.

Lemma raises_faults_ret {A} (a : A) : raises_faults (@ret W A a).
Proof. intros w e w' l H. discriminate H. Qed.

Lemma raises_faults_call {R} (op : Api R) : raises_faults (call aws op).
Proof.
  intros w e w' l H. apply call_raises in H. destruct H as (_ & ->).
  left. exists [], R, op. reflexivity.
Qed.

Lemma raises_faults_subscript {A} (v : option A) :
  raises_faults (@subscript W A "Marker" v).
Proof.
  intros w e w' l H. destruct v; [discriminate H|].
  inversion H. right. reflexivity.
Qed.

Lemma raises_faults_bind {A B} (m : M W A) (f : A -> M W B) :
  raises_faults m -> (forall a, raises_faults (f a)) ->
  raises_faults (bind m f).
Proof.
  intros Hm Hf w e w' l H. apply bind_raises in H.
  destruct H as [H | (a & w1 & l1 & l2 & _ & H & ->)].
  - exact (Hm _ _ _ _ H).
  - destruct (Hf a _ _ _ _ H) as [Hl|He]; [left|right; exact He].
    apply faulted_app. exact Hl.
Qed.

Lemma raises_faults_try_except {A} (m : M W A) (h : Exn -> M W A) :
  raises_faults m -> handler_raises_faults h ->
  raises_faults (try_except m h).
Proof.
  intros Hm Hh w e w' l H. unfold try_except in H.
  destruct (m w) as [[a|caught|] w1 l1] eqn:Em; cbn in H;
    try discriminate H.
  destruct (h caught w1) as [o2 w2 l2] eqn:Eh; cbn in H.
  inversion H; subst.
  destruct (Hh _ _ _ _ _ Eh) as [(-> & ->)|[Hl|He]].
  - rewrite app_nil_r. exact (Hm _ _ _ _ Em).
  - left. apply faulted_app. exact Hl.
  - right. exact He.
Qed.

Lemma raises_faults_for_each {A} (body : A -> M W unit) items :
  (forall x, raises_faults (body x)) ->
  raises_faults (IAMRoleManager.for_each body items).
Proof.
  intros H. induction items as [|x rest IH]; cbn.
  - apply raises_faults_ret.
  - apply raises_faults_bind; auto.
Qed.

Lemma raises_faults_while_truncated {A} fuel
    (next_page : option string -> Api (Page A)) (body : A -> M W unit)
    response :
  (forall x, raises_faults (body x)) ->
  raises_faults
    (IAMRoleManager.while_truncated aws fuel next_page body response).
Proof.
  intros Hbody. revert response.
  induction fuel as [|fuel IH]; intros response; cbn;
    destruct (default false (IsTruncated response));
    try apply raises_faults_ret.
  - intros w e w' l H. discriminate H.
  - apply raises_faults_bind; [apply raises_faults_subscript|].
    intros marker.
    apply raises_faults_bind; [apply raises_faults_call|].
    intros response'.
    apply raises_faults_bind; [apply raises_faults_for_each; auto|].
    intros _. apply IH.
Qed.

Lemma raises_faults_for_each_page {A} fuel
    (next_page : option string -> Api (Page A)) (body : A -> M W unit) :
  (forall x, raises_faults (body x)) ->
  raises_faults (IAMRoleManager.for_each_page aws fuel next_page body).
Proof.
  intros Hbody. unfold IAMRoleManager.for_each_page.
  apply raises_faults_bind; [apply raises_faults_call|].
  intros response.
  apply raises_faults_bind; [apply raises_faults_for_each; auto|].
  intros _. apply raises_faults_while_truncated; auto.
Qed.

(** [except ClientError as e: if <test on the code>: raise] *)
Lemma handler_reraise_or_return {A} (h : Exn -> M W A) :
  (forall caught w,
     h caught w = MkRun (Raise caught) w [] \/
     exists a, h caught w = MkRun (Return a) w []) ->
  handler_raises_faults h.
Proof.
  intros Hh caught w e w' l H.
  destruct (Hh caught w) as [E|(a & E)]; rewrite E in H;
    [|discriminate H].
  inversion H; subst. left. auto.
Qed.

Lemma total_starves fuel {A} (m : M W A) : total m -> starves_at fuel m.
Proof.
  intros H w w' l E. specialize (H w). rewrite E in H.
  exfalso. apply H. reflexivity.
Qed.

Lemma total_ret {A} (a : A) : total (@ret W A a).
Proof. intros w. discriminate. Qed.

Lemma total_raise {A} e : total (@raise W A e).
Proof. intros w. discriminate. Qed.

Lemma total_call {R} (op : Api R) : total (call aws op).
Proof.
  intros w. unfold call. destruct (aws R op w) as [[r|e] w']; discriminate.
Qed.

Lemma total_bind {A B} (m : M W A) (f : A -> M W B) :
  total m -> (forall a, total (f a)) -> total (bind m f).
Proof.
  intros Hm Hf w. unfold bind. specialize (Hm w).
  destruct (m w) as [[a|e|] w1 l1]; cbn in *.
  - apply Hf.
  - discriminate.
  - exfalso. apply Hm. reflexivity.
Qed.

Lemma total_try_except {A} (m : M W A) (h : Exn -> M W A) :
  total m -> (forall e, total (h e)) -> total (try_except m h).
Proof.
  intros Hm Hh w. unfold try_except. specialize (Hm w).
  destruct (m w) as [[a|e|] w1 l1]; cbn in *.
  - discriminate.
  - apply Hh.
  - exact Hm.
Qed.

Lemma total_for_each {A} (body : A -> M W unit) items :
  (forall x, total (body x)) -> total (IAMRoleManager.for_each body items).
Proof.
  intros H. induction items as [|x rest IH]; cbn.
  - apply total_ret.
  - apply total_bind; auto.
Qed.

Lemma count_le_app kind (l1 l2 : list Event) :
  count kind l2 <= count kind (l1 ++ l2).
Proof. rewrite count_app. lia. Qed.

Lemma starves_at_bind fuel {A B} (m : M W A) (f : A -> M W B) :
  starves_at fuel m -> (forall a, starves_at fuel (f a)) ->
  starves_at fuel (bind m f).
Proof.
  intros Hm Hf w w' l H. unfold bind in H.
  destruct (m w) as [[a|e|] w1 l1] eqn:Em; cbn in H.
  - destruct (f a w1) as [o2 w2 l2] eqn:Ef; cbn in H.
    inversion H; subst.
    pose proof (Hf a _ _ _ Ef). pose proof (count_le_app is_truncated_page l1 l2).
    lia.
  - discriminate H.
  - inversion H; subst. exact (Hm _ _ _ Em).
Qed.

Lemma starves_at_try_except fuel {A} (m : M W A) (h : Exn -> M W A) :
  starves_at fuel m -> (forall e, total (h e)) ->
  starves_at fuel (try_except m h).
Proof.
  intros Hm Hh w w' l H. unfold try_except in H.
  destruct (m w) as [[a|e|] w1 l1] eqn:Em; cbn in H.
  - discriminate H.
  - specialize (Hh e w1).
    destruct (h e w1) as [o2 w2 l2]; cbn in *. inversion H; subst.
    congruence.
  - inversion H; subst. exact (Hm _ _ _ Em).
Qed.

(** Inside the loop, the response in hand is not part of the log. *)
Lemma while_truncated_starves {A} fuel
    (next_page : option string -> Api (Page A)) (body : A -> M W unit)
    response w w' l :
  (forall marker page,
     is_truncated_page (Called (next_page marker) (Ok page))
     = default false (IsTruncated page)) ->
  (forall x, total (body x)) ->
  IAMRoleManager.while_truncated aws fuel next_page body response w
  = MkRun OutOfFuel w' l ->
  default false (IsTruncated response) = true /\
  fuel <= count is_truncated_page l.
Proof.
  intros Hpage Hbody. revert response w w' l.
  induction fuel as [|fuel IH]; intros response w w' l H; cbn in H;
    destruct (default false (IsTruncated response)) eqn:Ht;
    try discriminate H.
  - split; [reflexivity|lia].
  - split; [reflexivity|].
    apply bind_starves in H.
    destruct H as [H | (marker & w1 & l1 & l2 & Hm & H & ->)].
    { destruct (Marker response); discriminate H. }
    destruct (Marker response); [|discriminate Hm].
    apply ret_returns in Hm. destruct Hm as (-> & -> & ->).
    apply bind_starves in H.
    destruct H as [H | (page & w2 & l3 & l4 & Hc & H & ->)].
    { exfalso. apply (total_call (next_page (Some s)) w).
      rewrite H. reflexivity. }
    apply call_returns in Hc. destruct Hc as (_ & ->).
    apply bind_starves in H.
    destruct H as [H | ([] & w3 & l5 & l6 & _ & H & ->)].
    { exfalso.
      apply (total_for_each body (the_list (Items page)) Hbody w2).
      rewrite H. reflexivity. }
    apply IH in H. destruct H as (Hp & Hle).
    cbn [app]. rewrite count_cons, Hpage, Hp.
    pose proof (count_le_app is_truncated_page l5 l6). lia.
Qed.

Lemma starves_at_for_each_page {A} fuel
    (next_page : option string -> Api (Page A)) (body : A -> M W unit) :
  (forall marker page,
     is_truncated_page (Called (next_page marker) (Ok page))
     = default false (IsTruncated page)) ->
  (forall x, total (body x)) ->
  starves_at fuel (IAMRoleManager.for_each_page aws fuel next_page body).
Proof.
  intros Hpage Hbody w w' l H. unfold IAMRoleManager.for_each_page in H.
  apply bind_starves in H.
  destruct H as [H | (page & w2 & l3 & l4 & Hc & H & ->)].
  { exfalso. apply (total_call (next_page None) w).
    rewrite H. reflexivity. }
  apply call_returns in Hc. destruct Hc as (_ & ->).
  apply bind_starves in H.
  destruct H as [H | ([] & w3 & l5 & l6 & _ & H & ->)].
  { exfalso.
    apply (total_for_each body (the_list (Items page)) Hbody w2).
    rewrite H. reflexivity. }
  apply while_truncated_starves in H; auto. destruct H as (Hp & Hle).
  cbn [app]. rewrite count_cons, Hpage, Hp.
  pose proof (count_le_app is_truncated_page l5 l6). lia.
Qed.
End Failing.

(** ** A missing marker *)

Section MarkerLogged.
Context {W : Type} (aws : Collaborator W).

Lemma marker_logged_ret {A} (a : A) : marker_logged (@ret W A a).
Proof. intros w w' l H. discriminate H. Qed.

Lemma marker_logged_call {R} (op : Api R) : marker_logged (call aws op).
Proof.
  intros w w' l H. apply call_raises in H. destruct H as (_ & ->).
  left. exists [], R, op. reflexivity.
Qed.

Lemma marker_logged_bind {A B} (m : M W A) (f : A -> M W B) :
  marker_logged m -> (forall a, marker_logged (f a)) ->
  marker_logged (bind m f).
Proof.
  intros Hm Hf w w' l H. apply bind_raises in H.
  destruct H as [H | (a & w1 & l1 & l2 & _ & H & ->)].
  - exact (Hm _ _ _ H).
  - destruct (Hf a _ _ _ H) as [Hl|Hl]; [left|right].
    + apply faulted_app. exact Hl.
    + rewrite existsb_app, Hl. apply orb_true_r.
Qed.

(** [except ClientError as e: if <test on the code>: raise] *)
Lemma marker_logged_try_except {A} (m : M W A) (h : Exn -> M W A) :
  marker_logged m ->
  (forall caught w,
     h caught w = MkRun (Raise caught) w [] \/
     exists a, h caught w = MkRun (Return a) w []) ->
  marker_logged (try_except m h).
Proof.
  intros Hm Hh w w' l H. unfold try_except in H.
  destruct (m w) as [[a|caught|] w1 l1] eqn:Em; cbn in H;
    try discriminate H.
  destruct (Hh caught w1) as [E|(a & E)]; rewrite E in H; cbn in H;
    [|discriminate H].
  inversion H; subst. rewrite app_nil_r. exact (Hm _ _ _ Em).
Qed.

Lemma marker_logged_for_each {A} (body : A -> M W unit) items :
  (forall x, marker_logged (body x)) ->
  marker_logged (IAMRoleManager.for_each body items).
Proof.
  intros H. induction items as [|x rest IH]; cbn.
  - apply marker_logged_ret.
  - apply marker_logged_bind; auto.
Qed.

(** The loop raises [KeyError "Marker"] on its own only for a truncated
    page without marker: the page it was entered with, or one it
    fetched. *)
Lemma while_truncated_marker {A} fuel
    (next_page : option string -> Api (Page A)) (body : A -> M W unit)
    response w w' l :
  (forall marker page,
     is_page_without_marker (Called (next_page marker) (Ok page))
     = default false (IsTruncated page)
       && match Marker page with None => true | Some _ => false end) ->
  (forall x, marker_logged (body x)) ->
  IAMRoleManager.while_truncated aws fuel next_page body response w
    = MkRun (Raise (KeyError "Marker")) w' l ->
  faulted (KeyError "Marker") l \/
  default false (IsTruncated response)
    && match Marker response with None => true | Some _ => false end
    = true \/
  existsb is_page_without_marker l = true.
Proof.
  intros Hpage Hbody. revert response w l.
  induction fuel as [|fuel IH]; intros response w l H; cbn in H;
    destruct (default false (IsTruncated response)) eqn:Ht;
    try discriminate H.
  apply bind_raises in H.
  destruct H as [H | (marker & w1 & l1 & l2 & Hm & H & ->)].
  { destruct (Marker response); [discriminate H|].
    right. left. reflexivity. }
  destruct (Marker response); [|discriminate Hm].
  apply ret_returns in Hm. destruct Hm as (_ & _ & ->). cbn [app].
  apply bind_raises in H.
  destruct H as [H | (page & w2 & l3 & l4 & Hp & H & ->)].
  { left. apply call_raises in H. destruct H as (_ & ->).
    eexists [], _, _. reflexivity. }
  apply call_returns in Hp. destruct Hp as (_ & ->).
  apply bind_raises in H.
  destruct H as [H | ([] & w3 & l5 & l6 & _ & H & ->)].
  { destruct (marker_logged_for_each body _ Hbody _ _ _ H) as [Hl|Hl].
    - left. apply (faulted_app _ [_]). exact Hl.
    - right. right. cbn [app existsb]. rewrite Hl. apply orb_true_r. }
  apply IH in H. destruct H as [Hl|[Hl|Hl]].
  - left. apply (faulted_app _ [_]). apply faulted_app. exact Hl.
  - right. right. cbn [app existsb]. rewrite Hpage, Hl. reflexivity.
  - right. right. cbn [app existsb]. rewrite existsb_app, Hl.
    rewrite !orb_true_r. reflexivity.
Qed.

Lemma marker_logged_for_each_page {A} fuel
    (next_page : option string -> Api (Page A)) (body : A -> M W unit) :
  (forall marker page,
     is_page_without_marker (Called (next_page marker) (Ok page))
     = default false (IsTruncated page)
       && match Marker page with None => true | Some _ => false end) ->
  (forall x, marker_logged (body x)) ->
  marker_logged (IAMRoleManager.for_each_page aws fuel next_page body).
Proof.
  intros Hpage Hbody w w' l H. unfold IAMRoleManager.for_each_page in H.
  apply bind_raises in H.
  destruct H as [H | (page & w2 & l1 & l2 & Hp & H & ->)].
  { left. apply call_raises in H. destruct H as (_ & ->).
    eexists [], _, _. reflexivity. }
  apply call_returns in Hp. destruct Hp as (_ & ->).
  apply bind_raises in H.
  destruct H as [H | ([] & w3 & l3 & l4 & _ & H & ->)].
  { destruct (marker_logged_for_each body _ Hbody _ _ _ H) as [Hl|Hl].
    - left. apply (faulted_app _ [_]). exact Hl.
    - right. cbn [app existsb]. rewrite Hl. apply orb_true_r. }
  apply (while_truncated_marker _ _ _ _ _ _ _ Hpage Hbody) in H.
  destruct H as [Hl|[Hl|Hl]].
  - left. apply (faulted_app _ [_]). apply faulted_app. exact Hl.
  - right. cbn [app existsb]. rewrite Hpage, Hl. reflexivity.
  - right. cbn [app existsb]. rewrite existsb_app, Hl.
    rewrite !orb_true_r. reflexivity.
Qed.
End MarkerLogged.
(** ** The storage access manager *)

Section S3AccessManagerProperties.
Context {W : Type} (aws : Collaborator W).
Import S3AccessManager.

Lemma bucket_exists_run bucket_name w reply w' :
  aws unit (head_bucket bucket_name) w = (reply, w') ->
  _bucket_exists aws bucket_name w =
    MkRun (match reply with
           | Ok _ => Return true
           | Fault (ClientError code) =>
               if String.eqb code "404" || String.eqb code "403"
               then Return false else Raise (ClientError code)
           | Fault e => Raise e
           end) w' [Called (head_bucket bucket_name) reply].
Proof.
  intros E. unfold _bucket_exists, try_except, bind, call. rewrite E.
  destruct reply as [[]|e]; cbn; [reflexivity|].
  destruct e; cbn; try reflexivity.
  destruct (String.eqb code "404"); cbn; [reflexivity|].
  destruct (String.eqb code "403"); reflexivity.
Qed.

Lemma configure_s3_access_returns function_name s3_bucket w b w' log :
  configure_s3_access aws function_name s3_bucket w
  = MkRun (Return b) w' log ->
  b = true /\
  exists response arn,
    log = configure_calls function_name s3_bucket response arn.
Proof.
  intros Hr. unfold configure_s3_access in Hr.
  apply bind_returns in Hr.
  destruct Hr as (found & w1 & l1 & l2 & Hprobe & Hr & ->).
  destruct (aws unit (head_bucket s3_bucket) w) as [reply w0] eqn:E.
  rewrite (bucket_exists_run _ _ _ _ E) in Hprobe.
  inversion Hprobe; subst w0 l1. clear Hprobe.
  destruct reply as [[]|e].
  - match goal with H : Return true = Return found |- _ =>
      injection H as <- end.
    cbn [negb] in Hr. apply bind_returns in Hr.
    destruct Hr as ([] & w2 & l3 & l4 & Hu & Hr & ->).
    apply ret_returns in Hr. destruct Hr as (-> & _ & ->).
    split; [reflexivity|].
    unfold _update_lambda_environment in Hu.
    apply bind_returns in Hu.
    destruct Hu as (response & w3 & l5 & l6 & Hc & Hu & ->).
    apply call_returns in Hc. destruct Hc as (_ & ->).
    apply bind_returns in Hu.
    destruct Hu as (arn & w4 & l7 & l8 & Hc & Hu & ->).
    apply call_returns in Hc. destruct Hc as (_ & ->).
    apply bind_returns in Hu.
    destruct Hu as ([] & w5 & l9 & l10 & Hc & Hu & ->).
    apply call_returns in Hc. destruct Hc as (_ & ->).
    apply ret_returns in Hu. destruct Hu as (_ & _ & ->).
    exists response, arn. reflexivity.
  - assert (found = false) as ->.
    { destruct e; try discriminate.
      destruct (String.eqb code "404" || String.eqb code "403");
        [congruence|discriminate]. }
    discriminate Hr.
Qed.

Lemma configure_s3_access_total function_name s3_bucket :
  total (configure_s3_access aws function_name s3_bucket).
Proof.
  unfold configure_s3_access, _bucket_exists, _update_lambda_environment.
  apply total_bind.
  - apply total_try_except.
    + apply total_bind; [apply total_call|intros _; apply total_ret].
    + intros e. destruct e; try apply total_raise.
      destruct (String.eqb code "404"); [apply total_ret|].
      destruct (String.eqb code "403"); [apply total_ret|apply total_raise].
  - intros found. destruct (negb found); [apply total_raise|].
    apply total_bind; [|intros _; apply total_ret].
    apply total_bind; [apply total_call|intros response].
    apply total_bind; [apply total_call|intros arn].
    apply total_bind; [apply total_call|intros _; apply total_ret].
Qed.

(** C10.  [configure_s3_access] never returns [False]: it returns [True],
    after the probe, the read, the update and the wait were all answered
    without fault, or it raises. *)
Theorem configure_s3_access_never_false function_name s3_bucket w :
  let r := configure_s3_access aws function_name s3_bucket w in
  (outcome r = Return true /\
   exists response arn,
     calls r =
       [ Called (head_bucket s3_bucket) (Ok tt);
         Called (get_function_configuration function_name) (Ok response);
         Called (update_function_configuration
                   (environment_update function_name
                      (merged_env response s3_bucket))) (Ok arn);
         Called (waiter_wait "function_updated" function_name) (Ok tt) ])
  \/ (exists e, outcome r = Raise e).
Proof.
  cbv zeta.
  destruct (configure_s3_access aws function_name s3_bucket w)
    as [o w' l] eqn:Hr; cbn [outcome calls].
  destruct o as [b|e|].
  - left. apply configure_s3_access_returns in Hr.
    destruct Hr as (-> & response & arn & ->).
    split; [reflexivity|]. exists response, arn. reflexivity.
  - right. exists e. reflexivity.
  - exfalso.
    apply (configure_s3_access_total function_name s3_bucket w).
    rewrite Hr. reflexivity.
Qed.

(** C6.  When the bucket probe is answered with the fault code [404] or
    [403], [configure_s3_access] raises the same [ValueError] in both cases,
    its only client call is the probe, and no
    [update_function_configuration] call is made. *)
Theorem configure_s3_access_bucket_unavailable
    function_name s3_bucket w code w' :
  aws unit (head_bucket s3_bucket) w = (Fault (ClientError code), w') ->
  code = "404" \/ code = "403" ->
  let r := configure_s3_access aws function_name s3_bucket w in
  r = MkRun
        (Raise (ValueError
                  "S3 bucket {s3_bucket} does not exist or is not accessible"
                  [FStr s3_bucket]))
        w' [Called (head_bucket s3_bucket) (Fault (ClientError code))] /\
  count is_update_function_configuration (calls r) = 0.
Proof.
  intros E Hcode. cbv zeta.
  assert (Hrun : configure_s3_access aws function_name s3_bucket w =
            MkRun
              (Raise (ValueError
                 "S3 bucket {s3_bucket} does not exist or is not accessible"
                 [FStr s3_bucket]))
              w' [Called (head_bucket s3_bucket) (Fault (ClientError code))]).
  { unfold configure_s3_access, bind.
    rewrite (bucket_exists_run _ _ _ _ E).
    destruct Hcode as [-> | ->]; reflexivity. }
  rewrite Hrun. split; reflexivity.
Qed.

(** C8.  For a reachable bucket, [configure_s3_access] writes back an
    environment in which [S3_BUCKET] is the bucket name.  When the response
    to [get_function_configuration] carries variables, the environment
    written is exactly those variables with [S3_BUCKET] set: every other
    variable is as in the response, the map is merged and not replaced.
    When the response carries none, it is [S3_BUCKET] alone.  This is the
    only [update_function_configuration] call of the run. *)
Theorem configure_s3_access_merges_environment
    function_name s3_bucket w w1 response w2 :
  aws unit (head_bucket s3_bucket) w = (Ok tt, w1) ->
  aws _ (get_function_configuration function_name) w1 = (Ok response, w2) ->
  let r := configure_s3_access aws function_name s3_bucket w in
  exists after reply rest,
    calls r =
      [ Called (head_bucket s3_bucket) (Ok tt);
        Called (get_function_configuration function_name) (Ok response);
        Called (update_function_configuration
                  (environment_update function_name after)) reply ]
      ++ rest /\
    count is_update_function_configuration (calls r) = 1 /\
    after !! "S3_BUCKET" = Some s3_bucket /\
    (* the function has variables: they are merged *)
    (forall before,
       Environment response = Some (Some before) ->
       after = <["S3_BUCKET" := s3_bucket]> before /\
       forall name, name <> "S3_BUCKET" -> after !! name = before !! name) /\
    (* the function has none *)
    (Environment response = None \/ Environment response = Some None ->
     after = {[ "S3_BUCKET" := s3_bucket ]}).
Proof.
  intros E1 E2. cbv zeta.
  exists (<["S3_BUCKET" := s3_bucket]> (current_env response)).
  destruct (aws _ (update_function_configuration
                     (environment_update function_name
                        (<["S3_BUCKET" := s3_bucket]> (current_env response))))
              w2) as [reply w3] eqn:E3.
  exists reply.
  assert (Hcalls : exists rest,
    calls (configure_s3_access aws function_name s3_bucket w) =
      [ Called (head_bucket s3_bucket) (Ok tt);
        Called (get_function_configuration function_name) (Ok response);
        Called (update_function_configuration
                  (environment_update function_name
                     (<["S3_BUCKET" := s3_bucket]> (current_env response))))
               reply ] ++ rest /\
      count is_update_function_configuration rest = 0).
  { unfold configure_s3_access, bind at 1.
    rewrite (bucket_exists_run _ _ _ _ E1). cbn.
    unfold _update_lambda_environment, bind, call. rewrite E2. cbn.
    unfold environment_update in E3. rewrite E3.
    destruct reply as [arn|e]; cbn.
    - destruct (aws unit (waiter_wait "function_updated" function_name) w3)
        as [[[]|e] w4]; cbn; eexists; split; reflexivity.
    - exists []. split; reflexivity. }
  destruct Hcalls as (rest & -> & Hrest). exists rest.
  split; [reflexivity|]. split.
  - change (count is_update_function_configuration
              ([ Called (head_bucket s3_bucket) (Ok tt);
                 Called (get_function_configuration function_name)
                   (Ok response)] ++
               Called (update_function_configuration
                  (environment_update function_name
                     (<["S3_BUCKET" := s3_bucket]> (current_env response))))
                 reply :: rest) = 1).
    rewrite count_app. unfold count in *. cbn. rewrite Hrest. reflexivity.
  - split; [apply lookup_insert_eq|]. split.
    + intros before Henv. unfold current_env. rewrite Henv.
      split; [reflexivity|].
      intros name Hne. apply lookup_insert_ne. congruence.
    + unfold current_env. intros [-> | ->]; apply insert_empty.
Qed.
End S3AccessManagerProperties.

(** ** Existence checks *)

Section ExistenceChecks.
Context {W : Type} (aws : Collaborator W).

Lemma role_exists_run role_name w reply w' :
  aws string (get_role role_name) w = (reply, w') ->
  IAMRoleManager._role_exists aws role_name w =
    MkRun (match reply with
           | Ok _ => Return true
           | Fault (ClientError code) =>
               if String.eqb code "NoSuchEntity"
               then Return false else Raise (ClientError code)
           | Fault e => Raise e
           end) w' [Called (get_role role_name) reply].
Proof.
  intros E. unfold IAMRoleManager._role_exists, try_except, bind, call.
  rewrite E. destruct reply as [arn|e]; cbn; [reflexivity|].
  destruct e; cbn; try reflexivity.
  destruct (String.eqb code "NoSuchEntity"); reflexivity.
Qed.

Lemma function_exists_run function_name w reply w' :
  aws unit (get_function function_name) w = (reply, w') ->
  LambdaFunctionDeployer._function_exists aws function_name w =
    MkRun (match reply with
           | Ok _ => Return true
           | Fault (ClientError code) =>
               if String.eqb code "ResourceNotFoundException"
               then Return false else Raise (ClientError code)
           | Fault e => Raise e
           end) w' [Called (get_function function_name) reply].
Proof.
  intros E.
  unfold LambdaFunctionDeployer._function_exists, try_except, bind, call.
  rewrite E. destruct reply as [[]|e]; cbn; [reflexivity|].
  destruct e; cbn; try reflexivity.
  destruct (String.eqb code "ResourceNotFoundException"); reflexivity.
Qed.

(** C5, as amended.  On a client fault, [_role_exists] answers [False] for
    the code [NoSuchEntity], [_function_exists] for
    [ResourceNotFoundException], and [_bucket_exists] for [404] and also for
    [403]; every other fault code is re-raised by each of them. *)
Theorem existence_checks_on_faults :
  reraises_all_but aws get_role (IAMRoleManager._role_exists aws)
    ["NoSuchEntity"] /\
  reraises_all_but aws get_function
    (LambdaFunctionDeployer._function_exists aws)
    ["ResourceNotFoundException"] /\
  reraises_all_but aws head_bucket (S3AccessManager._bucket_exists aws)
    ["404"; "403"].
Proof.
  unfold reraises_all_but. repeat split; intros name w code w' E.
  - rewrite (role_exists_run _ _ _ _ E); cbn.
    destruct (String.eqb code "NoSuchEntity"); reflexivity.
  - rewrite (function_exists_run _ _ _ _ E); cbn.
    destruct (String.eqb code "ResourceNotFoundException"); reflexivity.
  - rewrite (bucket_exists_run _ _ _ _ _ E); cbn.
    destruct (String.eqb code "404"); cbn; [reflexivity|].
    destruct (String.eqb code "403"); reflexivity.
Qed.
End ExistenceChecks.

Lemma bucket_check_swallows_forbidden :
  ~ reraises_all_but Sim.provider head_bucket
      (S3AccessManager._bucket_exists Sim.provider) ["404"].
Proof.
  intros H.
  specialize (H "locked" Sim.fresh "403" Sim.fresh eq_refl).
  vm_compute in H. discriminate H.
Qed.

(** ** The VPC configurator *)

Section VPCConfiguratorProperties.
Context {W : Type} (aws : Collaborator W).
Import VPCConfigurator.

Lemma not_found_is_false_run code e (w : W) :
  not_found_is_false code e w =
    MkRun (match e with
           | ClientError c =>
               if String.eqb c code then Return false else Raise e
           | _ => Raise e
           end) w [].
Proof.
  cbv [not_found_is_false]. destruct e; try reflexivity.
  destruct (String.eqb code0 code); reflexivity.
Qed.

(** What [_validate_subnets] makes of a response. *)
Lemma validate_subnets_run subnet_ids vpc_id w response w' :
  aws _ (describe_subnets subnet_ids) w = (Ok response, w') ->
  _validate_subnets aws subnet_ids vpc_id w =
    MkRun (subnets_verdict vpc_id subnet_ids response) w'
          [Called (describe_subnets subnet_ids) (Ok response)].
Proof.
  intros E. unfold _validate_subnets, try_except, bind, call, subnets_verdict.
  rewrite E. cbn.
  destruct (length (the_list response) =? length subnet_ids)%nat; cbn;
    [|reflexivity].
  destruct response; reflexivity.
Qed.

Lemma validate_security_groups_run security_group_ids vpc_id w response w' :
  aws _ (describe_security_groups security_group_ids) w = (Ok response, w') ->
  _validate_security_groups aws security_group_ids vpc_id w =
    MkRun (security_groups_verdict vpc_id security_group_ids response) w'
          [Called (describe_security_groups security_group_ids)
             (Ok response)].
Proof.
  intros E.
  unfold _validate_security_groups, try_except, bind, call,
    security_groups_verdict.
  rewrite E. cbn.
  destruct (length (the_list response) =? length security_group_ids)%nat;
    cbn; [|reflexivity].
  destruct response; reflexivity.
Qed.

Lemma subnets_belong_false vpc_id subnets subnet :
  In subnet subnets -> Subnet_VpcId subnet <> Some vpc_id ->
  subnets_belong vpc_id subnets = false.
Proof.
  intros Hin Hne. induction subnets as [|s rest IH]; [contradiction|].
  cbn. destruct Hin as [->|Hin].
  - assert (opt_is (Subnet_VpcId subnet) vpc_id = false) as ->;
      [|reflexivity].
    unfold opt_is. destruct (Subnet_VpcId subnet) as [v|]; [|reflexivity].
    apply String.eqb_neq. congruence.
  - destruct (negb (opt_is (Subnet_VpcId s) vpc_id)); [reflexivity|].
    destruct (negb (opt_is (Subnet_State s) "available")); auto.
Qed.

Lemma security_groups_belong_false vpc_id groups sg :
  In sg groups -> SecurityGroup_VpcId sg <> Some vpc_id ->
  security_groups_belong vpc_id groups = false.
Proof.
  intros Hin Hne. induction groups as [|s rest IH]; [contradiction|].
  cbn. destruct Hin as [->|Hin].
  - assert (opt_is (SecurityGroup_VpcId sg) vpc_id = false) as ->;
      [|reflexivity].
    unfold opt_is. destruct (SecurityGroup_VpcId sg) as [v|]; [|reflexivity].
    apply String.eqb_neq. congruence.
  - destruct (negb (opt_is (SecurityGroup_VpcId s) vpc_id)); auto.
Qed.

Lemma subnets_verdict_mismatch vpc_id subnet_ids subnets subnet :
  In subnet subnets -> Subnet_VpcId subnet <> Some vpc_id ->
  subnets_verdict vpc_id subnet_ids (Some subnets) = Return false.
Proof.
  intros Hin Hne. unfold subnets_verdict.
  destruct (negb _); [reflexivity|].
  rewrite (subnets_belong_false _ _ _ Hin Hne). reflexivity.
Qed.

Lemma security_groups_verdict_mismatch vpc_id ids groups sg :
  In sg groups -> SecurityGroup_VpcId sg <> Some vpc_id ->
  security_groups_verdict vpc_id ids (Some groups) = Return false.
Proof.
  intros Hin Hne. unfold security_groups_verdict.
  destruct (negb _); [reflexivity|].
  rewrite (security_groups_belong_false _ _ _ Hin Hne). reflexivity.
Qed.


Lemma count_forall_false kind log :
  Forall (fun ev => kind ev = false) log -> count kind log = 0.
Proof.
  unfold count. induction 1 as [|ev log H Hlog IH]; [reflexivity|].
  cbn. rewrite H. exact IH.
Qed.

Lemma create_vpc_config_without_groups vpc_id subnet_ids :
  calls_only (fun ev => is_describe_security_groups ev = false)
    (create_vpc_config aws vpc_id subnet_ids (Some [])).
Proof.
  unfold create_vpc_config, _validate_vpc, _validate_subnets,
    not_found_is_false.
  cbn [truthy_opt_list the_list].
  repeat calls_only_step.
Qed.

(** C9.  [create_vpc_config] with an empty security-group list runs
    exactly as with no list at all: no [describe_security_groups] call is
    made, and a returned descriptor has no [SecurityGroupIds] field. *)
Theorem create_vpc_config_empty_security_groups vpc_id subnet_ids w :
  let r := create_vpc_config aws vpc_id subnet_ids (Some []) w in
  r = create_vpc_config aws vpc_id subnet_ids None w /\
  count is_describe_security_groups (calls r) = 0 /\
  match outcome r with
  | Return vpc_config => SecurityGroupIds vpc_config = None
  | _ => True
  end.
Proof.
  cbv zeta. split; [reflexivity|]. split.
  - apply (count_forall_false is_describe_security_groups).
    apply (create_vpc_config_without_groups vpc_id subnet_ids w).
  - destruct (create_vpc_config aws vpc_id subnet_ids (Some []) w)
      as [[vpc_config|e|] w' l] eqn:Hr; cbn [outcome]; try exact I.
    unfold create_vpc_config in Hr.
    apply bind_returns in Hr.
    destruct Hr as (vpc_ok & w1 & l1 & l2 & _ & Hr & ->).
    destruct (negb vpc_ok); [discriminate Hr|].
    apply bind_returns in Hr.
    destruct Hr as (subnets_ok & w2 & l3 & l4 & _ & Hr & ->).
    destruct (negb subnets_ok); [discriminate Hr|].
    cbn [truthy_opt_list the_list] in Hr.
    apply bind_returns in Hr.
    destruct Hr as (bad & w3 & l5 & l6 & Hbad & Hr & ->).
    apply ret_returns in Hbad. destruct Hbad as (-> & _ & _).
    apply ret_returns in Hr. destruct Hr as (-> & _ & _).
    reflexivity.
Qed.
End VPCConfiguratorProperties.

(** ** The orchestrator: parameter validation *)

Section DeployValidation.
Context {W : Type} (aws : Collaborator W).
Import LambdaDeployer.

Lemma truthy_str_empty s : s = "" -> truthy_str s = false.
Proof. intros ->. reflexivity. Qed.

Lemma truthy_str_nonempty s : s <> "" -> truthy_str s = true.
Proof. destruct s; [congruence|reflexivity]. Qed.

(** C2.  When [ecr_image_uri], [function_name] or [s3_bucket] is empty, or
    [vpc_id] is set (a non-empty string) while [subnet_ids] is missing or
    empty, [deploy] raises a [MissingParameter] error, leaves the provider as
    it was and makes no client call at all.  With the three names present,
    the error is the one about subnet IDs. *)
Theorem deploy_missing_parameter
    fuel ecr_image_uri function_name s3_bucket role_name memory_size timeout
    vpc_id subnet_ids security_group_ids force_recreate_role w :
  ecr_image_uri = "" \/ function_name = "" \/ s3_bucket = "" \/
  (truthy_opt_str vpc_id = true /\ truthy_opt_list subnet_ids = false) ->
  exists e,
    deploy aws fuel ecr_image_uri function_name s3_bucket role_name
      memory_size timeout vpc_id subnet_ids security_group_ids
      force_recreate_role w
    = MkRun (Raise e) w [] /\
    MissingParameter e = true /\
    (ecr_image_uri <> "" -> function_name <> "" -> s3_bucket <> "" ->
     e = ValueError
           "Subnet IDs must be provided when using VPC configuration" []).
Proof.
  intros H. unfold deploy.
  destruct (string_dec ecr_image_uri "") as [->|Hecr].
  { eexists. split; [reflexivity|]. split; [reflexivity|congruence]. }
  rewrite (truthy_str_nonempty _ Hecr). cbn [negb].
  destruct (string_dec function_name "") as [->|Hfn].
  { eexists. split; [reflexivity|]. split; [reflexivity|congruence]. }
  rewrite (truthy_str_nonempty _ Hfn). cbn [negb].
  destruct (string_dec s3_bucket "") as [->|Hb].
  { eexists. split; [reflexivity|]. split; [reflexivity|congruence]. }
  rewrite (truthy_str_nonempty _ Hb). cbn [negb].
  destruct H as [H|[H|[H|[Hvpc Hsub]]]]; try congruence.
  rewrite Hvpc, Hsub. cbn.
  eexists. split; [reflexivity|]. split; reflexivity.
Qed.
End DeployValidation.

(** ** Which client a manager talks to *)

Section ServiceSeparation.
Context {W : Type} (aws : Collaborator W).

Lemma create_vpc_config_not_lambda vpc_id subnet_ids security_group_ids :
  calls_only not_lambda
    (VPCConfigurator.create_vpc_config aws vpc_id subnet_ids
       security_group_ids).
Proof.
  unfold VPCConfigurator.create_vpc_config, VPCConfigurator._validate_vpc,
    VPCConfigurator._validate_subnets,
    VPCConfigurator._validate_security_groups,
    VPCConfigurator.not_found_is_false.
  repeat calls_only_step.
Qed.

Lemma create_or_update_role_not_lambda fuel role_name s3_bucket force :
  calls_only not_lambda
    (IAMRoleManager.create_or_update_role aws fuel role_name s3_bucket force).
Proof.
  unfold IAMRoleManager.create_or_update_role, IAMRoleManager._role_exists,
    IAMRoleManager._delete_role, IAMRoleManager._create_role,
    IAMRoleManager._detach_all_policies_from_role,
    IAMRoleManager._create_s3_access_policy, IAMRoleManager._delete_policy,
    IAMRoleManager._detach_policy_from_all_entities,
    IAMRoleManager._get_account_id, IAMRoleManager.time_sleep.
  repeat calls_only_step.
Qed.

Lemma count_not_lambda kind log :
  (forall ev, kind ev = true -> is_lambda ev = true) ->
  Forall not_lambda log -> count kind log = 0.
Proof.
  intros Hkind Hlog. unfold count.
  induction Hlog as [|ev log Hev Hlog IH]; [reflexivity|].
  cbn. destruct (kind ev) eqn:Hk; [|exact IH].
  apply Hkind in Hk. unfold not_lambda in Hev. congruence.
Qed.
End ServiceSeparation.

(** ** Redeploying an existing function *)

Section Redeploy.
Context {W : Type} (aws : Collaborator W).

Lemma deploy_function_returns
    function_name ecr_image_uri role_arn memory_size timeout vpc_config
    w function_arn w' log :
  LambdaFunctionDeployer.deploy_function aws function_name ecr_image_uri
    role_arn memory_size timeout vpc_config w
  = MkRun (Return function_arn) w' log ->
  (exists code_arn,
     log = update_path_calls function_name ecr_image_uri role_arn
             memory_size timeout vpc_config code_arn function_arn) \/
  (existsb (is_function_found function_name) log = false /\
   count is_update_function_code log = 0 /\
   count is_update_function_configuration log = 0 /\
   count is_create_function log = 1).
Proof.
  intros Hr. unfold LambdaFunctionDeployer.deploy_function in Hr.
  apply bind_returns in Hr.
  destruct Hr as (found & w1 & l1 & l2 & Hprobe & Hr & ->).
  destruct (aws unit (get_function function_name) w) as [reply w0] eqn:E.
  rewrite (function_exists_run _ _ _ _ _ E) in Hprobe.
  inversion Hprobe; subst w0 l1. clear Hprobe.
  destruct reply as [[]|e].
  - left. match goal with H : Return true = Return found |- _ =>
            injection H as <- end.
    unfold LambdaFunctionDeployer._update_function_code,
      LambdaFunctionDeployer._update_function_configuration in Hr.
    apply bind_returns in Hr.
    destruct Hr as (arn1 & w2 & l3 & l4 & Hcode & Hr & ->).
    apply bind_returns in Hcode.
    destruct Hcode as (code_arn & w3 & l5 & l6 & Hc & Hcode & ->).
    apply call_returns in Hc. destruct Hc as (_ & ->).
    apply bind_returns in Hcode.
    destruct Hcode as ([] & w4 & l7 & l8 & Hw & Hcode & ->).
    apply call_returns in Hw. destruct Hw as (_ & ->).
    apply ret_returns in Hcode. destruct Hcode as (_ & _ & ->).
    apply bind_returns in Hr.
    destruct Hr as (arn2 & w5 & l9 & l10 & Hc & Hr & ->).
    apply call_returns in Hc. destruct Hc as (_ & ->).
    apply bind_returns in Hr.
    destruct Hr as ([] & w6 & l11 & l12 & Hw & Hr & ->).
    apply call_returns in Hw. destruct Hw as (_ & ->).
    apply ret_returns in Hr. destruct Hr as (-> & _ & ->).
    exists code_arn. reflexivity.
  - right.
    assert (found = false) as ->.
    { destruct e; try discriminate.
      destruct (String.eqb code "ResourceNotFoundException");
        [congruence|discriminate]. }
    unfold LambdaFunctionDeployer._create_function in Hr.
    apply bind_returns in Hr.
    destruct Hr as (arn1 & w2 & l3 & l4 & Hc & Hr & ->).
    apply call_returns in Hc. destruct Hc as (_ & ->).
    apply bind_returns in Hr.
    destruct Hr as ([] & w3 & l5 & l6 & Hw & Hr & ->).
    apply call_returns in Hw. destruct Hw as (_ & ->).
    apply ret_returns in Hr. destruct Hr as (-> & _ & ->).
    repeat split; reflexivity.
Qed.

Lemma existsb_not_lambda function_name log :
  Forall not_lambda log ->
  existsb (is_function_found function_name) log = false.
Proof.
  intros H. induction H as [|ev log Hev Hlog IH]; [reflexivity|].
  cbn. rewrite IH, orb_false_r.
  destruct ev as [R op reply]. unfold not_lambda in Hev.
  destruct op; try reflexivity; discriminate Hev.
Qed.

(** C1, as amended.  In every deploy that completes and whose existence
    probe found the function, the compute service is sent exactly one
    [update_function_code] call, two [update_function_configuration] calls
    and no [create_function] call: the function deployer sends the code
    update and then one configuration update (role, memory, timeout, network
    attachment), and the storage access manager sends a second configuration
    update that carries only the environment.  No other manager calls the
    compute service. *)
Theorem redeploy_call_counts
    fuel ecr_image_uri function_name s3_bucket role_name memory_size timeout
    vpc_id subnet_ids security_group_ids force_recreate_role w result :
  let r := LambdaDeployer.deploy aws fuel ecr_image_uri function_name
             s3_bucket role_name memory_size timeout vpc_id subnet_ids
             security_group_ids force_recreate_role w in
  outcome r = Return result ->
  existsb (is_function_found function_name) (calls r) = true ->
  (exists before vpc_config code_arn response arn,
     Forall not_lambda before /\
     calls r =
       before
       ++ update_path_calls function_name ecr_image_uri (role_arn result)
            memory_size timeout vpc_config code_arn (function_arn result)
       ++ configure_calls function_name s3_bucket response arn) /\
  count is_update_function_code (calls r) = 1 /\
  count is_update_function_configuration (calls r) = 2 /\
  count is_create_function (calls r) = 0.
Proof.
  cbv zeta.
  destruct (LambdaDeployer.deploy aws fuel ecr_image_uri function_name
             s3_bucket role_name memory_size timeout vpc_id subnet_ids
             security_group_ids force_recreate_role w)
    as [o w' log] eqn:Hr; cbn [outcome calls].
  intros -> Hfound.
  unfold LambdaDeployer.deploy in Hr.
  destruct (negb (truthy_str ecr_image_uri)); [discriminate Hr|].
  destruct (negb (truthy_str function_name)); [discriminate Hr|].
  destruct (negb (truthy_str s3_bucket)); [discriminate Hr|].
  set (name := if negb (truthy_opt_str role_name) then _ else _) in Hr.
  apply bind_returns in Hr.
  destruct Hr as (vpc_config & w1 & l1 & l1' & Hvpc & Hr & ->).
  apply bind_returns in Hr.
  destruct Hr as (arn_r & w2 & l2 & l2' & Hrole & Hr & ->).
  apply bind_returns in Hr.
  destruct Hr as (arn_f & w3 & l3 & l3' & Hfun & Hr & ->).
  apply bind_returns in Hr.
  destruct Hr as (b & w4 & l4 & l4' & Hs3 & Hr & ->).
  apply ret_returns in Hr. destruct Hr as (-> & -> & ->).
  cbn [role_arn function_arn].
  assert (H1 : Forall not_lambda l1).
  { destruct (truthy_opt_str vpc_id).
    - destruct (negb (truthy_opt_list subnet_ids)); [discriminate Hvpc|].
      apply bind_returns in Hvpc.
      destruct Hvpc as (cfg & w1' & k & k' & Hcfg & Hret & ->).
      apply ret_returns in Hret. destruct Hret as (_ & _ & ->).
      rewrite app_nil_r.
      pose proof (create_vpc_config_not_lambda aws (default "" vpc_id)
                    (the_list subnet_ids) security_group_ids w) as H.
      rewrite Hcfg in H. exact H.
    - apply ret_returns in Hvpc. destruct Hvpc as (_ & _ & ->).
      constructor. }
  assert (H2 : Forall not_lambda l2).
  { pose proof (create_or_update_role_not_lambda aws fuel name s3_bucket
                  force_recreate_role w1) as H.
    rewrite Hrole in H. exact H. }
  apply configure_s3_access_returns in Hs3.
  destruct Hs3 as (-> & response & arn & ->).
  apply deploy_function_returns in Hfun.
  rewrite app_nil_r in *.
  destruct Hfun as [(code_arn & ->) | (Hnf & _)].
  - split.
    + exists (l1 ++ l2), vpc_config, code_arn, response, arn.
      split; [apply Forall_app; auto|].
      rewrite <- app_assoc. reflexivity.
    + rewrite !count_app.
      assert (Hzero : forall kind,
                (forall ev, kind ev = true -> is_lambda ev = true) ->
                count kind l1 = 0 /\ count kind l2 = 0).
      { intros kind Hk. split; apply count_not_lambda; auto. }
      destruct (Hzero is_update_function_code) as [-> ->];
        [intros [R op reply]; destruct op; cbn; congruence|].
      destruct (Hzero is_update_function_configuration) as [-> ->];
        [intros [R op reply]; destruct op; cbn; congruence|].
      destruct (Hzero is_create_function) as [-> ->];
        [intros [R op reply]; destruct op; cbn; congruence|].
      repeat split; reflexivity.
  - exfalso. rewrite !existsb_app in Hfound.
    rewrite (existsb_not_lambda _ _ H1), (existsb_not_lambda _ _ H2), Hnf
      in Hfound.
    discriminate Hfound.
Qed.
End Redeploy.

(** ** The role manager *)

Section PolicyCleanup.
Context {W : Type} (aws : Collaborator W).
Import IAMRoleManager.

(** A [NoSuchEntity] fault out of [_delete_policy] comes from one of its
    own calls. *)
Lemma delete_policy_missing fuel policy_arn :
  raise_logged is_unexpected_missing (ClientError "NoSuchEntity")
    (_delete_policy aws fuel policy_arn).
Proof.
  unfold _delete_policy, _detach_policy_from_all_entities.
  apply raise_logged_bind.
  - apply raise_logged_for_each_page; try discriminate; try reflexivity.
    intros role. apply raise_logged_call. reflexivity.
  - intros _. apply raise_logged_call. reflexivity.
Qed.

Lemma for_each_detach_returns policy_arn roles w w' l :
  for_each (fun role => call aws (detach_role_policy role policy_arn))
    roles w = MkRun (Return tt) w' l ->
  (forall role, In role roles ->
     existsb (is_detached role policy_arn) l = true) /\
  flat_map (listed_roles policy_arn) l = [].
Proof.
  revert w l. induction roles as [|role rest IH]; intros w l H; cbn in H.
  - apply ret_returns in H. destruct H as (_ & _ & ->).
    split; [contradiction|reflexivity].
  - apply bind_returns in H.
    destruct H as ([] & w1 & l1 & l2 & Hd & Hrest & ->).
    apply call_returns in Hd. destruct Hd as (_ & ->).
    apply IH in Hrest. destruct Hrest as (Hall & Hnone).
    split.
    + intros r [<-|Hin]; cbn.
      * rewrite !String.eqb_refl. reflexivity.
      * rewrite (Hall r Hin). apply orb_true_r.
    + cbn. exact Hnone.
Qed.

Lemma all_listed_detached_page policy_arn marker page l1 l2 :
  (forall role, In role (the_list (Items page)) ->
     existsb (is_detached role policy_arn) l1 = true) ->
  flat_map (listed_roles policy_arn) l1 = [] ->
  all_listed_detached policy_arn l2 ->
  all_listed_detached policy_arn
    (Called (list_entities_for_policy policy_arn "Role" marker) (Ok page)
       :: l1 ++ l2).
Proof.
  intros H1 Hnone H2 role Hin. cbn in Hin.
  rewrite String.eqb_refl, flat_map_app, Hnone in Hin. cbn in Hin.
  cbn. rewrite existsb_app.
  apply in_app_or in Hin. destruct Hin as [Hin|Hin].
  - rewrite (H1 role Hin). reflexivity.
  - rewrite (H2 role Hin). apply orb_true_r.
Qed.

Lemma while_truncated_detach_returns fuel policy_arn response w w' l :
  while_truncated aws fuel (list_entities_for_policy policy_arn "Role")
    (fun role => call aws (detach_role_policy role policy_arn)) response w
  = MkRun (Return tt) w' l ->
  all_listed_detached policy_arn l.
Proof.
  revert response w l.
  induction fuel as [|fuel IH]; intros response w l H; cbn in H;
    destruct (default false (IsTruncated response));
    try discriminate H;
    try (apply ret_returns in H; destruct H as (_ & _ & ->);
         intros role []).
  apply bind_returns in H.
  destruct H as (marker & w1 & l1 & l2 & Hm & H & ->).
  destruct (Marker response); [|discriminate Hm].
  apply ret_returns in Hm. destruct Hm as (-> & -> & ->).
  apply bind_returns in H.
  destruct H as (page & w2 & l2' & l3 & Hp & H & ->).
  apply call_returns in Hp. destruct Hp as (_ & ->).
  apply bind_returns in H.
  destruct H as ([] & w3 & l4 & l5 & Hf & H & ->).
  apply for_each_detach_returns in Hf. destruct Hf as (Hall & Hnone).
  apply IH in H. cbn.
  apply all_listed_detached_page; assumption.
Qed.

(** A completed [_delete_policy]: every role any page listed was detached,
    and the last call deleted the policy. *)
Lemma delete_policy_returns fuel policy_arn w w' l :
  _delete_policy aws fuel policy_arn w = MkRun (Return tt) w' l ->
  exists detaching,
    l = detaching ++ [Called (delete_policy policy_arn) (Ok tt)] /\
    all_listed_detached policy_arn detaching.
Proof.
  intros H. unfold _delete_policy in H.
  apply bind_returns in H.
  destruct H as ([] & w1 & l1 & l2 & Hd & H & ->).
  apply call_returns in H. destruct H as (_ & ->).
  exists l1. split; [reflexivity|].
  unfold _detach_policy_from_all_entities, for_each_page in Hd.
  apply bind_returns in Hd.
  destruct Hd as (page & w2 & k1 & k2 & Hp & Hd & ->).
  apply call_returns in Hp. destruct Hp as (_ & ->).
  apply bind_returns in Hd.
  destruct Hd as ([] & w3 & k3 & k4 & Hf & Hd & ->).
  apply for_each_detach_returns in Hf. destruct Hf as (Hall & Hnone).
  apply while_truncated_detach_returns in Hd.
  cbn. apply all_listed_detached_page; assumption.
Qed.
End PolicyCleanup.

Section RoleManagerProperties.
Context {W : Type} (aws : Collaborator W).
Import IAMRoleManager.

Lemma append_inj_l (p a b : string) : p +:+ a = p +:+ b -> a = b.
Proof.
  induction p as [|c p IH]; simpl; [auto|].
  intros H. injection H as H. auto.
Qed.

Lemma basic_execution_name_differs role_name :
  String.eqb (role_name +:+ "-basic-execution")
    (s3_access_policy_name role_name) = false.
Proof.
  apply String.eqb_neq. unfold s3_access_policy_name. intros H.
  apply append_inj_l in H. discriminate H.
Qed.

Lemma count_housekeeping role_name log :
  Forall (housekeeping role_name) log ->
  count (is_create_policy_named (s3_access_policy_name role_name)) log = 0 /\
  count is_create_role log = 0 /\ count is_delete_role log = 0.
Proof.
  unfold count. induction 1 as [|ev log (H1 & H2 & H3) Hlog IH];
    [repeat split; reflexivity|].
  cbn. rewrite H1, H2, H3. exact IH.
Qed.

Lemma cleanup_housekeeping fuel role_name :
  calls_only (housekeeping role_name) (cleanup aws fuel role_name).
Proof.
  unfold cleanup, _get_account_id, _delete_policy,
    _detach_policy_from_all_entities.
  repeat calls_only_step.
Qed.

Lemma delete_policy_raises_faults fuel policy_arn :
  raises_faults (_delete_policy aws fuel policy_arn).
Proof.
  unfold _delete_policy, _detach_policy_from_all_entities.
  apply raises_faults_bind; [|intros _; apply raises_faults_call].
  apply raises_faults_for_each_page.
  intros role. apply raises_faults_call.
Qed.

Lemma delete_policy_no_probe fuel policy_arn :
  calls_only (fun ev => is_existence_probe ev = false)
    (_delete_policy aws fuel policy_arn).
Proof.
  unfold _delete_policy, _detach_policy_from_all_entities.
  repeat calls_only_step.
Qed.

Lemma missing_unexpected {R} (op : Api R) :
  is_existence_probe (Called op (Fault (ClientError "NoSuchEntity")))
    = false ->
  is_unexpected_missing (Called op (Fault (ClientError "NoSuchEntity")))
    = true.
Proof. destruct op; cbn; congruence. Qed.

(** A [NoSuchEntity] out of [_delete_policy] is the answer to its last
    call. *)
Lemma delete_policy_cut_short fuel policy_arn w w' l :
  _delete_policy aws fuel policy_arn w
    = MkRun (Raise (ClientError "NoSuchEntity")) w' l ->
  cleanup_cut_short l.
Proof.
  intros H.
  pose proof (delete_policy_no_probe fuel policy_arn w) as Hk.
  rewrite H in Hk. cbn [calls] in Hk.
  destruct (delete_policy_raises_faults fuel policy_arn _ _ _ _ H)
    as [(pre & R & op & ->)|He]; [|discriminate He].
  exists pre, (Called op (Fault (ClientError "NoSuchEntity"))).
  split; [reflexivity|].
  apply Forall_app in Hk. destruct Hk as (_ & Hk).
  apply missing_unexpected. exact (Forall_inv Hk).
Qed.

Lemma cleanup_returns fuel role_name w w' l :
  cleanup aws fuel role_name w = MkRun (Return tt) w' l ->
  policy_was_absent role_name l \/
  policy_was_replaced role_name l \/
  cleanup_cut_short l.
Proof.
  intros H. unfold cleanup in H. apply try_except_returns in H.
  destruct H as [H | (e & w1 & l1 & l2 & H & Hh & ->)].
  - right. left.
    apply bind_returns in H.
    destruct H as (account & w1 & l1 & l2 & Ha & H & ->).
    apply call_returns in Ha. destruct Ha as (_ & ->).
    apply bind_returns in H.
    destruct H as (arn & w2 & l3 & l4 & Hg & H & ->).
    apply call_returns in Hg. destruct Hg as (_ & ->).
    apply delete_policy_returns in H.
    destruct H as (detaching & -> & Hall).
    exists account, arn, detaching. split; [reflexivity|assumption].
  - assert (e = ClientError "NoSuchEntity") as ->.
    { destruct e; try discriminate Hh.
      destruct (String.eqb code "NoSuchEntity") eqn:Hc; cbn in Hh;
        [|discriminate Hh].
      apply String.eqb_eq in Hc. congruence. }
    cbn in Hh. apply ret_returns in Hh. destruct Hh as (_ & _ & ->).
    rewrite app_nil_r.
    apply bind_raises in H.
    destruct H as [H | (account & w2 & k1 & k2 & Ha & H & ->)].
    { right. right. apply call_raises in H. destruct H as (_ & ->).
      eexists [], _. split; reflexivity. }
    apply call_returns in Ha. destruct Ha as (_ & ->).
    apply bind_raises in H.
    destruct H as [H | (arn & w3 & k3 & k4 & Hg & H & ->)].
    { left. apply call_raises in H. destruct H as (_ & ->).
      exists account. reflexivity. }
    right. right.
    apply call_returns in Hg. destruct Hg as (_ & ->).
    apply delete_policy_cut_short in H.
    destruct H as (pre & ev & -> & Hev).
    eexists (_ :: _ :: pre), ev. split; [reflexivity|exact Hev].
Qed.

Lemma create_s3_access_policy_returns fuel role_name s3_bucket w arn w' l :
  _create_s3_access_policy aws fuel role_name s3_bucket w
  = MkRun (Return arn) w' l ->
  exists cleaning,
    l = cleaning
        ++ [Called (create_s3_access_policy_call role_name s3_bucket)
              (Ok arn)] /\
    Forall (housekeeping role_name) cleaning /\
    (policy_was_absent role_name cleaning \/
     policy_was_replaced role_name cleaning \/
     cleanup_cut_short cleaning).
Proof.
  intros H.
  change (bind (cleanup aws fuel role_name)
            (fun _ => call aws
               (create_s3_access_policy_call role_name s3_bucket)) w
          = MkRun (Return arn) w' l) in H.
  apply bind_returns in H.
  destruct H as ([] & w1 & l1 & l2 & Hc & H & ->).
  apply call_returns in H. destruct H as (_ & ->).
  exists l1. split; [reflexivity|]. split.
  - pose proof (cleanup_housekeeping fuel role_name w) as Hk.
    rewrite Hc in Hk. exact Hk.
  - exact (cleanup_returns _ _ _ _ _ Hc).
Qed.
End RoleManagerProperties.

Section RoleManagerTheorems.
Context {W : Type} (aws : Collaborator W).
Import IAMRoleManager.

Lemma role_exists_other_policy role_name :
  calls_only (other_policy role_name) (_role_exists aws role_name).
Proof. unfold _role_exists. repeat calls_only_step. Qed.

Lemma delete_role_other_policy fuel role_name :
  calls_only (other_policy role_name) (_delete_role aws fuel role_name).
Proof.
  unfold _delete_role, _detach_all_policies_from_role.
  repeat calls_only_step.
Qed.

Lemma create_role_other_policy role_name :
  calls_only (other_policy role_name) (_create_role aws role_name).
Proof.
  unfold _create_role, _get_account_id, time_sleep.
  repeat calls_only_step.
  apply calls_only_call. intros reply.
  apply basic_execution_name_differs.
Qed.

Lemma count_other_policy role_name log :
  Forall (other_policy role_name) log ->
  count (is_create_policy_named (s3_access_policy_name role_name)) log = 0.
Proof.
  unfold count. induction 1 as [|ev log H Hlog IH]; [reflexivity|].
  cbn. rewrite H. exact IH.
Qed.

Lemma calls_only_run {A} P (m : M W A) w o w' l :
  calls_only P m -> m w = MkRun o w' l -> Forall P l.
Proof. intros H E. specialize (H w). rewrite E in H. exact H. Qed.

Lemma create_s3_access_policy_raises_faults fuel role_name s3_bucket :
  raises_faults
    (_create_s3_access_policy aws fuel role_name s3_bucket).
Proof.
  unfold _create_s3_access_policy, _get_account_id, _delete_policy,
    _detach_policy_from_all_entities.
  apply raises_faults_bind; [|intros _; apply raises_faults_call].
  apply raises_faults_try_except.
  - apply raises_faults_bind; [apply raises_faults_call|intros account].
    apply raises_faults_bind; [apply raises_faults_call|intros arn].
    apply raises_faults_bind; [|intros _; apply raises_faults_call].
    apply raises_faults_for_each_page.
    intros role. apply raises_faults_call.
  - apply handler_reraise_or_return. intros caught w.
    destruct caught; auto.
    destruct (negb (String.eqb code "NoSuchEntity")); [auto|].
    right. exists tt. reflexivity.
Qed.

Lemma create_s3_access_policy_starves fuel role_name s3_bucket :
  starves_at fuel (_create_s3_access_policy aws fuel role_name s3_bucket).
Proof.
  unfold _create_s3_access_policy, _get_account_id, _delete_policy,
    _detach_policy_from_all_entities.
  apply starves_at_bind;
    [|intros _; apply total_starves, total_call].
  apply starves_at_try_except.
  - apply starves_at_bind; [apply total_starves, total_call|intros account].
    apply starves_at_bind; [apply total_starves, total_call|intros arn].
    apply starves_at_bind; [|intros _; apply total_starves, total_call].
    apply starves_at_for_each_page; [reflexivity|].
    intros role. apply total_call.
  - intros e. destruct e; try apply total_raise.
    destruct (negb (String.eqb code "NoSuchEntity"));
      [apply total_raise|apply total_ret].
Qed.

Lemma faulted_cons e ev l : faulted e l -> faulted e (ev :: l).
Proof. apply (faulted_app e [ev] l). Qed.

Lemma s3_access_policy_bucket_scoped s3_bucket :
  bucket_scoped s3_bucket (s3_access_policy_document s3_bucket).
Proof.
  split; [discriminate|].
  constructor; [|constructor].
  split; [reflexivity|]. split; [discriminate|].
  split; [repeat constructor|]. split; [discriminate|].
  constructor; [left; reflexivity|].
  constructor; [right; reflexivity|constructor].
Qed.

Lemma create_s3_access_policy_marker_logged fuel role_name s3_bucket :
  marker_logged (_create_s3_access_policy aws fuel role_name s3_bucket).
Proof.
  unfold _create_s3_access_policy, _get_account_id, _delete_policy,
    _detach_policy_from_all_entities.
  apply marker_logged_bind; [|intros _; apply marker_logged_call].
  apply marker_logged_try_except.
  - apply marker_logged_bind; [apply marker_logged_call|intros account].
    apply marker_logged_bind; [apply marker_logged_call|intros arn].
    apply marker_logged_bind; [|intros _; apply marker_logged_call].
    apply marker_logged_for_each_page; [reflexivity|].
    intros role. apply marker_logged_call.
  - intros caught w. destruct caught; auto.
    destruct (negb (String.eqb code "NoSuchEntity")); [auto|].
    right. exists tt. reflexivity.
Qed.


End RoleManagerTheorems.

(** ** The properties on concrete runs *)

Lemma second_deploy_updates_configuration_twice :
  outcome Scenario.second_deploy
    = Return {| function_arn := Scenario.function_arn;
                role_arn := Scenario.role_arn |} /\
  existsb (is_function_found "f") (calls Scenario.second_deploy) = true /\
  count is_update_function_configuration (calls Scenario.second_deploy) = 2 /\
  ~ redeploy_updates_once Sim.provider.
Proof.
  assert (H1 : outcome Scenario.second_deploy
               = Return {| function_arn := Scenario.function_arn;
                           role_arn := Scenario.role_arn |})
    by (vm_compute; reflexivity).
  assert (H2 : existsb (is_function_found "f") (calls Scenario.second_deploy)
               = true) by (vm_compute; reflexivity).
  assert (H3 : count is_update_function_configuration
                 (calls Scenario.second_deploy) = 2)
    by (vm_compute; reflexivity).
  split; [exact H1|]. split; [exact H2|]. split; [exact H3|].
  intros H.
  pose proof (H 5 "img:v2" "f" "data" None 128%Z 30%Z None None None false
                Scenario.deployed
                {| function_arn := Scenario.function_arn;
                   role_arn := Scenario.role_arn |}) as H'.
  cbv zeta in H'. specialize (H' H1 H2). destruct H' as (_ & H4 & _).
  rewrite H3 in H4. discriminate H4.
Qed.

Lemma redeploy_call_counts_witness :
  (outcome Scenario.second_deploy
     = Return {| function_arn := Scenario.function_arn;
                 role_arn := Scenario.role_arn |} /\
   existsb (is_function_found "f") (calls Scenario.second_deploy) = true) /\
  count is_update_function_code (calls Scenario.second_deploy) = 1 /\
  count is_update_function_configuration (calls Scenario.second_deploy) = 2 /\
  count is_create_function (calls Scenario.second_deploy) = 0.
Proof.
  assert (H1 : outcome Scenario.second_deploy
               = Return {| function_arn := Scenario.function_arn;
                           role_arn := Scenario.role_arn |})
    by (vm_compute; reflexivity).
  assert (H2 : existsb (is_function_found "f") (calls Scenario.second_deploy)
               = true) by (vm_compute; reflexivity).
  split; [split; assumption|].
  pose proof (redeploy_call_counts Sim.provider 5 "img:v2" "f" "data" None
                128%Z 30%Z None None None false Scenario.deployed
                {| function_arn := Scenario.function_arn;
                   role_arn := Scenario.role_arn |}) as H.
  cbv zeta in H. exact (proj2 (H H1 H2)).
Defined.

Lemma deploy_missing_parameter_witness :
  (truthy_opt_str (Some "vpc-1") = true /\
   truthy_opt_list (Some (@nil string)) = false) /\
  exists e,
    LambdaDeployer.deploy Sim.provider 5 "img:v1" "f" "data" None 128 30
      (Some "vpc-1") (Some []) None false Sim.fresh
    = MkRun (Raise e) Sim.fresh [] /\
    MissingParameter e = true /\
    ("img:v1" <> "" -> "f" <> "" -> "data" <> "" ->
     e = ValueError
           "Subnet IDs must be provided when using VPC configuration" []).
Proof.
  split; [split; reflexivity|].
  apply (deploy_missing_parameter Sim.provider 5 "img:v1" "f" "data" None
           128%Z 30%Z (Some "vpc-1") (Some []) None false Sim.fresh).
  right. right. right. split; reflexivity.
Defined.




Lemma existence_checks_on_faults_witness :
  outcome (IAMRoleManager._role_exists Sim.provider "lambda-f-role" Sim.fresh)
    = Return false /\
  outcome (LambdaFunctionDeployer._function_exists Sim.provider "f" Sim.fresh)
    = Return false /\
  outcome (S3AccessManager._bucket_exists Sim.provider "locked" Sim.fresh)
    = Return false.
Proof.
  destruct (existence_checks_on_faults Sim.provider) as (Hrole & Hfun & Hbucket).
  split; [|split].
  - exact (Hrole "lambda-f-role" Sim.fresh "NoSuchEntity" Sim.fresh eq_refl).
  - exact (Hfun "f" Sim.fresh "ResourceNotFoundException" Sim.fresh eq_refl).
  - exact (Hbucket "locked" Sim.fresh "403" Sim.fresh eq_refl).
Defined.

Lemma configure_s3_access_bucket_unavailable_witness :
  Sim.provider unit (head_bucket "locked") Scenario.deployed
    = (Fault (ClientError "403"), Scenario.deployed) /\
  S3AccessManager.configure_s3_access Sim.provider "f" "locked"
    Scenario.deployed
  = MkRun
      (Raise (ValueError
                "S3 bucket {s3_bucket} does not exist or is not accessible"
                [FStr "locked"]))
      Scenario.deployed
      [Called (head_bucket "locked") (Fault (ClientError "403"))] /\
  count is_update_function_configuration
    (calls (S3AccessManager.configure_s3_access Sim.provider "f" "locked"
              Scenario.deployed)) = 0.
Proof.
  assert (H : Sim.provider unit (head_bucket "locked") Scenario.deployed
              = (Fault (ClientError "403"), Scenario.deployed))
    by (vm_compute; reflexivity).
  split; [exact H|].
  exact (configure_s3_access_bucket_unavailable Sim.provider "f" "locked"
           Scenario.deployed "403" Scenario.deployed H
           (or_intror eq_refl)).
Defined.


Lemma configure_s3_access_merges_environment_witness :
  (Sim.provider unit (head_bucket "data") Scenario.tuned
     = (Ok tt, Scenario.tuned) /\
   Sim.provider _ (get_function_configuration "f") Scenario.tuned
     = (Ok {| Environment := Some (Some {[ "LOG_LEVEL" := "debug" ]}) |},
        Scenario.tuned)) /\
  exists after reply rest,
    calls (S3AccessManager.configure_s3_access Sim.provider "f" "data"
             Scenario.tuned) =
      [ Called (head_bucket "data") (Ok tt);
        Called (get_function_configuration "f")
          (Ok {| Environment := Some (Some {[ "LOG_LEVEL" := "debug" ]}) |});
        Called (update_function_configuration (environment_update "f" after))
          reply ]
      ++ rest /\
    count is_update_function_configuration
      (calls (S3AccessManager.configure_s3_access Sim.provider "f" "data"
                Scenario.tuned)) = 1 /\
    after !! "S3_BUCKET" = Some "data" /\
    after = <["S3_BUCKET" := "data"]> {[ "LOG_LEVEL" := "debug" ]} /\
    after !! "LOG_LEVEL" = Some "debug".
Proof.
  assert (H1 : Sim.provider unit (head_bucket "data") Scenario.tuned
               = (Ok tt, Scenario.tuned)) by (vm_compute; reflexivity).
  assert (H2 : Sim.provider _ (get_function_configuration "f") Scenario.tuned
               = (Ok {| Environment :=
                          Some (Some {[ "LOG_LEVEL" := "debug" ]}) |},
                  Scenario.tuned)) by (vm_compute; reflexivity).
  split; [split; [exact H1|exact H2]|].
  destruct (configure_s3_access_merges_environment Sim.provider "f" "data"
              Scenario.tuned Scenario.tuned _ Scenario.tuned H1 H2)
    as (after & reply & rest & Hcalls & Hcount & Hbucket & Hmerge & _).
  exists after, reply, rest.
  destruct (Hmerge _ eq_refl) as (Hafter & Hkept).
  split; [exact Hcalls|]. split; [exact Hcount|]. split; [exact Hbucket|].
  split; [exact Hafter|].
  rewrite (Hkept "LOG_LEVEL"); [reflexivity|discriminate].
Defined.

(** * Further properties *)

(** ** The VPC configurator: validation *)

Section VPCValidation.
Context {W : Type} (aws : Collaborator W).
Import VPCConfigurator.

Lemma MkRun_inj {A} (o o' : Outcome A) (w w' : W) (l l' : list Event) :
  MkRun o w l = MkRun o' w' l' -> o = o' /\ w = w' /\ l = l'.
Proof. intros H. injection H as -> -> ->. auto. Qed.

Lemma opt_is_true o s : opt_is o s = true <-> o = Some s.
Proof.
  unfold opt_is. destruct o as [v|].
  - rewrite String.eqb_eq. split; congruence.
  - split; discriminate.
Qed.

Lemma subnets_belong_ok vpc_id subnets :
  subnets_belong vpc_id subnets = true
  <-> Forall (subnet_ok vpc_id) subnets.
Proof.
  induction subnets as [|s rest IH]; cbn.
  - split; [constructor|reflexivity].
  - destruct (opt_is (Subnet_VpcId s) vpc_id) eqn:Hv; cbn.
    + destruct (opt_is (Subnet_State s) "available") eqn:Hs; cbn.
      * rewrite IH. apply opt_is_true in Hv, Hs. split.
        -- intros H. constructor; [split; assumption|assumption].
        -- intros H. inversion H; assumption.
      * split; [discriminate|]. intros H. inversion H as [|? ? [_ Hs'] _].
        apply opt_is_true in Hs'. congruence.
    + split; [discriminate|]. intros H. inversion H as [|? ? [Hv' _] _].
      apply opt_is_true in Hv'. congruence.
Qed.

Lemma security_groups_belong_ok vpc_id groups :
  security_groups_belong vpc_id groups = true
  <-> Forall (security_group_ok vpc_id) groups.
Proof.
  induction groups as [|g rest IH]; cbn.
  - split; [constructor|reflexivity].
  - destruct (opt_is (SecurityGroup_VpcId g) vpc_id) eqn:Hv; cbn.
    + rewrite IH. apply opt_is_true in Hv. split.
      * intros H. constructor; assumption.
      * intros H. inversion H; assumption.
    + split; [discriminate|]. intros H. inversion H as [|? ? Hv' _].
      apply opt_is_true in Hv'. congruence.
Qed.

(** X1.  The loops of [_validate_subnets] and [_validate_security_groups]
    decide exactly what they are meant to: the subnet loop passes if and
    only if every described subnet belongs to the VPC and is in state
    [available], the security group loop if and only if every described
    group belongs to the VPC. *)
Theorem validation_loops_decide vpc_id subnets groups :
  (subnets_belong vpc_id subnets = true
   <-> Forall (subnet_ok vpc_id) subnets) /\
  (security_groups_belong vpc_id groups = true
   <-> Forall (security_group_ok vpc_id) groups).
Proof.
  split.
  - apply subnets_belong_ok.
  - apply security_groups_belong_ok.
Qed.

(** What [_validate_vpc] makes of a reply. *)
Lemma validate_vpc_run vpc_id w reply w' :
  aws _ (describe_vpcs [vpc_id]) w = (reply, w') ->
  _validate_vpc aws vpc_id w =
    MkRun (match reply with
           | Ok (Some (vpc :: _)) =>
               Return (opt_is (Vpc_State vpc) "available")
           | Ok _ => Return false
           | Fault (ClientError code) =>
               if String.eqb code "InvalidVpcID.NotFound"
               then Return false else Raise (ClientError code)
           | Fault e => Raise e
           end) w' [Called (describe_vpcs [vpc_id]) reply].
Proof.
  intros E. unfold _validate_vpc, try_except, bind, call. rewrite E.
  destruct reply as [[[|vpc vpcs]|]|e]; cbn; try reflexivity.
  - destruct (opt_is (Vpc_State vpc) "available"); reflexivity.
  - destruct e; cbn; try reflexivity.
    destruct (String.eqb code "InvalidVpcID.NotFound"); reflexivity.
Qed.

Lemma validate_subnets_fault subnet_ids vpc_id w e w' :
  aws _ (describe_subnets subnet_ids) w = (Fault e, w') ->
  _validate_subnets aws subnet_ids vpc_id w =
    MkRun (match e with
           | ClientError code =>
               if String.eqb code "InvalidSubnetID.NotFound"
               then Return false else Raise e
           | _ => Raise e
           end) w' [Called (describe_subnets subnet_ids) (Fault e)].
Proof.
  intros E. unfold _validate_subnets, try_except, bind, call. rewrite E.
  cbn. destruct e; cbn; try reflexivity.
  destruct (String.eqb code "InvalidSubnetID.NotFound"); reflexivity.
Qed.

Lemma validate_security_groups_fault ids vpc_id w e w' :
  aws _ (describe_security_groups ids) w = (Fault e, w') ->
  _validate_security_groups aws ids vpc_id w =
    MkRun (match e with
           | ClientError code =>
               if String.eqb code "InvalidGroup.NotFound"
               then Return false else Raise e
           | _ => Raise e
           end) w' [Called (describe_security_groups ids) (Fault e)].
Proof.
  intros E. unfold _validate_security_groups, try_except, bind, call.
  rewrite E. cbn. destruct e; cbn; try reflexivity.
  destruct (String.eqb code "InvalidGroup.NotFound"); reflexivity.
Qed.

Lemma validate_vpc_true vpc_id w w' l :
  _validate_vpc aws vpc_id w = MkRun (Return true) w' l ->
  exists vpc vpcs,
    l = [Called (describe_vpcs [vpc_id]) (Ok (Some (vpc :: vpcs)))] /\
    Vpc_State vpc = Some "available".
Proof.
  intros H.
  destruct (aws _ (describe_vpcs [vpc_id]) w) as [reply w0] eqn:E.
  rewrite (validate_vpc_run _ _ _ _ E) in H.
  apply MkRun_inj in H. destruct H as (Ho & _ & <-).
  destruct reply as [[[|vpc vpcs]|]|e]; try discriminate Ho.
  - injection Ho as Ho. exists vpc, vpcs. split; [reflexivity|].
    apply opt_is_true. exact Ho.
  - destruct e; try discriminate Ho.
    destruct (String.eqb code "InvalidVpcID.NotFound"); discriminate Ho.
Qed.

Lemma Nat_eqb_negb_false n m : negb (n =? m)%nat = false -> n = m.
Proof.
  intros H. apply negb_false_iff in H. apply Nat.eqb_eq. exact H.
Qed.

Lemma validate_subnets_true subnet_ids vpc_id w w' l :
  _validate_subnets aws subnet_ids vpc_id w = MkRun (Return true) w' l ->
  exists subnets,
    l = [Called (describe_subnets subnet_ids) (Ok (Some subnets))] /\
    length subnets = length subnet_ids /\
    Forall (subnet_ok vpc_id) subnets.
Proof.
  intros H.
  destruct (aws _ (describe_subnets subnet_ids) w) as [[response|e] w0] eqn:E.
  - rewrite (validate_subnets_run _ _ _ _ _ _ E) in H.
    unfold subnets_verdict in H.
    destruct (negb (length (the_list response) =? length subnet_ids)%nat)
      eqn:Hlen; [discriminate H|].
    apply Nat_eqb_negb_false in Hlen.
    destruct response as [subnets|]; [|discriminate H].
    apply MkRun_inj in H. destruct H as (Ho & _ & <-).
    injection Ho as Ho. exists subnets. split; [reflexivity|].
    split; [exact Hlen|].
    apply subnets_belong_ok. exact Ho.
  - rewrite (validate_subnets_fault _ _ _ _ _ E) in H.
    destruct e; try discriminate H.
    destruct (String.eqb code "InvalidSubnetID.NotFound"); discriminate H.
Qed.

Lemma validate_security_groups_true ids vpc_id w w' l :
  _validate_security_groups aws ids vpc_id w = MkRun (Return true) w' l ->
  exists groups,
    l = [Called (describe_security_groups ids) (Ok (Some groups))] /\
    length groups = length ids /\
    Forall (security_group_ok vpc_id) groups.
Proof.
  intros H.
  destruct (aws _ (describe_security_groups ids) w)
    as [[response|e] w0] eqn:E.
  - rewrite (validate_security_groups_run _ _ _ _ _ _ E) in H.
    unfold security_groups_verdict in H.
    destruct (negb (length (the_list response) =? length ids)%nat)
      eqn:Hlen; [discriminate H|].
    apply Nat_eqb_negb_false in Hlen.
    destruct response as [groups|]; [|discriminate H].
    apply MkRun_inj in H. destruct H as (Ho & _ & <-).
    injection Ho as Ho. exists groups. split; [reflexivity|].
    split; [exact Hlen|].
    apply security_groups_belong_ok. exact Ho.
  - rewrite (validate_security_groups_fault _ _ _ _ _ E) in H.
    destruct e; try discriminate H.
    destruct (String.eqb code "InvalidGroup.NotFound"); discriminate H.
Qed.

(** X2.  Whenever [create_vpc_config] returns a descriptor, the provider
    has vouched for it: the log starts with a [describe_vpcs] answer whose
    first VPC is [available] and a [describe_subnets] answer with as many
    subnets as were asked for, all of them in the VPC and available; the
    descriptor carries the input subnet list; and either no security groups
    were supplied (no further call, no [SecurityGroupIds] field) or the only
    further call is a [describe_security_groups] answered with as many
    groups as were asked for, all in the VPC, and the descriptor carries the
    supplied list. *)
Theorem create_vpc_config_sound
    vpc_id subnet_ids security_group_ids w vpc_config :
  let r := create_vpc_config aws vpc_id subnet_ids security_group_ids w in
  outcome r = Return vpc_config ->
  exists vpc vpcs subnets rest,
    calls r =
      Called (describe_vpcs [vpc_id]) (Ok (Some (vpc :: vpcs)))
      :: Called (describe_subnets subnet_ids) (Ok (Some subnets))
      :: rest /\
    Vpc_State vpc = Some "available" /\
    length subnets = length subnet_ids /\
    Forall (subnet_ok vpc_id) subnets /\
    SubnetIds vpc_config = subnet_ids /\
    ((truthy_opt_list security_group_ids = false /\ rest = [] /\
      SecurityGroupIds vpc_config = None) \/
     (exists groups,
        truthy_opt_list security_group_ids = true /\
        rest = [Called (describe_security_groups
                          (the_list security_group_ids))
                  (Ok (Some groups))] /\
        length groups = length (the_list security_group_ids) /\
        Forall (security_group_ok vpc_id) groups /\
        SecurityGroupIds vpc_config = security_group_ids)).
Proof.
  cbv zeta.
  destruct (create_vpc_config aws vpc_id subnet_ids security_group_ids w)
    as [o w' l] eqn:Hr; cbn [outcome calls].
  intros ->. unfold create_vpc_config in Hr.
  apply bind_returns in Hr.
  destruct Hr as (vpc_ok & w1 & l1 & l2 & Hvpc & Hr & ->).
  destruct vpc_ok; [|discriminate Hr]. cbn [negb] in Hr.
  apply validate_vpc_true in Hvpc. destruct Hvpc as (vpc & vpcs & -> & Hst).
  apply bind_returns in Hr.
  destruct Hr as (subnets_ok & w2 & l3 & l4 & Hsub & Hr & ->).
  destruct subnets_ok; [|discriminate Hr]. cbn [negb] in Hr.
  apply validate_subnets_true in Hsub.
  destruct Hsub as (subnets & -> & Hlen & Hall).
  apply bind_returns in Hr.
  destruct Hr as (bad & w3 & l5 & l6 & Hsg & Hr & ->).
  destruct bad; [discriminate Hr|].
  apply ret_returns in Hr. destruct Hr as (-> & _ & ->).
  exists vpc, vpcs, subnets, l5. cbn [SubnetIds SecurityGroupIds].
  split; [cbn; rewrite app_nil_r; reflexivity|].
  repeat (split; [assumption || reflexivity|]).
  destruct (truthy_opt_list security_group_ids) eqn:Ht.
  - right. apply bind_returns in Hsg.
    destruct Hsg as (ok & w4 & l7 & l8 & Hsg & Hret & ->).
    apply ret_returns in Hret. destruct Hret as (Hok & _ & ->).
    destruct ok; [|discriminate Hok].
    apply validate_security_groups_true in Hsg.
    destruct Hsg as (groups & -> & Hlen' & Hall').
    exists groups. repeat split; assumption || reflexivity.
  - left. apply ret_returns in Hsg. destruct Hsg as (_ & _ & ->).
    repeat split; reflexivity.
Qed.

Lemma create_vpc_config_describes vpc_id subnet_ids security_group_ids :
  calls_only (fun ev => is_describe ev = true)
    (create_vpc_config aws vpc_id subnet_ids security_group_ids).
Proof.
  unfold create_vpc_config, _validate_vpc, _validate_subnets,
    _validate_security_groups, not_found_is_false.
  repeat calls_only_step.
Qed.

Lemma calls_length_bind {A B} (m : M W A) (f : A -> M W B) n k w :
  length (calls (m w)) <= n ->
  (forall a w1, length (calls (f a w1)) <= k) ->
  length (calls (bind m f w)) <= n + k.
Proof.
  intros Hm Hf. unfold bind.
  destruct (m w) as [[a|e|] w1 l1]; cbn in *; try lia.
  rewrite length_app. specialize (Hf a w1). lia.
Qed.

Lemma one_call_validation {R} (op : Api R) (body : R -> M W bool) code w :
  (forall r w1, calls (body r w1) = []) ->
  length (calls (try_except (response <- call aws op ;; body response)
                   (not_found_is_false code) w)) <= 1.
Proof.
  intros Hbody. unfold try_except, bind, call.
  destruct (aws R op w) as [[r|e] w1]; cbn.
  - destruct (body r w1) as [[b|e'|] w2 l2] eqn:Eb; cbn;
      pose proof (Hbody r w1) as Hl; rewrite Eb in Hl; cbn in Hl;
      subst l2; cbn; try lia.
    rewrite not_found_is_false_run. cbn. lia.
  - rewrite not_found_is_false_run. cbn. lia.
Qed.

(** X3.  [create_vpc_config] is read-only and short: whatever the provider
    answers, every call it makes is one of [describe_vpcs],
    [describe_subnets], [describe_security_groups], and it makes at most
    three calls. *)
Theorem create_vpc_config_read_only
    vpc_id subnet_ids security_group_ids w :
  let r := create_vpc_config aws vpc_id subnet_ids security_group_ids w in
  Forall (fun ev => is_describe ev = true) (calls r) /\
  length (calls r) <= 3.
Proof.
  cbv zeta. split; [apply create_vpc_config_describes|].
  unfold create_vpc_config.
  apply (calls_length_bind _ _ 1 2).
  { apply one_call_validation. intros [[|vpc vpcs]|] w1; try reflexivity.
    destruct (negb (opt_is (Vpc_State vpc) "available")); reflexivity. }
  intros vpc_ok w1. destruct (negb vpc_ok); [cbn; lia|].
  apply (calls_length_bind _ _ 1 1).
  { apply one_call_validation. intros response w2.
    destruct (negb _); [reflexivity|].
    destruct response; reflexivity. }
  intros subnets_ok w2. destruct (negb subnets_ok); [cbn; lia|].
  apply (calls_length_bind _ _ 1 0).
  { destruct (truthy_opt_list security_group_ids); [|cbn; lia].
    apply (calls_length_bind _ _ 1 0); [|intros; cbn; lia].
    apply one_call_validation. intros response w3.
    destruct (negb _); [reflexivity|].
    destruct response; reflexivity. }
  intros bad w3. destruct bad; cbn; lia.
Qed.
End VPCValidation.

Section VPCRejections.
Context {W : Type} (aws : Collaborator W).
Import VPCConfigurator.

(** X4.  When the answer to [describe_vpcs] has no VPC, or a first VPC
    that is not [available], or is the fault [InvalidVpcID.NotFound],
    [create_vpc_config] raises [ValueError "Invalid VPC: ..."] after that
    single call; any other fault of [describe_vpcs] is raised unchanged
    after that single call. *)
Theorem create_vpc_config_invalid_vpc
    vpc_id subnet_ids security_group_ids w reply w' :
  aws _ (describe_vpcs [vpc_id]) w = (reply, w') ->
  (vpc_rejected reply ->
   create_vpc_config aws vpc_id subnet_ids security_group_ids w =
     MkRun (Raise (ValueError "Invalid VPC: {vpc_id}" [FStr vpc_id]))
           w' [Called (describe_vpcs [vpc_id]) reply]) /\
  (forall e,
     reply = Fault e -> e <> ClientError "InvalidVpcID.NotFound" ->
     create_vpc_config aws vpc_id subnet_ids security_group_ids w =
       MkRun (Raise e) w' [Called (describe_vpcs [vpc_id]) reply]).
Proof.
  intros E. split.
  - intros Hrej. unfold create_vpc_config.
    rewrite (bind_run_Return _ _ _ false w'
               [Called (describe_vpcs [vpc_id]) reply]); [reflexivity|].
    rewrite (validate_vpc_run aws _ _ _ _ E).
    destruct reply as [[[|vpc vpcs]|]|e]; cbn in Hrej; try reflexivity.
    + destruct (opt_is (Vpc_State vpc) "available") eqn:Hs; [|reflexivity].
      apply opt_is_true in Hs. contradiction.
    + destruct e; try contradiction. subst code. reflexivity.
  - intros e -> Hne. unfold create_vpc_config.
    apply bind_run_Raise.
    rewrite (validate_vpc_run aws _ _ _ _ E).
    destruct e; try reflexivity.
    destruct (String.eqb code "InvalidVpcID.NotFound") eqn:Hc;
      [|reflexivity].
    apply String.eqb_eq in Hc. congruence.
Qed.

(** X5.  With a valid VPC, [create_vpc_config] raises
    [ValueError "Invalid subnets: ..."] right after [describe_subnets] when
    the answer has another number of subnets than were asked for, or holds a
    subnet that is not [available], or is the fault
    [InvalidSubnetID.NotFound]; any other fault of [describe_subnets] is
    raised unchanged. *)
Theorem create_vpc_config_invalid_subnets
    vpc_id subnet_ids security_group_ids w w1 log1 reply w2 :
  _validate_vpc aws vpc_id w = MkRun (Return true) w1 log1 ->
  aws _ (describe_subnets subnet_ids) w1 = (reply, w2) ->
  let r := create_vpc_config aws vpc_id subnet_ids security_group_ids w in
  let invalid :=
    MkRun (Raise (ValueError "Invalid subnets: {subnet_ids}"
                    [FList subnet_ids]))
          w2 (log1 ++ [Called (describe_subnets subnet_ids) reply]) in
  (forall response,
     reply = Ok response ->
     length (the_list response) <> length subnet_ids -> r = invalid) /\
  (forall subnets subnet,
     reply = Ok (Some subnets) -> In subnet subnets ->
     Subnet_State subnet <> Some "available" -> r = invalid) /\
  (reply = Fault (ClientError "InvalidSubnetID.NotFound") -> r = invalid) /\
  (forall e,
     reply = Fault e -> e <> ClientError "InvalidSubnetID.NotFound" ->
     r = MkRun (Raise e) w2
           (log1 ++ [Called (describe_subnets subnet_ids) reply])).
Proof.
  intros Hvpc E. cbv zeta.
  assert (Hfalse :
    _validate_subnets aws subnet_ids vpc_id w1
    = MkRun (Return false) w2 [Called (describe_subnets subnet_ids) reply] ->
    create_vpc_config aws vpc_id subnet_ids security_group_ids w =
      MkRun (Raise (ValueError "Invalid subnets: {subnet_ids}"
                      [FList subnet_ids]))
            w2 (log1 ++ [Called (describe_subnets subnet_ids) reply])).
  { intros Hsub. unfold create_vpc_config.
    rewrite (bind_run_Return _ _ _ _ _ _ Hvpc). cbn [negb].
    rewrite (bind_run_Return _ _ _ _ _ _ Hsub). reflexivity. }
  repeat split.
  - intros response -> Hlen. apply Hfalse.
    rewrite (validate_subnets_run aws _ _ _ _ _ E). unfold subnets_verdict.
    apply Nat.eqb_neq in Hlen. rewrite Hlen. reflexivity.
  - intros subnets subnet -> Hin Hst. apply Hfalse.
    rewrite (validate_subnets_run aws _ _ _ _ _ E). unfold subnets_verdict.
    destruct (negb _); [reflexivity|].
    destruct (subnets_belong vpc_id subnets) eqn:Hb; [|reflexivity].
    apply subnets_belong_ok in Hb.
    rewrite List.Forall_forall in Hb. destruct (Hb subnet Hin) as [_ Hs].
    contradiction.
  - intros ->. apply Hfalse.
    rewrite (validate_subnets_fault aws _ _ _ _ _ E). reflexivity.
  - intros e -> Hne. unfold create_vpc_config.
    rewrite (bind_run_Return _ _ _ _ _ _ Hvpc). cbn [negb].
    rewrite (bind_run_Raise _ _ _ e w2
               [Called (describe_subnets subnet_ids) (Fault e)]);
      [reflexivity|].
    rewrite (validate_subnets_fault aws _ _ _ _ _ E).
    destruct e; try reflexivity.
    destruct (String.eqb code "InvalidSubnetID.NotFound") eqn:Hc;
      [|reflexivity].
    apply String.eqb_eq in Hc. congruence.
Qed.

(** X6.  A response without its list key.  With a valid VPC and an empty
    list of subnet IDs, a [describe_subnets] response without [Subnets]
    passes the length check (0 = 0) and the loop then raises
    [KeyError "Subnets"], which escapes [create_vpc_config].  The security
    group check cannot fail that way: it is only run for a non-empty list,
    for which a response without [SecurityGroups] fails the length check
    and gives [ValueError "Invalid security groups: ..."]. *)
Theorem create_vpc_config_missing_list_key
    vpc_id security_group_ids w w1 log1 :
  _validate_vpc aws vpc_id w = MkRun (Return true) w1 log1 ->
  (forall w2,
     aws _ (describe_subnets []) w1 = (Ok None, w2) ->
     create_vpc_config aws vpc_id [] security_group_ids w =
       MkRun (Raise (KeyError "Subnets")) w2
             (log1 ++ [Called (describe_subnets []) (Ok None)])) /\
  (forall subnet_ids w2 log2 ids w3,
     _validate_subnets aws subnet_ids vpc_id w1
       = MkRun (Return true) w2 log2 ->
     security_group_ids = Some ids -> ids <> [] ->
     aws _ (describe_security_groups ids) w2 = (Ok None, w3) ->
     create_vpc_config aws vpc_id subnet_ids security_group_ids w =
       MkRun (Raise (ValueError
                       "Invalid security groups: {security_group_ids}"
                       [FList ids]))
             w3
             (log1 ++ log2 ++
              [Called (describe_security_groups ids) (Ok None)])).
Proof.
  intros Hvpc. split.
  - intros w2 E. unfold create_vpc_config.
    rewrite (bind_run_Return _ _ _ _ _ _ Hvpc). cbn [negb].
    rewrite (bind_run_Raise _ _ _ (KeyError "Subnets") w2
               [Called (describe_subnets []) (Ok None)]); [reflexivity|].
    rewrite (validate_subnets_run aws _ _ _ _ _ E). reflexivity.
  - intros subnet_ids w2 log2 ids w3 Hsub -> Hne E.
    unfold create_vpc_config.
    rewrite (bind_run_Return _ _ _ _ _ _ Hvpc). cbn [negb].
    rewrite (bind_run_Return _ _ _ _ _ _ Hsub). cbn [negb].
    destruct ids as [|i ids]; [congruence|].
    cbn [truthy_opt_list truthy_list the_list].
    rewrite (bind_run_Return _ _ _ true w3
               [Called (describe_security_groups (i :: ids)) (Ok None)]);
      [reflexivity|].
    rewrite (bind_run_Return _ _ _ false w3
               [Called (describe_security_groups (i :: ids)) (Ok None)]);
      [reflexivity|].
    rewrite (validate_security_groups_run aws _ _ _ _ _ E). reflexivity.
Qed.
End VPCRejections.

(** ** The function deployer *)

Section FunctionDeployerPaths.
Context {W : Type} (aws : Collaborator W).
Import LambdaFunctionDeployer.

(** X7.  The create path of [deploy_function].  When [get_function]
    answers [ResourceNotFoundException], the deployer sends one
    [create_function] with [PackageType = Image], the image, role, memory
    size, timeout and network attachment it was given, and no update call.
    If the creation succeeds and the [function_active] waiter returns, the
    run returns the ARN of the creation and the log is exactly probe,
    creation, wait; if the creation faults, the fault is raised right after
    it. *)
Theorem deploy_function_creates_when_absent
    function_name ecr_image_uri role_arn memory_size timeout vpc_config
    w w1 reply w2 :
  aws _ (get_function function_name) w
    = (Fault (ClientError "ResourceNotFoundException"), w1) ->
  aws _ (create_function
           (creation function_name ecr_image_uri role_arn memory_size
              timeout vpc_config)) w1 = (reply, w2) ->
  let r := deploy_function aws function_name ecr_image_uri role_arn
             memory_size timeout vpc_config w in
  count is_update_function_code (calls r) = 0 /\
  count is_update_function_configuration (calls r) = 0 /\
  count is_create_function (calls r) = 1 /\
  match reply with
  | Ok function_arn =>
      forall w3,
        aws _ (waiter_wait "function_active" function_name) w2
          = (Ok tt, w3) ->
        r = MkRun (Return function_arn) w3
              (create_path_calls function_name ecr_image_uri role_arn
                 memory_size timeout vpc_config function_arn)
  | Fault e =>
      r = MkRun (Raise e) w2
            [ Called (get_function function_name)
                (Fault (ClientError "ResourceNotFoundException"));
              Called (create_function
                        (creation function_name ecr_image_uri role_arn
                           memory_size timeout vpc_config)) (Fault e) ]
  end.
Proof.
  intros Eprobe Ecreate. cbv zeta.
  assert (Hrun :
    deploy_function aws function_name ecr_image_uri role_arn memory_size
      timeout vpc_config w
    = match reply with
      | Ok function_arn =>
          let '(wait, w3) :=
            aws _ (waiter_wait "function_active" function_name) w2 in
          MkRun (match wait with
                 | Ok _ => Return function_arn
                 | Fault e => Raise e
                 end) w3
            [ Called (get_function function_name)
                (Fault (ClientError "ResourceNotFoundException"));
              Called (create_function
                        (creation function_name ecr_image_uri role_arn
                           memory_size timeout vpc_config))
                (Ok function_arn);
              Called (waiter_wait "function_active" function_name) wait ]
      | Fault e =>
          MkRun (Raise e) w2
            [ Called (get_function function_name)
                (Fault (ClientError "ResourceNotFoundException"));
              Called (create_function
                        (creation function_name ecr_image_uri role_arn
                           memory_size timeout vpc_config)) (Fault e) ]
      end).
  { unfold deploy_function.
    rewrite (bind_run_Return _ _ _ _ _ _
               (function_exists_run aws _ _ _ _ Eprobe)).
    cbn [String.eqb Ascii.eqb Bool.eqb].
    unfold _create_function, creation in *.
    unfold bind, call. rewrite Ecreate.
    destruct reply as [function_arn|e]; cbn; [|reflexivity].
    destruct (aws unit (waiter_wait "function_active" function_name) w2)
      as [[[]|e] w3]; reflexivity. }
  rewrite Hrun. destruct reply as [function_arn|e].
  - destruct (aws unit (waiter_wait "function_active" function_name) w2)
      as [wait w3] eqn:Ewait.
    repeat split; try reflexivity.
    intros w3' Hw. injection Hw as -> ->. reflexivity.
  - repeat split; reflexivity.
Qed.

(** X8.  The update path of [deploy_function] is not atomic.  When the
    function exists, the code update and its wait have succeeded, and the
    configuration update then faults, the fault is raised with the code
    update already made; when the configuration update succeeds and its
    wait returns, the run returns the ARN of the configuration update and
    the log is exactly probe, code update, wait, configuration update,
    wait. *)
Theorem deploy_function_update_window
    function_name ecr_image_uri role_arn memory_size timeout vpc_config
    w w1 code_arn w2 w3 reply w4 :
  aws _ (get_function function_name) w = (Ok tt, w1) ->
  aws _ (update_function_code function_name ecr_image_uri) w1
    = (Ok code_arn, w2) ->
  aws _ (waiter_wait "function_updated" function_name) w2 = (Ok tt, w3) ->
  aws _ (update_function_configuration
           (configuration_update function_name role_arn memory_size
              timeout vpc_config)) w3 = (reply, w4) ->
  let r := deploy_function aws function_name ecr_image_uri role_arn
             memory_size timeout vpc_config w in
  match reply with
  | Ok function_arn =>
      forall w5,
        aws _ (waiter_wait "function_updated" function_name) w4
          = (Ok tt, w5) ->
        r = MkRun (Return function_arn) w5
              (update_path_calls function_name ecr_image_uri role_arn
                 memory_size timeout vpc_config code_arn function_arn)
  | Fault e =>
      r = MkRun (Raise e) w4
            [ Called (get_function function_name) (Ok tt);
              Called (update_function_code function_name ecr_image_uri)
                (Ok code_arn);
              Called (waiter_wait "function_updated" function_name) (Ok tt);
              Called (update_function_configuration
                        (configuration_update function_name role_arn
                           memory_size timeout vpc_config)) (Fault e) ]
  end.
Proof.
  intros Eprobe Ecode Ewait Econf. cbv zeta.
  assert (Hcode :
    _update_function_code aws function_name ecr_image_uri w1
    = MkRun (Return code_arn) w3
        [ Called (update_function_code function_name ecr_image_uri)
            (Ok code_arn);
          Called (waiter_wait "function_updated" function_name) (Ok tt) ]).
  { unfold _update_function_code, bind, call.
    rewrite Ecode. cbn. rewrite Ewait. reflexivity. }
  unfold deploy_function.
  rewrite (bind_run_Return _ _ _ _ _ _
             (function_exists_run aws _ _ _ _ Eprobe)).
  rewrite (bind_run_Return _ _ _ _ _ _ Hcode).
  unfold _update_function_configuration, configuration_update in *.
  unfold bind, call. rewrite Econf.
  destruct reply as [function_arn|e]; cbn; [|reflexivity].
  intros w5 Ew. rewrite Ew. reflexivity.
Qed.
End FunctionDeployerPaths.

(** ** The role manager: creation and reuse *)

Section RoleCreation.
Context {W : Type} (aws : Collaborator W).
Import IAMRoleManager.

Lemma calls_bind_prefix {A B} (m : M W A) (f : A -> M W B) w :
  exists rest, calls (bind m f w) = calls (m w) ++ rest.
Proof.
  unfold bind. destruct (outcome (m w)); cbn [calls].
  - eexists. reflexivity.
  - exists []. rewrite app_nil_r. reflexivity.
  - exists []. rewrite app_nil_r. reflexivity.
Qed.

Lemma create_or_update_role_first_call fuel role_name s3_bucket
    force_recreate w :
  exists reply rest,
    calls (IAMRoleManager.create_or_update_role aws fuel role_name
             s3_bucket force_recreate w)
    = Called (get_role role_name) reply :: rest.
Proof.
  unfold IAMRoleManager.create_or_update_role.
  match goal with
  | |- context [calls (bind ?m ?f w)] =>
      destruct (calls_bind_prefix m f w) as (rest & ->)
  end.
  destruct (aws _ (get_role role_name) w) as [reply v] eqn:E.
  rewrite (role_exists_run aws _ _ _ _ E). cbn [calls app].
  eauto.
Qed.

(** X9.  When the role does not exist ([get_role] answers
    [NoSuchEntity]), [force_recreate] makes no difference: both settings
    give the same run; no [delete_role] is sent; and a run that returns
    starts with the failed probe followed by the [create_role] call whose
    answer is the ARN returned. *)
Theorem create_or_update_role_absent_role
    fuel role_name s3_bucket w w1 :
  aws _ (get_role role_name) w
    = (Fault (ClientError "NoSuchEntity"), w1) ->
  create_or_update_role aws fuel role_name s3_bucket true w
    = create_or_update_role aws fuel role_name s3_bucket false w /\
  forall force_recreate,
    let r := create_or_update_role aws fuel role_name s3_bucket
               force_recreate w in
    count is_delete_role (calls r) = 0 /\
    forall arn,
      outcome r = Return arn ->
      exists rest,
        calls r =
          Called (get_role role_name) (Fault (ClientError "NoSuchEntity"))
          :: Called (create_role_call role_name) (Ok arn)
          :: rest.
Proof.
  intros E.
  assert (Hrun : forall force_recreate,
    create_or_update_role aws fuel role_name s3_bucket force_recreate w
    = let rest :=
        (role_arn <- _create_role aws role_name ;;
         s3_policy_arn <-
           _create_s3_access_policy aws fuel role_name s3_bucket ;;
         call aws (attach_role_policy role_name s3_policy_arn) ;;
         ret role_arn) w1 in
      MkRun (outcome rest) (world rest)
        (Called (get_role role_name) (Fault (ClientError "NoSuchEntity"))
           :: calls rest)).
  { intros force. unfold create_or_update_role.
    rewrite (bind_run_Return _ _ _ _ _ _ (role_exists_run aws _ _ _ _ E)).
    cbn [String.eqb Ascii.eqb Bool.eqb andb].
    rewrite (bind_run_Return _ _ _ false w1 [] eq_refl).
    reflexivity. }
  split; [rewrite !Hrun; reflexivity|].
  intros force. cbv zeta. rewrite Hrun. cbv zeta. cbn [calls outcome].
  split.
  - rewrite count_cons. cbn [is_delete_role].
    apply (count_forall_false is_delete_role).
    assert (Hk : calls_only (fun ev => is_delete_role ev = false)
              (role_arn <- _create_role aws role_name ;;
               s3_policy_arn <-
                 _create_s3_access_policy aws fuel role_name s3_bucket ;;
               call aws (attach_role_policy role_name s3_policy_arn) ;;
               ret role_arn)).
    { unfold _create_role, _create_s3_access_policy, _get_account_id,
        _delete_policy, _detach_policy_from_all_entities, time_sleep.
      repeat calls_only_step. }
    apply Hk.
  - intros arn Hout.
    destruct ((role_arn <- _create_role aws role_name ;;
               s3_policy_arn <-
                 _create_s3_access_policy aws fuel role_name s3_bucket ;;
               call aws (attach_role_policy role_name s3_policy_arn) ;;
               ret role_arn) w1) as [o w2 l] eqn:Hrest.
    cbn [outcome calls] in *. subst o.
    apply bind_returns in Hrest.
    destruct Hrest as (arn1 & w3 & l1 & l2 & Hcreate & Hrest & ->).
    apply bind_returns in Hrest.
    destruct Hrest as (p & w4 & l3 & l4 & _ & Hrest & ->).
    apply bind_returns in Hrest.
    destruct Hrest as ([] & w5 & l5 & l6 & _ & Hrest & ->).
    apply ret_returns in Hrest. destruct Hrest as (<- & _ & _).
    unfold _create_role in Hcreate.
    apply bind_returns in Hcreate.
    destruct Hcreate as (arn2 & w6 & k1 & k2 & Hc & Hcreate & ->).
    apply call_returns in Hc. destruct Hc as (_ & ->).
    apply bind_returns in Hcreate.
    destruct Hcreate as ([] & w7 & k3 & k4 & _ & Hcreate & ->).
    apply bind_returns in Hcreate.
    destruct Hcreate as ([] & w8 & k5 & k6 & _ & Hcreate & ->).
    apply ret_returns in Hcreate. destruct Hcreate as (<- & _ & _).
    eexists. reflexivity.
Qed.

(** X10.  In [_create_role], after the role is created, a
    [create_policy] for the basic execution policy that is answered
    [EntityAlreadyExists] is not an error: the account ID is looked up, the
    existing policy, addressed by the ARN derived from account and name, is
    attached, and the role ARN is returned (a fault of the attachment is
    raised).  Any other fault of that [create_policy] is raised right after
    it. *)
Theorem create_role_basic_policy_conflict role_name w arn w1 e w2 :
  aws _ (create_role_call role_name) w = (Ok arn, w1) ->
  aws _ (create_basic_policy_call role_name) w1 = (Fault e, w2) ->
  (e = ClientError "EntityAlreadyExists" ->
   forall account w3 reply w4,
     aws _ get_caller_identity w2 = (Ok account, w3) ->
     aws _ (attach_role_policy role_name
              (policy_arn_of account
                 (basic_execution_policy_name role_name))) w3
       = (reply, w4) ->
     _create_role aws role_name w =
       MkRun (match reply with
              | Ok _ => Return arn
              | Fault e' => Raise e'
              end)
             w4
             [ Called (create_role_call role_name) (Ok arn);
               Called (create_basic_policy_call role_name) (Fault e);
               Called get_caller_identity (Ok account);
               Called (attach_role_policy role_name
                         (policy_arn_of account
                            (basic_execution_policy_name role_name)))
                 reply ]) /\
  (e <> ClientError "EntityAlreadyExists" ->
   _create_role aws role_name w =
     MkRun (Raise e) w2
           [ Called (create_role_call role_name) (Ok arn);
             Called (create_basic_policy_call role_name) (Fault e) ]).
Proof.
  intros Ecreate Epolicy.
  unfold create_role_call, create_basic_policy_call,
    basic_execution_policy_name in *.
  split.
  - intros -> account w3 reply w4 Ests Eattach.
    unfold _create_role, _get_account_id, time_sleep.
    unfold bind, try_except, call. rewrite Ecreate. cbn.
    rewrite Epolicy. cbn. rewrite Ests. cbn. rewrite Eattach.
    destruct reply as [[]|e']; reflexivity.
  - intros Hne.
    unfold _create_role, _get_account_id, time_sleep.
    unfold bind, try_except, call. rewrite Ecreate. cbn.
    rewrite Epolicy. cbn.
    destruct e; try reflexivity.
    destruct (String.eqb code "EntityAlreadyExists") eqn:Hc;
      [|reflexivity].
    apply String.eqb_eq in Hc. congruence.
Qed.

(** X12.  Without [force_recreate], [create_or_update_role] never sends
    [delete_role] and never sends [delete_role_policy], whatever the
    provider answers. *)
Theorem create_or_update_role_keeps_role fuel role_name s3_bucket w :
  let r := create_or_update_role aws fuel role_name s3_bucket false w in
  count is_delete_role (calls r) = 0 /\
  count is_delete_role_policy (calls r) = 0.
Proof.
  cbv zeta.
  assert (Hk : calls_only
            (fun ev => is_delete_role ev = false /\
                       is_delete_role_policy ev = false)
            (create_or_update_role aws fuel role_name s3_bucket false)).
  { unfold create_or_update_role.
    apply calls_only_bind.
    { unfold _role_exists. repeat calls_only_step. }
    intros role_exists. rewrite andb_false_r.
    unfold _create_role, _create_s3_access_policy, _get_account_id,
      _delete_policy, _detach_policy_from_all_entities, time_sleep.
    repeat calls_only_step. }
  specialize (Hk w).
  split; apply count_forall_false;
    refine (List.Forall_impl _ _ Hk); intros ev [H1 H2]; assumption.
Qed.
End RoleCreation.

(** ** Which clients the managers use *)

Section Clients.
Context {W : Type} (aws : Collaborator W).

Lemma create_vpc_config_client vpc_id subnet_ids security_group_ids :
  calls_only (fun ev => talks_to [EC2] ev = true)
    (VPCConfigurator.create_vpc_config aws vpc_id subnet_ids
       security_group_ids).
Proof.
  unfold VPCConfigurator.create_vpc_config,
    VPCConfigurator._validate_vpc, VPCConfigurator._validate_subnets,
    VPCConfigurator._validate_security_groups,
    VPCConfigurator.not_found_is_false.
  repeat calls_only_step.
Qed.

Lemma create_or_update_role_clients fuel role_name s3_bucket
    force_recreate :
  calls_only (fun ev => talks_to [IAM; STS] ev = true)
    (IAMRoleManager.create_or_update_role aws fuel role_name s3_bucket
       force_recreate).
Proof.
  unfold IAMRoleManager.create_or_update_role,
    IAMRoleManager._role_exists, IAMRoleManager._delete_role,
    IAMRoleManager._create_role,
    IAMRoleManager._detach_all_policies_from_role,
    IAMRoleManager._create_s3_access_policy,
    IAMRoleManager._delete_policy,
    IAMRoleManager._detach_policy_from_all_entities,
    IAMRoleManager._get_account_id, IAMRoleManager.time_sleep.
  repeat calls_only_step.
Qed.

Lemma deploy_function_client function_name ecr_image_uri role_arn
    memory_size timeout vpc_config :
  calls_only (fun ev => talks_to [LAMBDA] ev = true)
    (LambdaFunctionDeployer.deploy_function aws function_name
       ecr_image_uri role_arn memory_size timeout vpc_config).
Proof.
  unfold LambdaFunctionDeployer.deploy_function,
    LambdaFunctionDeployer._function_exists,
    LambdaFunctionDeployer._update_function_code,
    LambdaFunctionDeployer._update_function_configuration,
    LambdaFunctionDeployer._create_function.
  repeat calls_only_step.
Qed.

Lemma configure_s3_access_clients function_name s3_bucket :
  calls_only (fun ev => talks_to [S3; LAMBDA] ev = true)
    (S3AccessManager.configure_s3_access aws function_name s3_bucket).
Proof.
  unfold S3AccessManager.configure_s3_access,
    S3AccessManager._bucket_exists,
    S3AccessManager._update_lambda_environment.
  repeat calls_only_step.
Qed.

(** X13.  Each manager talks to its own clients only, whatever the
    provider answers: [create_vpc_config] to EC2; [create_or_update_role] to
    IAM and STS; [deploy_function] to Lambda; [configure_s3_access] to S3
    and Lambda. *)
Theorem managers_use_their_own_clients :
  (forall vpc_id subnet_ids security_group_ids,
     calls_only (fun ev => talks_to [EC2] ev = true)
       (VPCConfigurator.create_vpc_config aws vpc_id subnet_ids
          security_group_ids)) /\
  (forall fuel role_name s3_bucket force_recreate,
     calls_only (fun ev => talks_to [IAM; STS] ev = true)
       (IAMRoleManager.create_or_update_role aws fuel role_name s3_bucket
          force_recreate)) /\
  (forall function_name ecr_image_uri role_arn memory_size timeout
          vpc_config,
     calls_only (fun ev => talks_to [LAMBDA] ev = true)
       (LambdaFunctionDeployer.deploy_function aws function_name
          ecr_image_uri role_arn memory_size timeout vpc_config)) /\
  (forall function_name s3_bucket,
     calls_only (fun ev => talks_to [S3; LAMBDA] ev = true)
       (S3AccessManager.configure_s3_access aws function_name s3_bucket)).
Proof.
  split; [|split; [|split]]; intros.
  - apply create_vpc_config_client.
  - apply create_or_update_role_clients.
  - apply deploy_function_client.
  - apply configure_s3_access_clients.
Qed.
End Clients.

(** ** The role manager: pagination and teardown *)

Section Pages.
Context {W : Type} (aws : Collaborator W) {A : Type}
        (next_page : option string -> Api (Page A)) (body : A -> M W unit)
        (listed : Event -> list A) (done : A -> Event -> bool).
Hypothesis listed_page :
  forall marker page,
    listed (Called (next_page marker) (Ok page)) = the_list (Items page).
Hypothesis body_done :
  forall x w w' l,
    body x w = MkRun (Return tt) w' l ->
    existsb (done x) l = true /\ flat_map listed l = [].
Import IAMRoleManager.

Lemma for_each_done items w w' l :
  for_each body items w = MkRun (Return tt) w' l ->
  (forall x, In x items -> existsb (done x) l = true) /\
  flat_map listed l = [].
Proof.
  revert w l. induction items as [|x rest IH]; intros w l H; cbn in H.
  - apply ret_returns in H. destruct H as (_ & _ & ->).
    split; [contradiction|reflexivity].
  - apply bind_returns in H.
    destruct H as ([] & w1 & l1 & l2 & Hx & Hrest & ->).
    apply body_done in Hx. destruct Hx as (Hx & Hnone1).
    apply IH in Hrest. destruct Hrest as (Hall & Hnone2).
    split.
    + intros y [<-|Hin]; rewrite existsb_app.
      * rewrite Hx. reflexivity.
      * rewrite (Hall y Hin). apply orb_true_r.
    + rewrite flat_map_app, Hnone1, Hnone2. reflexivity.
Qed.

Lemma all_listed_done_page marker page l1 l2 :
  (forall x, In x (the_list (Items page)) -> existsb (done x) l1 = true) ->
  flat_map listed l1 = [] ->
  all_listed_done listed done l2 ->
  all_listed_done listed done
    (Called (next_page marker) (Ok page) :: l1 ++ l2).
Proof.
  intros H1 Hnone H2 x Hin. cbn [flat_map] in Hin.
  rewrite listed_page, flat_map_app, Hnone in Hin. cbn [app] in Hin.
  cbn [existsb]. rewrite existsb_app.
  apply in_app_or in Hin. destruct Hin as [Hin|Hin].
  - rewrite (H1 x Hin). apply orb_true_r.
  - rewrite (H2 x Hin). rewrite !orb_true_r. reflexivity.
Qed.

Lemma while_truncated_done fuel response w w' l :
  while_truncated aws fuel next_page body response w
  = MkRun (Return tt) w' l ->
  all_listed_done listed done l.
Proof.
  revert response w l.
  induction fuel as [|fuel IH]; intros response w l H; cbn in H;
    destruct (default false (IsTruncated response));
    try discriminate H;
    try (apply ret_returns in H; destruct H as (_ & _ & ->);
         intros x []).
  apply bind_returns in H.
  destruct H as (marker & w1 & l1 & l2 & Hm & H & ->).
  destruct (Marker response); [|discriminate Hm].
  apply ret_returns in Hm. destruct Hm as (-> & -> & ->).
  apply bind_returns in H.
  destruct H as (page & w2 & l2' & l3 & Hp & H & ->).
  apply call_returns in Hp. destruct Hp as (_ & ->).
  apply bind_returns in H.
  destruct H as ([] & w3 & l4 & l5 & Hf & H & ->).
  apply for_each_done in Hf. destruct Hf as (Hall & Hnone).
  apply IH in H. cbn [app].
  apply all_listed_done_page; assumption.
Qed.

Lemma for_each_page_done fuel w w' l :
  for_each_page aws fuel next_page body w = MkRun (Return tt) w' l ->
  all_listed_done listed done l.
Proof.
  intros H. unfold for_each_page in H.
  apply bind_returns in H.
  destruct H as (page & w2 & k1 & k2 & Hp & H & ->).
  apply call_returns in Hp. destruct Hp as (_ & ->).
  apply bind_returns in H.
  destruct H as ([] & w3 & k3 & k4 & Hf & H & ->).
  apply for_each_done in Hf. destruct Hf as (Hall & Hnone).
  apply while_truncated_done in H. cbn [app].
  apply all_listed_done_page; assumption.
Qed.
End Pages.

Section Teardown.
Context {W : Type} (aws : Collaborator W).
Import IAMRoleManager.

Lemma all_listed_done_app {A} (listed : Event -> list A) done l1 l2 :
  all_listed_done listed done l1 -> all_listed_done listed done l2 ->
  all_listed_done listed done (l1 ++ l2).
Proof.
  intros H1 H2 x Hin. rewrite flat_map_app in Hin. rewrite existsb_app.
  apply in_app_or in Hin. destruct Hin as [Hin|Hin].
  - rewrite (H1 x Hin). reflexivity.
  - rewrite (H2 x Hin). apply orb_true_r.
Qed.

Lemma nothing_listed_done {A} (listed : Event -> list A) done l :
  Forall (fun ev => listed ev = []) l -> all_listed_done listed done l.
Proof.
  intros H x Hin. exfalso.
  induction H as [|ev l Hev Hl IH]; [contradiction|].
  cbn in Hin. rewrite Hev in Hin. auto.
Qed.

Lemma detach_all_policies_from_role_returns fuel role_name w w' l :
  _detach_all_policies_from_role aws fuel role_name w
  = MkRun (Return tt) w' l ->
  all_listed_done (listed_attached role_name) (is_detached role_name) l /\
  all_listed_done (listed_inline role_name) (is_inline_deleted role_name) l /\
  count is_delete_role l = 0 /\ count is_create_role l = 0.
Proof.
  intros H.
  assert (Hq : Forall (fun ev => is_delete_role ev = false /\
                                 is_create_role ev = false) l).
  { assert (Hk : calls_only
              (fun ev => is_delete_role ev = false /\
                         is_create_role ev = false)
              (_detach_all_policies_from_role aws fuel role_name)).
    { unfold _detach_all_policies_from_role. repeat calls_only_step. }
    specialize (Hk w). rewrite H in Hk. exact Hk. }
  change (bind (detach_attached aws fuel role_name)
            (fun _ => delete_inline aws fuel role_name) w
          = MkRun (Return tt) w' l) in H.
  apply bind_returns in H.
  destruct H as ([] & w1 & l1 & l2 & H1 & H2 & ->).
  assert (K1 : Forall (fun ev => listed_inline role_name ev = []) l1).
  { assert (Hk : calls_only (fun ev => listed_inline role_name ev = [])
              (detach_attached aws fuel role_name)).
    { unfold detach_attached. repeat calls_only_step. }
    specialize (Hk w). rewrite H1 in Hk. exact Hk. }
  assert (K2 : Forall (fun ev => listed_attached role_name ev = []) l2).
  { assert (Hk : calls_only (fun ev => listed_attached role_name ev = [])
              (delete_inline aws fuel role_name)).
    { unfold delete_inline. repeat calls_only_step. }
    specialize (Hk w1). rewrite H2 in Hk. exact Hk. }
  apply (for_each_page_done aws _ _ (listed_attached role_name)
           (is_detached role_name)) in H1.
  2:{ intros marker page. cbn. rewrite String.eqb_refl. reflexivity. }
  2:{ intros x v v' k Hb. apply call_returns in Hb.
      destruct Hb as (_ & ->). cbn. rewrite !String.eqb_refl.
      split; reflexivity. }
  apply (for_each_page_done aws _ _ (listed_inline role_name)
           (is_inline_deleted role_name)) in H2.
  2:{ intros marker page. cbn. rewrite String.eqb_refl. reflexivity. }
  2:{ intros x v v' k Hb. apply call_returns in Hb.
      destruct Hb as (_ & ->). cbn. rewrite !String.eqb_refl.
      split; reflexivity. }
  split; [|split].
  - apply all_listed_done_app; [exact H1|].
    apply nothing_listed_done. exact K2.
  - apply all_listed_done_app; [|exact H2].
    apply nothing_listed_done. exact K1.
  - split; apply count_forall_false;
      refine (List.Forall_impl _ _ Hq); intros ev [Ha Hb]; assumption.
Qed.

(** X11.  Forced recreation.  When the role exists and [force_recreate]
    is set, every run of [create_or_update_role] that returns has a log that
    starts with the probe, then a teardown, then a successful
    [delete_role], then the [create_role] whose answer is the ARN returned.
    In the teardown every managed policy that any page of
    [list_attached_role_policies] listed was detached from the role, every
    inline policy that any page of [list_role_policies] listed was deleted,
    and no role was deleted or created. *)
Theorem create_or_update_role_force_recreate
    fuel role_name s3_bucket w old_arn w1 arn :
  aws _ (get_role role_name) w = (Ok old_arn, w1) ->
  let r := create_or_update_role aws fuel role_name s3_bucket true w in
  outcome r = Return arn ->
  exists teardown rest,
    calls r =
      Called (get_role role_name) (Ok old_arn)
      :: teardown
      ++ Called (delete_role role_name) (Ok tt)
      :: Called (create_role_call role_name) (Ok arn)
      :: rest /\
    all_listed_done (listed_attached role_name) (is_detached role_name)
      teardown /\
    all_listed_done (listed_inline role_name)
      (is_inline_deleted role_name) teardown /\
    count is_delete_role teardown = 0 /\
    count is_create_role teardown = 0.
Proof.
  intros E. cbv zeta.
  destruct (create_or_update_role aws fuel role_name s3_bucket true w)
    as [o w' log] eqn:Hr; cbn [outcome calls].
  intros ->. unfold create_or_update_role in Hr.
  rewrite (bind_run_Return _ _ _ _ _ _ (role_exists_run aws _ _ _ _ E))
    in Hr.
  cbn [andb] in Hr.
  apply MkRun_inj in Hr. destruct Hr as (Ho & _ & <-).
  destruct (bind _ _ w1) as [o2 w2 l2] eqn:Hrest in Ho |- *.
  cbn [outcome calls] in *. subst o2.
  apply bind_returns in Hrest.
  destruct Hrest as (ex & w3 & l3 & l4 & Hdel & Hrest & ->).
  apply bind_returns in Hdel.
  destruct Hdel as ([] & w4 & l5 & l6 & Hdel & Hret & ->).
  apply ret_returns in Hret. destruct Hret as (-> & _ & ->).
  unfold _delete_role in Hdel.
  apply bind_returns in Hdel.
  destruct Hdel as ([] & w5 & l7 & l8 & Hdetach & Hdel & ->).
  apply call_returns in Hdel. destruct Hdel as (_ & ->).
  apply detach_all_policies_from_role_returns in Hdetach.
  destruct Hdetach as (Ha & Hi & Hd & Hc).
  cbn [negb] in Hrest.
  apply bind_returns in Hrest.
  destruct Hrest as (arn1 & w6 & k1 & k2 & Hcreate & Hrest & ->).
  apply bind_returns in Hrest.
  destruct Hrest as (p & w7 & k3 & k4 & _ & Hrest & ->).
  apply bind_returns in Hrest.
  destruct Hrest as ([] & w8 & k5 & k6 & _ & Hrest & ->).
  apply ret_returns in Hrest. destruct Hrest as (<- & _ & _).
  unfold _create_role in Hcreate.
  apply bind_returns in Hcreate.
  destruct Hcreate as (arn2 & w9 & j1 & j2 & Hc1 & Hcreate & ->).
  apply call_returns in Hc1. destruct Hc1 as (_ & ->).
  apply bind_returns in Hcreate.
  destruct Hcreate as ([] & w10 & j3 & j4 & _ & Hcreate & ->).
  apply bind_returns in Hcreate.
  destruct Hcreate as ([] & w11 & j5 & j6 & _ & Hcreate & ->).
  apply ret_returns in Hcreate. destruct Hcreate as (<- & _ & _).
  exists l7. eexists. split; [|repeat split; assumption].
  cbn [app]. rewrite !app_nil_r, <- !app_assoc. cbn [app]. reflexivity.
Qed.
End Teardown.

Section PolicyPagination.
Context {W : Type} (aws : Collaborator W).
Import IAMRoleManager.

Lemma for_each_detach_lists_nothing policy_arn roles :
  calls_only (fun ev => is_list_entities_for_policy ev = false /\
                        is_delete_policy ev = false)
    (for_each (detach_from aws policy_arn) roles).
Proof. unfold detach_from. repeat calls_only_step. Qed.

(** X14.  Pagination of [_detach_policy_from_all_entities].  When the
    first page of [list_entities_for_policy] is not truncated (or has no
    [IsTruncated]), the run is that listing followed by the detachments of
    its roles, and the listing is sent exactly once.  When the first page
    says it is truncated but carries no [Marker], the roles of the page are
    detached and then [KeyError "Marker"] is raised. *)
Theorem detach_policy_pagination fuel policy_arn w page w1 :
  aws _ (list_entities_for_policy policy_arn "Role" None) w
    = (Ok page, w1) ->
  let r := _detach_policy_from_all_entities aws fuel policy_arn w in
  let detaching :=
    for_each (detach_from aws policy_arn) (the_list (Items page)) w1 in
  (default false (IsTruncated page) = false ->
   r = MkRun (outcome detaching) (world detaching)
         (Called (list_entities_for_policy policy_arn "Role" None) (Ok page)
            :: calls detaching) /\
   count is_list_entities_for_policy (calls r) = 1) /\
  (IsTruncated page = Some true -> Marker page = None -> fuel <> 0 ->
   outcome detaching = Return tt ->
   r = MkRun (Raise (KeyError "Marker")) (world detaching)
         (Called (list_entities_for_policy policy_arn "Role" None) (Ok page)
            :: calls detaching)).
Proof.
  intros E. cbv zeta.
  assert (Hcall : call aws (list_entities_for_policy policy_arn "Role" None)
                    w
                  = MkRun (Return page) w1
                      [Called (list_entities_for_policy policy_arn "Role"
                                 None) (Ok page)])
    by (rewrite (call_run _ _ _ _ _ E); reflexivity).
  unfold _detach_policy_from_all_entities, for_each_page.
  rewrite (bind_run_Return _ _ _ _ _ _ Hcall).
  change (fun role => call aws (detach_role_policy role policy_arn))
    with (detach_from aws policy_arn).
  pose proof (for_each_detach_lists_nothing policy_arn
                (the_list (Items page)) w1) as Hk.
  destruct (for_each (detach_from aws policy_arn) (the_list (Items page)) w1)
    as [o w2 l] eqn:Hd.
  cbn [outcome world calls] in *.
  split.
  - intros Hlast.
    assert (Hrun :
      (for_each (detach_from aws policy_arn) (the_list (Items page)) ;;
       while_truncated aws fuel (list_entities_for_policy policy_arn "Role")
         (detach_from aws policy_arn) page) w1
      = MkRun o w2 l).
    { unfold bind at 1. rewrite Hd. cbn [outcome world calls].
      destruct o as [[]|e|]; try reflexivity.
      destruct fuel; cbn; rewrite Hlast; cbn; rewrite app_nil_r;
        reflexivity. }
    rewrite Hrun. cbn [outcome world calls app].
    split; [reflexivity|].
    rewrite count_cons. cbn [is_list_entities_for_policy].
    rewrite (count_forall_false is_list_entities_for_policy l);
      [reflexivity|].
    refine (List.Forall_impl _ _ Hk). intros ev [Ha Hb]; assumption.
  - intros Htrunc Hmarker Hfuel ->.
    destruct fuel as [|fuel]; [congruence|].
    assert (Hrun :
      (for_each (detach_from aws policy_arn) (the_list (Items page)) ;;
       while_truncated aws (S fuel)
         (list_entities_for_policy policy_arn "Role")
         (detach_from aws policy_arn) page) w1
      = MkRun (Raise (KeyError "Marker")) w2 l).
    { unfold bind at 1. rewrite Hd. cbn [outcome world calls].
      cbn. rewrite Htrunc. cbn. rewrite Hmarker. cbn.
      rewrite ?app_nil_r. reflexivity. }
    rewrite Hrun. reflexivity.
Qed.

Lemma detach_policy_from_all_entities_returns fuel policy_arn w w' l :
  _detach_policy_from_all_entities aws fuel policy_arn w
  = MkRun (Return tt) w' l ->
  all_listed_detached policy_arn l.
Proof.
  intros H.
  apply (for_each_page_done aws _ _ (listed_roles policy_arn)
           (fun role => is_detached role policy_arn)) in H.
  - exact H.
  - intros marker page. cbn. rewrite String.eqb_refl. reflexivity.
  - intros x v v' k Hb. apply call_returns in Hb.
    destruct Hb as (_ & ->). cbn. rewrite !String.eqb_refl.
    split; reflexivity.
Qed.

Lemma for_each_detach_answered policy_arn roles w w' l :
  for_each (detach_from aws policy_arn) roles w = MkRun (Return tt) w' l ->
  Forall (fun ev => is_answered ev = true) l.
Proof.
  revert w l. induction roles as [|role rest IH]; intros w l H; cbn in H.
  - apply ret_returns in H. destruct H as (_ & _ & ->). constructor.
  - apply bind_returns in H.
    destruct H as ([] & w1 & l1 & l2 & Hd & Hrest & ->).
    apply call_returns in Hd. destruct Hd as (_ & ->).
    constructor; [reflexivity|]. exact (IH _ _ Hrest).
Qed.

Lemma while_truncated_detach_answered fuel policy_arn response w w' l :
  while_truncated aws fuel (list_entities_for_policy policy_arn "Role")
    (detach_from aws policy_arn) response w = MkRun (Return tt) w' l ->
  Forall (fun ev => is_answered ev = true) l.
Proof.
  revert response w l.
  induction fuel as [|fuel IH]; intros response w l H; cbn in H;
    destruct (default false (IsTruncated response));
    try discriminate H;
    try (apply ret_returns in H; destruct H as (_ & _ & ->);
         constructor).
  apply bind_returns in H.
  destruct H as (marker & w1 & l1 & l2 & Hm & H & ->).
  destruct (Marker response); [|discriminate Hm].
  apply ret_returns in Hm. destruct Hm as (-> & -> & ->).
  apply bind_returns in H.
  destruct H as (page & w2 & l2' & l3 & Hp & H & ->).
  apply call_returns in Hp. destruct Hp as (_ & ->).
  apply bind_returns in H.
  destruct H as ([] & w3 & l4 & l5 & Hf & H & ->).
  cbn [app]. constructor; [reflexivity|].
  apply Forall_app. split.
  - exact (for_each_detach_answered _ _ _ _ _ Hf).
  - exact (IH _ _ _ H).
Qed.

Lemma detach_policy_from_all_entities_answered fuel policy_arn w w' l :
  _detach_policy_from_all_entities aws fuel policy_arn w
  = MkRun (Return tt) w' l ->
  Forall (fun ev => is_answered ev = true) l.
Proof.
  intros H. unfold _detach_policy_from_all_entities, for_each_page in H.
  change (fun role => call aws (detach_role_policy role policy_arn))
    with (detach_from aws policy_arn) in H.
  apply bind_returns in H.
  destruct H as (page & w2 & k1 & k2 & Hp & H & ->).
  apply call_returns in Hp. destruct Hp as (_ & ->).
  apply bind_returns in H.
  destruct H as ([] & w3 & k3 & k4 & Hf & H & ->).
  cbn [app]. constructor; [reflexivity|].
  apply Forall_app. split.
  - exact (for_each_detach_answered _ _ _ _ _ Hf).
  - exact (while_truncated_detach_answered _ _ _ _ _ _ H).
Qed.

(** X15.  [_delete_policy] sends no [delete_policy] during the
    detachment phase, and sends it, as its last call, only when that phase
    completed: then every call of the phase was answered without a fault
    and every role that any page of [list_entities_for_policy] listed was
    detached from the policy.  When the detachment phase fails (a fault, a
    truncated page without marker, too many pages), [_delete_policy] ends
    the same way with the calls of the phase only: no [delete_policy] is
    sent. *)
Theorem delete_policy_only_after_detaching fuel policy_arn w :
  let d := _detach_policy_from_all_entities aws fuel policy_arn w in
  let r := _delete_policy aws fuel policy_arn w in
  count is_delete_policy (calls d) = 0 /\
  match outcome d with
  | Return _ =>
      all_listed_detached policy_arn (calls d) /\
      Forall (fun ev => is_answered ev = true) (calls d) /\
      exists reply,
        calls r = calls d ++ [Called (delete_policy policy_arn) reply]
  | Raise e => r = MkRun (Raise e) (world d) (calls d)
  | OutOfFuel => r = MkRun OutOfFuel (world d) (calls d)
  end.
Proof.
  cbv zeta.
  assert (Hk : calls_only (fun ev => is_delete_policy ev = false)
            (_detach_policy_from_all_entities aws fuel policy_arn)).
  { unfold _detach_policy_from_all_entities. repeat calls_only_step. }
  specialize (Hk w). apply count_forall_false in Hk.
  split; [exact Hk|].
  unfold _delete_policy, bind.
  destruct (_detach_policy_from_all_entities aws fuel policy_arn w)
    as [[[]|e|] w1 l1] eqn:Hd; cbn [outcome world calls] in *;
    try reflexivity.
  split; [exact (detach_policy_from_all_entities_returns _ _ _ _ _ Hd)|].
  split; [exact (detach_policy_from_all_entities_answered _ _ _ _ _ Hd)|].
  unfold call.
  destruct (aws unit (delete_policy policy_arn) w1) as [reply w2].
  cbn [calls]. exists reply. reflexivity.
Qed.
End PolicyPagination.

(** ** The orchestrator *)

Section Orchestrator.
Context {W : Type} (aws : Collaborator W).
Import LambdaDeployer.

(** X16.  A failing network validation stops the deployment.  With the
    three required names present, [vpc_id] set and subnets supplied,
    whenever [create_vpc_config] raises, [deploy] raises the same
    exception with exactly the calls of [create_vpc_config]: calls to EC2
    only, nothing sent to IAM, STS, Lambda or S3. *)
Theorem deploy_stops_at_vpc_failure
    fuel ecr_image_uri function_name s3_bucket role_name memory_size timeout
    vpc_id subnet_ids security_group_ids force_recreate_role w e :
  ecr_image_uri <> "" -> function_name <> "" -> s3_bucket <> "" ->
  truthy_opt_str vpc_id = true -> truthy_opt_list subnet_ids = true ->
  let v := VPCConfigurator.create_vpc_config aws (default "" vpc_id)
             (the_list subnet_ids) security_group_ids w in
  outcome v = Raise e ->
  let r := deploy aws fuel ecr_image_uri function_name s3_bucket role_name
             memory_size timeout vpc_id subnet_ids security_group_ids
             force_recreate_role w in
  r = MkRun (Raise e) (world v) (calls v) /\
  Forall (fun ev => talks_to [EC2] ev = true) (calls r).
Proof.
  intros Hecr Hfn Hb Hvpc Hsub. cbv zeta. intros Hv.
  assert (Hr : deploy aws fuel ecr_image_uri function_name s3_bucket
                 role_name memory_size timeout vpc_id subnet_ids
                 security_group_ids force_recreate_role w
               = MkRun (Raise e)
                   (world (VPCConfigurator.create_vpc_config aws
                             (default "" vpc_id) (the_list subnet_ids)
                             security_group_ids w))
                   (calls (VPCConfigurator.create_vpc_config aws
                             (default "" vpc_id) (the_list subnet_ids)
                             security_group_ids w))).
  { unfold deploy.
    rewrite (truthy_str_nonempty _ Hecr), (truthy_str_nonempty _ Hfn),
      (truthy_str_nonempty _ Hb), Hvpc, Hsub.
    cbn [negb].
    destruct (VPCConfigurator.create_vpc_config aws (default "" vpc_id)
                (the_list subnet_ids) security_group_ids w)
      as [o w1 l1] eqn:Hc.
    cbn [outcome world calls] in *. subst o.
    apply bind_run_Raise. apply bind_run_Raise. exact Hc. }
  split; [exact Hr|]. rewrite Hr. cbn [calls].
  apply create_vpc_config_client.
Qed.

(** X17.  The default role name.  With the three required names present
    and no VPC, [deploy] behaves for a missing or empty [role_name] exactly
    as for [lambda-{function_name}-role], and otherwise as for the name
    given; and its first call is the [get_role] probe of that name. *)
Theorem deploy_default_role_name
    fuel ecr_image_uri function_name s3_bucket role_name memory_size timeout
    vpc_id subnet_ids security_group_ids force_recreate_role w :
  ecr_image_uri <> "" -> function_name <> "" -> s3_bucket <> "" ->
  truthy_opt_str vpc_id = false ->
  let deploy_as role_name :=
    deploy aws fuel ecr_image_uri function_name s3_bucket role_name
      memory_size timeout vpc_id subnet_ids security_group_ids
      force_recreate_role w in
  let name :=
    match role_name with
    | Some (String c s) => String c s
    | _ => "lambda-" +:+ function_name +:+ "-role"
    end in
  deploy_as role_name = deploy_as (Some name) /\
  exists reply rest,
    calls (deploy_as role_name) = Called (get_role name) reply :: rest.
Proof.
  intros Hecr Hfn Hb Hvpc. cbv zeta.
  split; [destruct role_name as [[|c s]|]; reflexivity|].
  unfold deploy.
  rewrite (truthy_str_nonempty _ Hecr), (truthy_str_nonempty _ Hfn),
    (truthy_str_nonempty _ Hb), Hvpc.
  cbn [negb].
  rewrite (bind_run_Return _ _ _ None w [] eq_refl). cbn [calls app].
  match goal with
  | |- context [calls (bind ?m ?f w)] =>
      destruct (calls_bind_prefix m f w) as (rest & ->)
  end.
  match goal with
  | |- context [IAMRoleManager.create_or_update_role aws fuel ?n _ _ w] =>
      destruct (create_or_update_role_first_call aws fuel n s3_bucket
                  force_recreate_role w) as (reply & rest' & ->);
      exists reply, (rest' ++ rest)
  end.
  destruct role_name as [[|c s]|]; reflexivity.
Qed.

(** X18.  The phases of a deployment.  The log of every [deploy] that
    returns splits into four consecutive parts: calls to EC2 (none when
    [vpc_id] is not set), then calls to IAM and STS, then calls to Lambda
    by the function deployer, then calls to S3 and Lambda by the storage
    access manager; the last three are not empty. *)
Theorem deploy_phases_in_order
    fuel ecr_image_uri function_name s3_bucket role_name memory_size timeout
    vpc_id subnet_ids security_group_ids force_recreate_role w result :
  let r := deploy aws fuel ecr_image_uri function_name s3_bucket role_name
             memory_size timeout vpc_id subnet_ids security_group_ids
             force_recreate_role w in
  outcome r = Return result ->
  exists networking identity function storage,
    calls r = networking ++ identity ++ function ++ storage /\
    Forall (fun ev => talks_to [EC2] ev = true) networking /\
    Forall (fun ev => talks_to [IAM; STS] ev = true) identity /\
    Forall (fun ev => talks_to [LAMBDA] ev = true) function /\
    Forall (fun ev => talks_to [S3; LAMBDA] ev = true) storage /\
    (truthy_opt_str vpc_id = false -> networking = []) /\
    identity <> [] /\ function <> [] /\ storage <> [].
Proof.
  cbv zeta.
  destruct (deploy aws fuel ecr_image_uri function_name s3_bucket role_name
              memory_size timeout vpc_id subnet_ids security_group_ids
              force_recreate_role w) as [o w' log] eqn:Hr.
  cbn [outcome calls]. intros ->. unfold deploy in Hr.
  destruct (negb (truthy_str ecr_image_uri)); [discriminate Hr|].
  destruct (negb (truthy_str function_name)); [discriminate Hr|].
  destruct (negb (truthy_str s3_bucket)); [discriminate Hr|].
  apply bind_returns in Hr.
  destruct Hr as (vpc_config & w1 & l1 & k1 & Hvpc & Hr & ->).
  apply bind_returns in Hr.
  destruct Hr as (role_arn & w2 & l2 & k2 & Hrole & Hr & ->).
  apply bind_returns in Hr.
  destruct Hr as (function_arn & w3 & l3 & k3 & Hfun & Hr & ->).
  apply bind_returns in Hr.
  destruct Hr as (configured & w4 & l4 & k4 & Hs3 & Hr & ->).
  apply ret_returns in Hr. destruct Hr as (_ & _ & ->).
  exists l1, l2, l3, l4. rewrite app_nil_r.
  split; [reflexivity|].
  assert (Hnet : Forall (fun ev => talks_to [EC2] ev = true) l1 /\
                 (truthy_opt_str vpc_id = false -> l1 = [])).
  { destruct (truthy_opt_str vpc_id).
    - destruct (negb (truthy_opt_list subnet_ids)); [discriminate Hvpc|].
      apply bind_returns in Hvpc.
      destruct Hvpc as (cfg & w5 & l5 & k5 & Hc & Hret & ->).
      apply ret_returns in Hret. destruct Hret as (_ & _ & ->).
      rewrite app_nil_r. split; [|discriminate].
      pose proof (create_vpc_config_client aws (default "" vpc_id)
                    (the_list subnet_ids) security_group_ids w) as Hk.
      rewrite Hc in Hk. exact Hk.
    - apply ret_returns in Hvpc. destruct Hvpc as (_ & _ & ->).
      split; [constructor|reflexivity]. }
  destruct Hnet as (Hnet & Hnone).
  split; [exact Hnet|]. split.
  { match type of Hrole with
    | IAMRoleManager.create_or_update_role _ _ ?name _ _ _ = _ =>
        pose proof (create_or_update_role_clients aws fuel name s3_bucket
                      force_recreate_role w1) as Hk
    end.
    rewrite Hrole in Hk. exact Hk. }
  split.
  { pose proof (deploy_function_client aws function_name ecr_image_uri
                  role_arn memory_size timeout vpc_config w2) as Hk.
    rewrite Hfun in Hk. exact Hk. }
  split.
  { pose proof (configure_s3_access_clients aws function_name s3_bucket w3)
      as Hk.
    rewrite Hs3 in Hk. exact Hk. }
  split; [exact Hnone|].
  split; [|split].
  - unfold IAMRoleManager.create_or_update_role in Hrole.
    apply bind_returns in Hrole.
    destruct Hrole as (ex & w5 & l5 & k5 & Hex & _ & ->).
    match type of Hex with
    | IAMRoleManager._role_exists _ ?name _ = _ =>
        destruct (aws _ (get_role name) w1) as [reply v] eqn:E
    end.
    rewrite (role_exists_run aws _ _ _ _ E) in Hex.
    apply MkRun_inj in Hex. destruct Hex as (_ & _ & <-). discriminate.
  - unfold LambdaFunctionDeployer.deploy_function in Hfun.
    apply bind_returns in Hfun.
    destruct Hfun as (ex & w5 & l5 & k5 & Hex & _ & ->).
    destruct (aws _ (get_function function_name) w2) as [reply v] eqn:E.
    rewrite (function_exists_run aws _ _ _ _ E) in Hex.
    apply MkRun_inj in Hex. destruct Hex as (_ & _ & <-). discriminate.
  - unfold S3AccessManager.configure_s3_access in Hs3.
    apply bind_returns in Hs3.
    destruct Hs3 as (ex & w5 & l5 & k5 & Hex & _ & ->).
    destruct (aws _ (head_bucket s3_bucket) w3) as [reply v] eqn:E.
    rewrite (bucket_exists_run aws _ _ _ _ E) in Hex.
    apply MkRun_inj in Hex. destruct Hex as (_ & _ & <-). discriminate.
Qed.
End Orchestrator.

(** ** The entry points *)

Section SplitOn.
Variable sep : Ascii.ascii.

Lemma split_on_cons s : exists first others, split_on sep s = first :: others.
Proof.
  induction s as [|c rest IH]; cbn.
  - eauto.
  - destruct (Ascii.eqb c sep); [eauto|].
    destruct IH as (first & others & ->). eauto.
Qed.

Lemma concat_cons (glue x y : string) ys :
  String.concat glue (x :: y :: ys)
  = (x ++ glue ++ String.concat glue (y :: ys))%string.
Proof. reflexivity. Qed.

Lemma split_on_join s :
  String.concat (String sep "") (split_on sep s) = s.
Proof.
  induction s as [|c rest IH]; [reflexivity|].
  cbn [split_on].
  destruct (split_on_cons rest) as (first & others & E).
  rewrite E in *.
  destruct (Ascii.eqb c sep) eqn:Hc.
  - apply Ascii.eqb_eq in Hc. subst c.
    rewrite concat_cons, IH. reflexivity.
  - destruct others as [|second others].
    + cbn in IH |- *. rewrite IH. reflexivity.
    + rewrite concat_cons in IH |- *.
      change (String c (first ++ String sep "" ++
                          String.concat (String sep "")
                            (second :: others))%string
              = String c rest).
      f_equal. exact IH.
Qed.

Lemma split_on_length s :
  length (split_on sep s) = S (occurrences sep s).
Proof.
  induction s as [|c rest IH]; [reflexivity|].
  cbn [split_on occurrences].
  destruct (split_on_cons rest) as (first & others & E).
  rewrite E in *.
  destruct (Ascii.eqb c sep); cbn [length Nat.add] in *.
  - rewrite IH. reflexivity.
  - exact IH.
Qed.

Lemma split_on_pieces s :
  Forall (fun piece => has sep piece = false) (split_on sep s).
Proof.
  induction s as [|c rest IH]; [repeat constructor|].
  cbn [split_on].
  destruct (split_on_cons rest) as (first & others & E).
  rewrite E in *.
  destruct (Ascii.eqb c sep) eqn:Hc.
  - constructor; [reflexivity|exact IH].
  - inversion IH; subst. constructor; [|assumption].
    cbn [has]. rewrite Hc. assumption.
Qed.

(** X19.  [s.split(sep)] for a one-character separator: joining the pieces
    with the separator gives the string back, there is one more piece than
    occurrences of the separator in the string, and no piece contains the
    separator. *)
Theorem split_on_round_trip s :
  String.concat (String sep "") (split_on sep s) = s /\
  length (split_on sep s) = S (occurrences sep s) /\
  Forall (fun piece => has sep piece = false) (split_on sep s).
Proof.
  split; [apply split_on_join|].
  split; [apply split_on_length|apply split_on_pieces].
Qed.
End SplitOn.

Section ParseIds.
Lemma parse_ids_truthiness flag :
  truthy_opt_list (parse_ids flag) = truthy_opt_str flag.
Proof.
  unfold parse_ids. destruct flag as [s|]; cbn; [|reflexivity].
  destruct (truthy_str s); [|reflexivity].
  destruct (split_on_cons ","%char s) as (first & others & E).
  cbn. rewrite E. reflexivity.
Qed.

(** X20.  The ID flags of the command line.  The parsed list is truthy
    exactly when the flag is a non-empty string (a flag that is given never
    parses to an empty list); and whenever a list is produced, the flag was
    a non-empty string and joining the list with commas gives it back. *)
Theorem parse_ids_truthy flag :
  truthy_opt_list (parse_ids flag) = truthy_opt_str flag /\
  (forall ids, parse_ids flag = Some ids ->
     exists s, flag = Some s /\ s <> "" /\ String.concat "," ids = s).
Proof.
  split; [apply parse_ids_truthiness|].
  unfold parse_ids. destruct flag as [s|]; cbn.
  - destruct (truthy_str s) eqn:Hs; cbn.
    + intros ids [= <-]. exists s. split; [reflexivity|].
      split; [intros ->; discriminate Hs|].
      apply (split_on_join ","%char s).
    + intros ids H. discriminate H.
  - intros ids H. discriminate H.
Qed.
End ParseIds.

Section EntryPoints.
Context {W : Type} (aws : Collaborator W).

Lemma main_run fuel args w :
  Main.main aws fuel args w =
    let d := deploy_of aws fuel args w in
    MkRun (match outcome d with
           | Return _ => Return 0%Z
           | Raise _ => Return 1%Z
           | OutOfFuel => OutOfFuel
           end) (world d) (calls d).
Proof.
  unfold Main.main. fold (deploy_of aws fuel args). cbv zeta.
  unfold try_except, bind.
  destruct (deploy_of aws fuel args w) as [[result|e|] w1 l1];
    cbn; rewrite ?app_nil_r; reflexivity.
Qed.


(** X22.  [main] of [main.py] returns 1 without any client call when the
    image URI, the function name or the bucket name is empty, or when
    [--vpc-id] is given and [--subnet-ids] is missing or empty. *)
Theorem main_rejects_before_any_call fuel args w :
  ns_ecr_image_uri args = "" \/ ns_function_name args = "" \/
  ns_s3_bucket args = "" \/
  (truthy_opt_str (ns_vpc_id args) = true /\
   truthy_opt_str (ns_subnet_ids args) = false) ->
  Main.main aws fuel args w = MkRun (Return 1%Z) w [].
Proof.
  intros H. rewrite main_run. cbv zeta.
  assert (Hd : exists e, deploy_of aws fuel args w = MkRun (Raise e) w []).
  { unfold deploy_of, LambdaDeployer.deploy.
    destruct (string_dec (ns_ecr_image_uri args) "") as [->|Hecr];
      [eexists; reflexivity|].
    rewrite (truthy_str_nonempty _ Hecr). cbn [negb].
    destruct (string_dec (ns_function_name args) "") as [->|Hfn];
      [eexists; reflexivity|].
    rewrite (truthy_str_nonempty _ Hfn). cbn [negb].
    destruct (string_dec (ns_s3_bucket args) "") as [->|Hb];
      [eexists; reflexivity|].
    rewrite (truthy_str_nonempty _ Hb). cbn [negb].
    destruct H as [H|[H|[H|[Hvpc Hsub]]]]; try congruence.
    rewrite Hvpc.
    rewrite (parse_ids_truthiness (ns_subnet_ids args)), Hsub.
    eexists. reflexivity. }
  destruct Hd as (e & ->). reflexivity.
Qed.

Lemma or_exit_run {A} (step : M W A) w :
  Cli.or_exit step w =
    let r := step w in
    MkRun (match outcome r with
           | Return a => Return (inr a)
           | Raise _ => Return (inl 1%Z)
           | OutOfFuel => OutOfFuel
           end) (world r) (calls r).
Proof.
  unfold Cli.or_exit, try_except, bind. cbv zeta.
  destruct (step w) as [[a|e|] w1 l1]; cbn; rewrite ?app_nil_r;
    reflexivity.
Qed.

Lemma boto3_client_run session service (w : W) :
  boto3_client session service w =
    match session service with
    | Some e => MkRun (Raise e) w []
    | None => MkRun (Return tt) w []
    end.
Proof. unfold boto3_client. destruct (session service); reflexivity. Qed.

Lemma exit_code_client session clients service (k : M W Z) w :
  In service clients ->
  (forall w1, exit_code session clients (outcome (k w1))) ->
  exit_code session clients
    (outcome ((boto3_client session service ;; k) w)).
Proof.
  intros Hin Hk. unfold bind. rewrite boto3_client_run.
  destruct (session service) as [e|] eqn:E; cbn [outcome world calls].
  - exists service. auto.
  - apply Hk.
Qed.

Lemma exit_code_or_exit session clients {A} (step : M W A)
    (f : A -> M W Z) w :
  (forall a w1, exit_code session clients (outcome (f a w1))) ->
  exit_code session clients
    (outcome ((s <- Cli.or_exit step ;;
               match s with inl code => ret code | inr a => f a end) w)).
Proof.
  intros Hf. unfold bind. rewrite or_exit_run. cbv zeta.
  cbn [outcome world calls].
  destruct (outcome (step w)) as [a|e|]; cbn [outcome].
  - apply Hf.
  - right. reflexivity.
  - exact I.
Qed.

(** X23.  [deploy_command] of [cli.py].  With [--vpc-id] and without
    [--subnet-ids] it returns 1 without any client call.  Without
    [--vpc-id]: when the IAM client cannot be created, that exception
    escapes before any call; otherwise the first call is the [get_role]
    probe of the role name given, or of [lambda-{function_name}-role]
    (unlike [deploy], the command does not check the required names
    first); and the only exceptions that escape the command are those of
    creating the IAM, Lambda or S3 client, which the source does outside
    its [try] blocks: the exceptions of the three manager calls become
    exit code 1.  Whenever the command returns, the exit code is 0 or 1. *)
Theorem deploy_command_exit_codes session fuel args w :
  let r := Cli.deploy_command aws session fuel args w in
  let role_name :=
    if truthy_opt_str (ns_role_name args)
    then default "" (ns_role_name args)
    else "lambda-" +:+ ns_function_name args +:+ "-role" in
  (truthy_opt_str (ns_vpc_id args) = true ->
   truthy_opt_str (ns_subnet_ids args) = false ->
   r = MkRun (Return 1%Z) w []) /\
  (truthy_opt_str (ns_vpc_id args) = false ->
   (forall e, session IAM = Some e -> r = MkRun (Raise e) w []) /\
   (session IAM = None ->
    exists reply rest, calls r = Called (get_role role_name) reply :: rest) /\
   (forall e,
      outcome r = Raise e ->
      session IAM = Some e \/ session LAMBDA = Some e \/
      session S3 = Some e)) /\
  (forall code, outcome r = Return code -> code = 0%Z \/ code = 1%Z).
Proof.
  cbv zeta.
  assert (Hafter : forall vpc_config w1,
    exit_code session [IAM; LAMBDA; S3] (outcome
      ((boto3_client session IAM ;;
        role_step <-
          Cli.or_exit (IAMRoleManager.create_or_update_role aws fuel
                     (if truthy_opt_str (ns_role_name args)
                      then default "" (ns_role_name args)
                      else "lambda-" +:+ ns_function_name args +:+ "-role")
                     (ns_s3_bucket args) (ns_force_recreate_role args)) ;;
        match role_step with
        | inl code => ret code
        | inr role_arn =>
            boto3_client session LAMBDA ;;
            function_step <-
              Cli.or_exit (LambdaFunctionDeployer.deploy_function aws
                         (ns_function_name args) (ns_ecr_image_uri args)
                         role_arn (ns_memory_size args) (ns_timeout args)
                         vpc_config) ;;
            match function_step with
            | inl code => ret code
            | inr _ =>
                boto3_client session S3 ;;
                boto3_client session LAMBDA ;;
                s3_step <-
                  Cli.or_exit (S3AccessManager.configure_s3_access aws
                             (ns_function_name args) (ns_s3_bucket args)) ;;
                match s3_step with
                | inl code => ret code
                | inr _ => ret 0%Z
                end
            end
        end) w1))).
  { intros vpc_config w1.
    apply exit_code_client; [cbn; auto|intros w2].
    apply exit_code_or_exit. intros role_arn w3.
    apply exit_code_client; [cbn; auto|intros w4].
    apply exit_code_or_exit. intros function_arn w5.
    apply exit_code_client; [cbn; auto|intros w6].
    apply exit_code_client; [cbn; auto|intros w7].
    apply exit_code_or_exit. intros configured w8.
    cbn. left. reflexivity. }
  split; [|split].
  - intros Hvpc Hsub. unfold Cli.deploy_command.
    rewrite Hvpc, Hsub. reflexivity.
  - intros Hvpc. unfold Cli.deploy_command. rewrite Hvpc.
    rewrite (bind_run_Return _ _ _ (inr None) w [] eq_refl).
    cbn [app]. split; [|split].
    + intros e He.
      assert (Hc : boto3_client session IAM w = MkRun (Raise e) w [])
        by (rewrite boto3_client_run, He; reflexivity).
      rewrite (bind_run_Raise _ _ _ _ _ _ Hc). reflexivity.
    + intros He.
      assert (Hc : boto3_client session IAM w = MkRun (Return tt) w [])
        by (rewrite boto3_client_run, He; reflexivity).
      rewrite (bind_run_Return _ _ _ _ _ _ Hc). cbn [app calls].
      match goal with
      | |- context [calls (bind ?m ?f w)] =>
          destruct (calls_bind_prefix m f w) as (rest & ->)
      end.
      rewrite or_exit_run. cbv zeta. cbn [calls].
      destruct (create_or_update_role_first_call aws fuel
                  (if truthy_opt_str (ns_role_name args)
                   then default "" (ns_role_name args)
                   else "lambda-" +:+ ns_function_name args +:+ "-role")
                  (ns_s3_bucket args) (ns_force_recreate_role args) w)
        as (reply & rest' & ->).
      exists reply. eexists. reflexivity.
    + intros e He. specialize (Hafter None w).
      destruct (bind _ _ w) as [o w' l] in Hafter, He.
      cbn [outcome] in *. subst o.
      destruct Hafter as (service & Hin & Hs).
      destruct Hin as [<-|[<-|[<-|[]]]]; auto.
  - intros code Hcode. unfold Cli.deploy_command in Hcode.
    unfold bind at 1 in Hcode.
    match type of Hcode with
    | context [match outcome (?m w) with _ => _ end] =>
        destruct (m w) as [[[c|vpc_config]|e|] w1 l1] eqn:Hm
    end; cbn [outcome world calls] in Hcode.
    + cbn in Hcode.
      destruct (truthy_opt_str (ns_vpc_id args)).
      * destruct (negb (truthy_opt_str (ns_subnet_ids args))).
        -- apply MkRun_inj in Hm. destruct Hm as (Hm & _).
           injection Hm as <-. injection Hcode as <-. right. reflexivity.
        -- apply bind_returns in Hm.
           destruct Hm as ([] & w2 & l2 & l3 & _ & Hm & _).
           apply bind_returns in Hm.
           destruct Hm as (cfg & w3 & l4 & l5 & _ & Hret & _).
           apply ret_returns in Hret. destruct Hret as (Hret & _).
           discriminate Hret.
      * discriminate Hm.
    + specialize (Hafter vpc_config w1).
      destruct (bind _ _ w1) as [o w' l] in Hafter, Hcode.
      cbn [outcome] in *. subst o. exact Hafter.
    + discriminate Hcode.
    + discriminate Hcode.
Qed.

(** X24.  In [deploy_command] of [cli.py] the network step is not inside
    a [try]: with [--vpc-id] and [--subnet-ids] given, an exception of
    creating the EC2 client escapes the command before any call, and, when
    that client is created, an exception of [create_vpc_config] (called
    with [[]] for missing security group IDs) escapes the command, with
    exactly the calls of [create_vpc_config]. *)
Theorem deploy_command_vpc_error_escapes session fuel args w :
  truthy_opt_str (ns_vpc_id args) = true ->
  truthy_opt_str (ns_subnet_ids args) = true ->
  let v := VPCConfigurator.create_vpc_config aws
             (default "" (ns_vpc_id args))
             (split_on ","%char (default "" (ns_subnet_ids args)))
             (Some (the_list (parse_ids (ns_security_group_ids args)))) w in
  let r := Cli.deploy_command aws session fuel args w in
  (forall e, session EC2 = Some e -> r = MkRun (Raise e) w []) /\
  (session EC2 = None ->
   forall e,
     outcome v = Raise e -> r = MkRun (Raise e) (world v) (calls v)).
Proof.
  intros Hvpc Hsub. cbv zeta.
  unfold Cli.deploy_command. rewrite Hvpc, Hsub. cbn [negb].
  assert (Hsg : (if truthy_opt_str (ns_security_group_ids args)
                 then split_on ","%char
                        (default "" (ns_security_group_ids args))
                 else [])
                = the_list (parse_ids (ns_security_group_ids args))).
  { unfold parse_ids.
    destruct (truthy_opt_str (ns_security_group_ids args)); reflexivity. }
  rewrite Hsg. split.
  - intros e He.
    assert (Hc : boto3_client session EC2 w = MkRun (Raise e) w [])
      by (rewrite boto3_client_run, He; reflexivity).
    apply bind_run_Raise. apply bind_run_Raise. exact Hc.
  - intros He e Hv.
    assert (Hc : boto3_client session EC2 w = MkRun (Return tt) w [])
      by (rewrite boto3_client_run, He; reflexivity).
    destruct (VPCConfigurator.create_vpc_config aws
                (default "" (ns_vpc_id args))
                (split_on ","%char (default "" (ns_subnet_ids args)))
                (Some (the_list (parse_ids (ns_security_group_ids args))))
                w)
      as [o w1 l1] eqn:Hcfg.
    cbn [outcome world calls] in *. subst o.
    apply bind_run_Raise.
    rewrite (bind_run_Return _ _ _ _ _ _ Hc). cbn [app].
    rewrite (bind_run_Raise _ _ _ _ _ _ Hcfg). reflexivity.
Qed.
End EntryPoints.

(** ** The further properties on concrete runs *)

Lemma create_vpc_config_sound_witness :
  let r := VPCConfigurator.create_vpc_config Sim.provider "vpc-1"
             ["subnet-a"; "subnet-b"] (Some ["sg-1"]) Sim.fresh in
  let vpc_config := {| SubnetIds := ["subnet-a"; "subnet-b"];
                       SecurityGroupIds := Some ["sg-1"] |} in
  outcome r = Return vpc_config /\
  exists vpc vpcs subnets rest,
    calls r =
      Called (describe_vpcs ["vpc-1"]) (Ok (Some (vpc :: vpcs)))
      :: Called (describe_subnets ["subnet-a"; "subnet-b"])
           (Ok (Some subnets))
      :: rest /\
    Vpc_State vpc = Some "available" /\
    length subnets = 2 /\
    Forall (subnet_ok "vpc-1") subnets /\
    SubnetIds vpc_config = ["subnet-a"; "subnet-b"] /\
    ((truthy_opt_list (Some ["sg-1"]) = false /\ rest = [] /\
      SecurityGroupIds vpc_config = None) \/
     (exists groups,
        truthy_opt_list (Some ["sg-1"]) = true /\
        rest = [Called (describe_security_groups ["sg-1"])
                  (Ok (Some groups))] /\
        length groups = 1 /\
        Forall (security_group_ok "vpc-1") groups /\
        SecurityGroupIds vpc_config = Some ["sg-1"])).
Proof.
  cbv zeta.
  assert (H : outcome (VPCConfigurator.create_vpc_config Sim.provider "vpc-1"
                         ["subnet-a"; "subnet-b"] (Some ["sg-1"]) Sim.fresh)
              = Return {| SubnetIds := ["subnet-a"; "subnet-b"];
                          SecurityGroupIds := Some ["sg-1"] |})
    by (vm_compute; reflexivity).
  split; [exact H|].
  exact (create_vpc_config_sound Sim.provider "vpc-1"
           ["subnet-a"; "subnet-b"] (Some ["sg-1"]) Sim.fresh _ H).
Defined.

Lemma create_vpc_config_invalid_vpc_witness :
  Sim.provider _ (describe_vpcs ["vpc-2"]) Sim.fresh
    = (Ok (Some [ {| Vpc_State := Some "pending" |} ]), Sim.fresh) /\
  VPCConfigurator.create_vpc_config Sim.provider "vpc-2" ["subnet-a"] None
    Sim.fresh
  = MkRun (Raise (ValueError "Invalid VPC: {vpc_id}" [FStr "vpc-2"]))
      Sim.fresh
      [Called (describe_vpcs ["vpc-2"])
         (Ok (Some [ {| Vpc_State := Some "pending" |} ]))].
Proof.
  assert (H : Sim.provider _ (describe_vpcs ["vpc-2"]) Sim.fresh
              = (Ok (Some [ {| Vpc_State := Some "pending" |} ]), Sim.fresh))
    by (vm_compute; reflexivity).
  split; [exact H|].
  apply (proj1 (create_vpc_config_invalid_vpc Sim.provider "vpc-2"
                  ["subnet-a"] None Sim.fresh _ Sim.fresh H)).
  cbn. discriminate.
Defined.

Lemma create_vpc_config_invalid_subnets_witness :
  (VPCConfigurator._validate_vpc Sim.provider "vpc-1" Sim.fresh
     = MkRun (Return true) Sim.fresh
         [Called (describe_vpcs ["vpc-1"])
            (Ok (Some [ {| Vpc_State := Some "available" |} ]))] /\
   Sim.provider _ (describe_subnets ["subnet-a"; "subnet-zz"]) Sim.fresh
     = (Fault (ClientError "InvalidSubnetID.NotFound"), Sim.fresh)) /\
  VPCConfigurator.create_vpc_config Sim.provider "vpc-1"
    ["subnet-a"; "subnet-zz"] None Sim.fresh
  = MkRun (Raise (ValueError "Invalid subnets: {subnet_ids}"
                    [FList ["subnet-a"; "subnet-zz"]]))
      Sim.fresh
      ([Called (describe_vpcs ["vpc-1"])
          (Ok (Some [ {| Vpc_State := Some "available" |} ]))]
       ++ [Called (describe_subnets ["subnet-a"; "subnet-zz"])
             (Fault (ClientError "InvalidSubnetID.NotFound"))]).
Proof.
  assert (H1 : VPCConfigurator._validate_vpc Sim.provider "vpc-1" Sim.fresh
               = MkRun (Return true) Sim.fresh
                   [Called (describe_vpcs ["vpc-1"])
                      (Ok (Some [ {| Vpc_State := Some "available" |} ]))])
    by (vm_compute; reflexivity).
  assert (H2 : Sim.provider _ (describe_subnets ["subnet-a"; "subnet-zz"])
                 Sim.fresh
               = (Fault (ClientError "InvalidSubnetID.NotFound"), Sim.fresh))
    by (vm_compute; reflexivity).
  split; [split; [exact H1|exact H2]|].
  pose proof (create_vpc_config_invalid_subnets Sim.provider "vpc-1"
                ["subnet-a"; "subnet-zz"] None Sim.fresh _ _ _ Sim.fresh
                H1 H2) as H.
  cbv zeta in H. destruct H as (_ & _ & H & _).
  exact (H eq_refl).
Defined.

Lemma create_vpc_config_missing_list_key_witness :
  (VPCConfigurator._validate_vpc Stub.odd "vpc-1" tt
     = MkRun (Return true) tt
         [Called (describe_vpcs ["vpc-1"])
            (Ok (Some [ {| Vpc_State := Some "available" |} ]))] /\
   Stub.odd _ (describe_subnets []) tt = (Ok None, tt)) /\
  VPCConfigurator.create_vpc_config Stub.odd "vpc-1" [] None tt
  = MkRun (Raise (KeyError "Subnets")) tt
      ([Called (describe_vpcs ["vpc-1"])
          (Ok (Some [ {| Vpc_State := Some "available" |} ]))]
       ++ [Called (describe_subnets []) (Ok None)]).
Proof.
  assert (H1 : VPCConfigurator._validate_vpc Stub.odd "vpc-1" tt
               = MkRun (Return true) tt
                   [Called (describe_vpcs ["vpc-1"])
                      (Ok (Some [ {| Vpc_State := Some "available" |} ]))])
    by reflexivity.
  assert (H2 : Stub.odd _ (describe_subnets []) tt = (Ok None, tt))
    by reflexivity.
  split; [split; [exact H1|exact H2]|].
  exact (proj1 (create_vpc_config_missing_list_key Stub.odd "vpc-1" None tt
                  _ _ H1) tt H2).
Defined.

Lemma deploy_function_creates_when_absent_witness :
  (Sim.provider _ (get_function "f") Sim.fresh
     = (Fault (ClientError "ResourceNotFoundException"), Sim.fresh) /\
   Sim.provider _
     (create_function (creation "f" "img:v1" Scenario.role_arn 128 30 None))
     Sim.fresh
     = (Ok Scenario.function_arn, Cases.created) /\
   Sim.provider _ (waiter_wait "function_active" "f") Cases.created
     = (Ok tt, Cases.created)) /\
  let r := LambdaFunctionDeployer.deploy_function Sim.provider "f" "img:v1"
             Scenario.role_arn 128 30 None Sim.fresh in
  count is_update_function_code (calls r) = 0 /\
  count is_update_function_configuration (calls r) = 0 /\
  count is_create_function (calls r) = 1 /\
  r = MkRun (Return Scenario.function_arn) Cases.created
        (create_path_calls "f" "img:v1" Scenario.role_arn 128 30 None
           Scenario.function_arn).
Proof.
  assert (H1 : Sim.provider _ (get_function "f") Sim.fresh
               = (Fault (ClientError "ResourceNotFoundException"), Sim.fresh))
    by (vm_compute; reflexivity).
  assert (H2 : Sim.provider _
                 (create_function
                    (creation "f" "img:v1" Scenario.role_arn 128 30 None))
                 Sim.fresh
               = (Ok Scenario.function_arn, Cases.created))
    by (vm_compute; reflexivity).
  assert (H3 : Sim.provider _ (waiter_wait "function_active" "f")
                 Cases.created
               = (Ok tt, Cases.created)) by (vm_compute; reflexivity).
  split; [split; [exact H1|split; [exact H2|exact H3]]|].
  pose proof (deploy_function_creates_when_absent Sim.provider "f" "img:v1"
                Scenario.role_arn 128%Z 30%Z None Sim.fresh _ _ _ H1 H2)
    as H.
  cbv zeta in H |- *. destruct H as (Ha & Hb & Hc & Hd).
  split; [exact Ha|]. split; [exact Hb|]. split; [exact Hc|].
  exact (Hd _ H3).
Defined.

Lemma deploy_function_update_window_witness :
  (Sim.provider _ (get_function "f") Scenario.deployed
     = (Ok tt, Scenario.deployed) /\
   Sim.provider _ (update_function_code "f" "img:v2") Scenario.deployed
     = (Ok Scenario.function_arn, Cases.recoded) /\
   Sim.provider _ (waiter_wait "function_updated" "f") Cases.recoded
     = (Ok tt, Cases.recoded) /\
   Sim.provider _
     (update_function_configuration
        (configuration_update "f" Scenario.role_arn 256 60 None))
     Cases.recoded
     = (Ok Scenario.function_arn, Cases.reconfigured) /\
   Sim.provider _ (waiter_wait "function_updated" "f") Cases.reconfigured
     = (Ok tt, Cases.reconfigured)) /\
  LambdaFunctionDeployer.deploy_function Sim.provider "f" "img:v2"
    Scenario.role_arn 256 60 None Scenario.deployed
  = MkRun (Return Scenario.function_arn) Cases.reconfigured
      (update_path_calls "f" "img:v2" Scenario.role_arn 256 60 None
         Scenario.function_arn Scenario.function_arn).
Proof.
  assert (H1 : Sim.provider _ (get_function "f") Scenario.deployed
               = (Ok tt, Scenario.deployed)) by (vm_compute; reflexivity).
  assert (H2 : Sim.provider _ (update_function_code "f" "img:v2")
                 Scenario.deployed
               = (Ok Scenario.function_arn, Cases.recoded))
    by (vm_compute; reflexivity).
  assert (H3 : Sim.provider _ (waiter_wait "function_updated" "f")
                 Cases.recoded
               = (Ok tt, Cases.recoded)) by (vm_compute; reflexivity).
  assert (H4 : Sim.provider _
                 (update_function_configuration
                    (configuration_update "f" Scenario.role_arn 256 60 None))
                 Cases.recoded
               = (Ok Scenario.function_arn, Cases.reconfigured))
    by (vm_compute; reflexivity).
  assert (H5 : Sim.provider _ (waiter_wait "function_updated" "f")
                 Cases.reconfigured
               = (Ok tt, Cases.reconfigured)) by (vm_compute; reflexivity).
  split; [repeat (split; [assumption|]); assumption|].
  pose proof (deploy_function_update_window Sim.provider "f" "img:v2"
                Scenario.role_arn 256%Z 60%Z None Scenario.deployed
                _ _ _ _ _ _ H1 H2 H3 H4) as H.
  cbv zeta in H. exact (H _ H5).
Defined.

Lemma create_or_update_role_absent_role_witness :
  Sim.provider _ (get_role "lambda-f-role") Sim.fresh
    = (Fault (ClientError "NoSuchEntity"), Sim.fresh) /\
  IAMRoleManager.create_or_update_role Sim.provider 5 "lambda-f-role" "data"
    true Sim.fresh
  = IAMRoleManager.create_or_update_role Sim.provider 5 "lambda-f-role"
      "data" false Sim.fresh /\
  forall force_recreate,
    let r := IAMRoleManager.create_or_update_role Sim.provider 5
               "lambda-f-role" "data" force_recreate Sim.fresh in
    count is_delete_role (calls r) = 0 /\
    forall arn,
      outcome r = Return arn ->
      exists rest,
        calls r =
          Called (get_role "lambda-f-role")
            (Fault (ClientError "NoSuchEntity"))
          :: Called (create_role_call "lambda-f-role") (Ok arn)
          :: rest.
Proof.
  assert (H : Sim.provider _ (get_role "lambda-f-role") Sim.fresh
              = (Fault (ClientError "NoSuchEntity"), Sim.fresh))
    by (vm_compute; reflexivity).
  split; [exact H|].
  exact (create_or_update_role_absent_role Sim.provider 5 "lambda-f-role"
           "data" Sim.fresh Sim.fresh H).
Defined.

Lemma create_role_basic_policy_conflict_witness :
  (Sim.provider _ (create_role_call "r") Cases.leftover_policy
     = (Ok "arn:aws:iam::123456789012:role/r", Cases.role_created) /\
   Sim.provider _ (create_basic_policy_call "r") Cases.role_created
     = (Fault (ClientError "EntityAlreadyExists"), Cases.role_created) /\
   Sim.provider _ get_caller_identity Cases.role_created
     = (Ok "123456789012", Cases.role_created) /\
   Sim.provider _
     (attach_role_policy "r"
        (IAMRoleManager.policy_arn_of "123456789012"
           (basic_execution_policy_name "r")))
     Cases.role_created
     = (Ok tt, Cases.basic_attached)) /\
  IAMRoleManager._create_role Sim.provider "r" Cases.leftover_policy
  = MkRun (Return "arn:aws:iam::123456789012:role/r") Cases.basic_attached
      [ Called (create_role_call "r") (Ok "arn:aws:iam::123456789012:role/r");
        Called (create_basic_policy_call "r")
          (Fault (ClientError "EntityAlreadyExists"));
        Called get_caller_identity (Ok "123456789012");
        Called (attach_role_policy "r"
                  (IAMRoleManager.policy_arn_of "123456789012"
                     (basic_execution_policy_name "r")))
          (Ok tt) ].
Proof.
  assert (H1 : Sim.provider _ (create_role_call "r") Cases.leftover_policy
               = (Ok "arn:aws:iam::123456789012:role/r", Cases.role_created))
    by (vm_compute; reflexivity).
  assert (H2 : Sim.provider _ (create_basic_policy_call "r")
                 Cases.role_created
               = (Fault (ClientError "EntityAlreadyExists"),
                  Cases.role_created)) by (vm_compute; reflexivity).
  assert (H3 : Sim.provider _ get_caller_identity Cases.role_created
               = (Ok "123456789012", Cases.role_created))
    by (vm_compute; reflexivity).
  assert (H4 : Sim.provider _
                 (attach_role_policy "r"
                    (IAMRoleManager.policy_arn_of "123456789012"
                       (basic_execution_policy_name "r")))
                 Cases.role_created
               = (Ok tt, Cases.basic_attached)) by (vm_compute; reflexivity).
  split; [repeat (split; [assumption|]); assumption|].
  exact (proj1 (create_role_basic_policy_conflict Sim.provider "r"
                  Cases.leftover_policy _ _ _ _ H1 H2)
           eq_refl _ _ _ _ H3 H4).
Defined.

Lemma create_or_update_role_force_recreate_witness :
  let r := IAMRoleManager.create_or_update_role Sim.provider 5
             "lambda-f-role" "data" true Scenario.deployed in
  (Sim.provider _ (get_role "lambda-f-role") Scenario.deployed
     = (Ok Scenario.role_arn, Scenario.deployed) /\
   outcome r = Return Scenario.role_arn) /\
  exists teardown rest,
    calls r =
      Called (get_role "lambda-f-role") (Ok Scenario.role_arn)
      :: teardown
      ++ Called (delete_role "lambda-f-role") (Ok tt)
      :: Called (create_role_call "lambda-f-role") (Ok Scenario.role_arn)
      :: rest /\
    all_listed_done (listed_attached "lambda-f-role")
      (is_detached "lambda-f-role") teardown /\
    all_listed_done (listed_inline "lambda-f-role")
      (is_inline_deleted "lambda-f-role") teardown /\
    count is_delete_role teardown = 0 /\
    count is_create_role teardown = 0.
Proof.
  cbv zeta.
  assert (H1 : Sim.provider _ (get_role "lambda-f-role") Scenario.deployed
               = (Ok Scenario.role_arn, Scenario.deployed))
    by (vm_compute; reflexivity).
  assert (H2 : outcome (IAMRoleManager.create_or_update_role Sim.provider 5
                          "lambda-f-role" "data" true Scenario.deployed)
               = Return Scenario.role_arn) by (vm_compute; reflexivity).
  split; [split; [exact H1|exact H2]|].
  exact (create_or_update_role_force_recreate Sim.provider 5 "lambda-f-role"
           "data" Scenario.deployed _ _ _ H1 H2).
Defined.

Lemma detach_policy_pagination_witness :
  let page := {| Items := Some ["reader"]; IsTruncated := Some true;
                 Marker := None |} in
  Stub.odd _ (list_entities_for_policy "p" "Role" None) tt = (Ok page, tt) /\
  IAMRoleManager._detach_policy_from_all_entities Stub.odd 3 "p" tt
  = MkRun (Raise (KeyError "Marker")) tt
      [ Called (list_entities_for_policy "p" "Role" None) (Ok page);
        Called (detach_role_policy "reader" "p") (Ok tt) ].
Proof.
  cbv zeta.
  assert (H : Stub.odd _ (list_entities_for_policy "p" "Role" None) tt
              = (Ok {| Items := Some ["reader"]; IsTruncated := Some true;
                       Marker := None |}, tt)) by reflexivity.
  split; [exact H|].
  pose proof (detach_policy_pagination Stub.odd 3 "p" tt _ _ H) as Hp.
  cbv zeta in Hp. destruct Hp as (_ & Hp).
  exact (Hp eq_refl eq_refl (fun E => O_S 2 (eq_sym E)) eq_refl).
Defined.

Lemma deploy_stops_at_vpc_failure_witness :
  let v := VPCConfigurator.create_vpc_config Sim.provider "vpc-2"
             ["subnet-a"] None Sim.fresh in
  let r := LambdaDeployer.deploy Sim.provider 5 "img:v1" "f" "data" None
             128 30 (Some "vpc-2") (Some ["subnet-a"]) None false Sim.fresh in
  outcome v = Raise (ValueError "Invalid VPC: {vpc_id}" [FStr "vpc-2"]) /\
  r = MkRun (Raise (ValueError "Invalid VPC: {vpc_id}" [FStr "vpc-2"]))
        (world v) (calls v) /\
  Forall (fun ev => talks_to [EC2] ev = true) (calls r).
Proof.
  cbv zeta.
  assert (H : outcome (VPCConfigurator.create_vpc_config Sim.provider "vpc-2"
                         ["subnet-a"] None Sim.fresh)
              = Raise (ValueError "Invalid VPC: {vpc_id}" [FStr "vpc-2"]))
    by (vm_compute; reflexivity).
  split; [exact H|].
  refine (deploy_stops_at_vpc_failure Sim.provider 5 "img:v1" "f" "data"
            None 128%Z 30%Z (Some "vpc-2") (Some ["subnet-a"]) None false
            Sim.fresh _ _ _ _ eq_refl eq_refl H); discriminate.
Defined.

Lemma deploy_default_role_name_witness :
  let deploy_as role_name :=
    LambdaDeployer.deploy Sim.provider 5 "img:v1" "f" "data" role_name
      128 30 None None None false Sim.fresh in
  truthy_opt_str None = false /\
  deploy_as (Some "") = deploy_as (Some "lambda-f-role") /\
  exists reply rest,
    calls (deploy_as (Some "")) = Called (get_role "lambda-f-role") reply :: rest.
Proof.
  cbv zeta. split; [reflexivity|].
  refine (deploy_default_role_name Sim.provider 5 "img:v1" "f" "data"
            (Some "") 128%Z 30%Z None None None false Sim.fresh
            _ _ _ eq_refl); discriminate.
Defined.

Lemma deploy_phases_in_order_witness :
  let r := LambdaDeployer.deploy Sim.provider 5 "img:v1" "f" "data" None
             128 30 (Some "vpc-1") (Some ["subnet-a"]) (Some ["sg-1"]) false
             Sim.fresh in
  outcome r = Return {| function_arn := Scenario.function_arn;
                        role_arn := Scenario.role_arn |} /\
  exists networking identity function storage,
    calls r = networking ++ identity ++ function ++ storage /\
    Forall (fun ev => talks_to [EC2] ev = true) networking /\
    Forall (fun ev => talks_to [IAM; STS] ev = true) identity /\
    Forall (fun ev => talks_to [LAMBDA] ev = true) function /\
    Forall (fun ev => talks_to [S3; LAMBDA] ev = true) storage /\
    (truthy_opt_str (Some "vpc-1") = false -> networking = []) /\
    identity <> [] /\ function <> [] /\ storage <> [].
Proof.
  cbv zeta.
  assert (H : outcome (LambdaDeployer.deploy Sim.provider 5 "img:v1" "f"
                         "data" None 128 30 (Some "vpc-1")
                         (Some ["subnet-a"]) (Some ["sg-1"]) false Sim.fresh)
              = Return {| function_arn := Scenario.function_arn;
                          role_arn := Scenario.role_arn |})
    by (vm_compute; reflexivity).
  split; [exact H|].
  exact (deploy_phases_in_order Sim.provider 5 "img:v1" "f" "data" None
           128%Z 30%Z (Some "vpc-1") (Some ["subnet-a"]) (Some ["sg-1"])
           false Sim.fresh _ H).
Defined.

Lemma main_rejects_before_any_call_witness :
  (truthy_opt_str (ns_vpc_id Cases.args_without_subnets) = true /\
   truthy_opt_str (ns_subnet_ids Cases.args_without_subnets) = false) /\
  Main.main Sim.provider 5 Cases.args_without_subnets Sim.fresh
  = MkRun (Return 1%Z) Sim.fresh [].
Proof.
  split; [split; reflexivity|].
  apply (main_rejects_before_any_call Sim.provider 5
           Cases.args_without_subnets Sim.fresh).
  right. right. right. split; reflexivity.
Defined.

Lemma deploy_command_vpc_error_escapes_witness :
  let v := VPCConfigurator.create_vpc_config Sim.provider
             (default "" (ns_vpc_id Cases.args_pending_vpc))
             (split_on ","%char
                (default "" (ns_subnet_ids Cases.args_pending_vpc)))
             (Some (the_list
                      (parse_ids
                         (ns_security_group_ids Cases.args_pending_vpc))))
             Sim.fresh in
  (truthy_opt_str (ns_vpc_id Cases.args_pending_vpc) = true /\
   truthy_opt_str (ns_subnet_ids Cases.args_pending_vpc) = true /\
   Cases.configured EC2 = None /\
   outcome v = Raise (ValueError "Invalid VPC: {vpc_id}" [FStr "vpc-2"])) /\
  Cli.deploy_command Sim.provider Cases.configured 5 Cases.args_pending_vpc
    Sim.fresh
  = MkRun (Raise (ValueError "Invalid VPC: {vpc_id}" [FStr "vpc-2"]))
      (world v) (calls v).
Proof.
  cbv zeta.
  assert (H : outcome
                (VPCConfigurator.create_vpc_config Sim.provider
                   (default "" (ns_vpc_id Cases.args_pending_vpc))
                   (split_on ","%char
                      (default "" (ns_subnet_ids Cases.args_pending_vpc)))
                   (Some (the_list
                            (parse_ids
                               (ns_security_group_ids
                                  Cases.args_pending_vpc))))
                   Sim.fresh)
              = Raise (ValueError "Invalid VPC: {vpc_id}" [FStr "vpc-2"]))
    by (vm_compute; reflexivity).
  split; [split; [reflexivity|split; [reflexivity|split;
                                        [reflexivity|exact H]]]|].
  exact (proj2 (deploy_command_vpc_error_escapes Sim.provider
                  Cases.configured 5 Cases.args_pending_vpc Sim.fresh
                  eq_refl eq_refl) eq_refl _ H).
Defined.
